(** * gopro2gpx: the GPS point builder and the single-channel extractors

    A shallow embedding of [gopro2gpx/gopro2gpx.py]:
    [GetCORIData], [GetGRAVData], [GetACCLData], [BuildGPSPoints] and the
    dispatch at the end of [main_core].

    Python values are modelled as follows.
    - Exceptions: the functions return a [result], [Ok v] or [Raise e].  An
      exception ends the run; what was printed before it is not kept.
    - [float] is IEEE binary64, Rocq's primitive [float]; [int] is [Z].
    - [print] appends an [event] to the [stdout] field of the state.
    - A record [d] of the decoded stream is a [KLVData]: the constructor is
      the tag [d.fourCC], its argument is the payload [d.data], of the shape
      the decoder attaches to that tag.  The raw fields of the sensor
      records are the integers the stream stores; the scale of a [SCAL]
      record is a bare number or a tuple of numbers. *)

From Stdlib Require Import ZArith List String Bool Lia.
From Stdlib Require Import Floats.PrimFloat Floats.SpecFloat Floats.FloatOps.
Import ListNotations.

(** ** Python: exceptions, numbers, sequences *)

Module Py.

(** The [TypeError]s the modelled code can raise. *)
Inductive type_error : Type :=
| NotIterable                       (* list(x) on a bare number *)
| NotANumber                        (* float(x) on a tuple *)
| WrongArity (expected got : nat)   (* namedtuple._make with the wrong number of values *)
| NoneAnchor.                       (* None + timedelta *)

Inductive exn : Type :=
| ZeroDivisionError
| TypeError (why : type_error)
| IndexError
| KeyError (key : Z)
| AttributeError.

Inductive result (A : Type) : Type :=
| Ok (a : A)
| Raise (e : exn).

Arguments Ok {A} a.
Arguments Raise {A} e.

Definition bind {A B : Type} (r : result A) (k : A -> result B) : result B :=
  match r with
  | Ok a => k a
  | Raise e => Raise e
  end.

(** [for x in xs: s = f(s, x)], stopping at the first exception. *)
Fixpoint foldM {S X : Type} (f : S -> X -> result S) (xs : list X) (s : S) : result S :=
  match xs with
  | [] => Ok s
  | x :: rest => bind (f s x) (foldM f rest)
  end.

(** [[f(x) for x in xs]], evaluated left to right. *)
Fixpoint mapM {X Y : Type} (f : X -> result Y) (xs : list X) : result (list Y) :=
  match xs with
  | [] => Ok []
  | x :: rest =>
      bind (f x) (fun y => bind (mapM f rest) (fun ys => Ok (y :: ys)))
  end.

(** [xs[i]]. *)
Definition getitem {X : Type} (xs : list X) (i : nat) : result X :=
  match nth_error xs i with
  | Some x => Ok x
  | None => Raise IndexError
  end.

(** A Python number: an [int] or a [float]. *)
Inductive pynum : Type :=
| PInt (z : Z)
| PFloat (f : float).

(** [float(z)] for an int [z]: the nearest binary64, ties to even.  The
    integers of the stream have at most 64 bits, so the conversion never
    overflows. *)
Definition float_of_int (z : Z) : float :=
  SF2Prim (binary_normalize prec emax z 0 false).

(** [float(n)]. *)
Definition to_float (n : pynum) : float :=
  match n with
  | PInt z => float_of_int z
  | PFloat f => f
  end.

(** [x / y] on floats. *)
Definition truediv (x y : float) : result float :=
  if (y =? 0)%float then Raise ZeroDivisionError else Ok (x / y)%float.

(** [x != 0] on a float. *)
Definition nonzero (x : float) : bool := negb (x =? 0)%float.

End Py.

Import Py.

Notation "x <- c ;; k" := (bind c (fun x => k))
  (at level 61, c at next level, right associativity).

(** An instant ([datetime.datetime]), as a count of microseconds.  The
    builder only stores and copies the instants it is given. *)
Definition datetime : Type := Z.

(** ** The [fourCC] module: the payload types *)

Module fourCC.

(** The payload of [SCAL]: a bare number when the record holds one value, a
    tuple otherwise. *)
Inductive scal : Type :=
| Scalar (n : pynum)
| Vector (ys : list pynum).

(** [XYZData(x, y, z)], as the tuple it is. *)
Definition XYZData (x y z : float) : scal := Vector [PFloat x; PFloat y; PFloat z].

(** Modelled from the spec: the [GPSData] namedtuple, whose declaration is
    not in the source file; the layout of GPS5 is the 5-tuple
    lat/lon/alt/speed2d/speed3d, the fourth being read as [.speed]. *)
Record GPSData (A : Type) : Type := mkGPSData
  { lat : A; lon : A; alt : A; speed : A; speed3d : A }.

Arguments mkGPSData {A} lat lon alt speed speed3d.
Arguments lat {A} g.
Arguments lon {A} g.
Arguments alt {A} g.
Arguments speed {A} g.
Arguments speed3d {A} g.

(** [g._asdict().values()] *)
Definition GPSData_values {A : Type} (g : GPSData A) : list A :=
  [lat g; lon g; alt g; speed g; speed3d g].

(** [GPSData._make(l)] *)
Definition GPSData_make {A : Type} (l : list A) : result (GPSData A) :=
  match l with
  | [a; b; c; d; e] => Ok (mkGPSData a b c d e)
  | _ => Raise (TypeError (WrongArity 5 (List.length l)))
  end.

(** The [SYSTData] namedtuple: [SYSTData(0, 0)], read as [.seconds] and
    [.miliseconds]. *)
Record SYSTData (A : Type) : Type := mkSYSTData
  { seconds : A; miliseconds : A }.

Arguments mkSYSTData {A} seconds miliseconds.
Arguments seconds {A} s.
Arguments miliseconds {A} s.

Definition SYSTData_values {A : Type} (s : SYSTData A) : list A :=
  [seconds s; miliseconds s].

Definition SYSTData_make {A : Type} (l : list A) : result (SYSTData A) :=
  match l with
  | [a; b] => Ok (mkSYSTData a b)
  | _ => Raise (TypeError (WrongArity 2 (List.length l)))
  end.

(** The layout of a namedtuple of which the source reads [.lat], [.lon],
    [.alt] and [.speed]: the number of fields and the positions of those
    four.  An instance is the list of its values. *)
Record layout : Type := mkLayout
  { n_fields : nat; at_lat : nat; at_lon : nat; at_alt : nat; at_speed : nat }.

Definition field {A : Type} (dflt : A) (pos : nat) (values : list A) : A :=
  nth pos values dflt.

(** [C._make(l)] for a namedtuple class [C] of layout [L]. *)
Definition make {A : Type} (L : layout) (l : list A) : result (list A) :=
  if Nat.eqb (List.length l) (n_fields L) then Ok l
  else Raise (TypeError (WrongArity (n_fields L) (List.length l))).

(** A record of the decoded stream. *)
Inductive KLVData : Type :=
| R_SCAL (v : scal)
| R_DVNM (name : string)
| R_GPSU (t : datetime)
| R_GPSF (code : Z)
| R_TSMP (count : Z)
| R_GPS5 (items : list (GPSData Z))
| R_SYST (d : SYSTData Z)
| R_GPRI (values : list Z)
| R_CORI (items : list (list Z))
| R_GRAV (items : list (list Z))
| R_ACCL (items : list (list Z))
| R_other.                          (* any other tag *)

End fourCC.

Import fourCC.

(** ** The [gpshelper] module: the emitted point *)

Module gpshelper.

(** [GPSU + datetime.timedelta(seconds=x)]: the anchor and the offset [x]
    in seconds handed to [timedelta] (which keeps it to the microsecond). *)
Record timestamp : Type := mkTime
  { anchor : datetime; seconds_after : float }.

(** [GPSPoint(latitude, longitude, elevation, time, speed)] *)
Record GPSPoint : Type := mkPoint
  { latitude : float; longitude : float; elevation : float;
    time : timestamp; speed : float }.

End gpshelper.

Import gpshelper.

(** ** Scaling: [[float(x) / float(y) for x, y in zip(values, list(SCAL))]] *)

(** [list(SCAL)] *)
Definition scale_list (SCAL : scal) : result (list pynum) :=
  match SCAL with
  | Vector ys => Ok ys
  | Scalar _ => Raise (TypeError NotIterable)
  end.

Definition scale_fields (values : list Z) (SCAL : scal) : result (list float) :=
  ys <- scale_list SCAL ;;
  mapM (fun xy => truediv (float_of_int (fst xy)) (to_float (snd xy)))
       (combine values ys).

(** [float(SCAL)] *)
Definition float_of_scal (SCAL : scal) : result float :=
  match SCAL with
  | Scalar n => Ok (to_float n)
  | Vector _ => Raise (TypeError NotANumber)
  end.

(** [[x / float(SCAL) for x in item._asdict().values()]] *)
Definition scaled_data (SCAL : scal) (item : list Z) : result (list float) :=
  mapM (fun x => s <- float_of_scal SCAL ;; truediv (float_of_int x) s) item.

(** ** [GetCORIData], [GetGRAVData], [GetACCLData] *)

(** The locals of the three loops: [SCAL] and the rows collected so far. *)
Definition rows : Type := list (list float).

Definition append_rows (SCAL : scal) (items : list (list Z)) (all : rows)
  : result rows :=
  foldM (fun acc item => r <- scaled_data SCAL item ;; Ok (acc ++ [r])) items all.

Definition cori_step (st : scal * rows) (d : KLVData) : result (scal * rows) :=
  let (SCAL, all_cori_data) := st in
  match d with
  | R_SCAL v => Ok (v, all_cori_data)
  | R_CORI items => all <- append_rows SCAL items all_cori_data ;; Ok (SCAL, all)
  | _ => Ok st
  end.

Definition GetCORIData (data : list KLVData) : result rows :=
  st <- foldM cori_step data (Scalar (PFloat 1), []) ;; Ok (snd st).

Definition grav_step (st : scal * rows) (d : KLVData) : result (scal * rows) :=
  let (SCAL, all_grav_data) := st in
  match d with
  | R_SCAL v => Ok (v, all_grav_data)
  | R_GRAV items => all <- append_rows SCAL items all_grav_data ;; Ok (SCAL, all)
  | _ => Ok st
  end.

Definition GetGRAVData (data : list KLVData) : result rows :=
  st <- foldM grav_step data (Scalar (PFloat 1), []) ;; Ok (snd st).

Definition accl_step (st : scal * rows) (d : KLVData) : result (scal * rows) :=
  let (SCAL, all_accl_data) := st in
  match d with
  | R_SCAL v => Ok (v, all_accl_data)
  | R_ACCL items => all <- append_rows SCAL items all_accl_data ;; Ok (SCAL, all)
  | _ => Ok st
  end.

Definition GetACCLData (data : list KLVData) : result rows :=
  st <- foldM accl_step data (Scalar (PFloat 1), []) ;; Ok (snd st).

(** ** [BuildGPSPoints] *)

(** What [print] writes; the text of a line is not modelled, its
    arguments are. *)
Inductive event : Type :=
| FixChange (code : Z) (label : string)   (* "GPSFIX change to %s [%s]" *)
| SkipEmpty                               (* "Warning: Skipping empty point" *)
| SkipBadFix                              (* "Warning: Skipping point due GPSFIX==0" *)
| PrintXX (ms : float)                    (* "XX", SYST.miliseconds *)
| StatsBlock (device : string) (n_ok n_badfix n_badfixskip n_empty total : nat).
                                          (* the block after the loop *)

(** [stats = {"ok": 0, "badfix": 0, "badfixskip": 0, "empty": 0}] *)
Record Stats : Type := mkStats
  { ok : nat; badfix : nat; badfixskip : nat; empty : nat }.

(** The locals of [BuildGPSPoints], and what it has printed.  [SYST] starts
    as [SYSTData(0, 0)] and afterwards holds floats; it is only compared
    with 0, so the initial ints are kept as the floats 0. *)
Record state : Type := mkState
  { points : list GPSPoint;
    start_time : option datetime;
    SCAL : scal;
    GPSU : option datetime;
    SYST : SYSTData float;
    stats : Stats;
    GPSFIX : Z;
    TSMP : Z;
    DVNM : string;
    stdout : list event }.

Definition init : state :=
  {| points := [];
     start_time := None;
     SCAL := XYZData 1 1 1;
     GPSU := None;
     SYST := mkSYSTData 0%float 0%float;
     stats := mkStats 0 0 0 0;
     GPSFIX := 0%Z;
     TSMP := 0%Z;
     DVNM := "Unknown";
     stdout := [] |}.

Definition set_points (v : list GPSPoint) (st : state) : state :=
  mkState v (start_time st) (SCAL st) (GPSU st) (SYST st) (stats st)
          (GPSFIX st) (TSMP st) (DVNM st) (stdout st).

Definition set_start_time (v : option datetime) (st : state) : state :=
  mkState (points st) v (SCAL st) (GPSU st) (SYST st) (stats st)
          (GPSFIX st) (TSMP st) (DVNM st) (stdout st).

Definition set_SCAL (v : scal) (st : state) : state :=
  mkState (points st) (start_time st) v (GPSU st) (SYST st) (stats st)
          (GPSFIX st) (TSMP st) (DVNM st) (stdout st).

Definition set_GPSU (v : option datetime) (st : state) : state :=
  mkState (points st) (start_time st) (SCAL st) v (SYST st) (stats st)
          (GPSFIX st) (TSMP st) (DVNM st) (stdout st).

Definition set_SYST (v : SYSTData float) (st : state) : state :=
  mkState (points st) (start_time st) (SCAL st) (GPSU st) v (stats st)
          (GPSFIX st) (TSMP st) (DVNM st) (stdout st).

Definition set_stats (v : Stats) (st : state) : state :=
  mkState (points st) (start_time st) (SCAL st) (GPSU st) (SYST st) v
          (GPSFIX st) (TSMP st) (DVNM st) (stdout st).

Definition set_GPSFIX (v : Z) (st : state) : state :=
  mkState (points st) (start_time st) (SCAL st) (GPSU st) (SYST st) (stats st)
          v (TSMP st) (DVNM st) (stdout st).

Definition set_TSMP (v : Z) (st : state) : state :=
  mkState (points st) (start_time st) (SCAL st) (GPSU st) (SYST st) (stats st)
          (GPSFIX st) v (DVNM st) (stdout st).

Definition set_DVNM (v : string) (st : state) : state :=
  mkState (points st) (start_time st) (SCAL st) (GPSU st) (SYST st) (stats st)
          (GPSFIX st) (TSMP st) v (stdout st).

(** [print(...)] *)
Definition print (e : event) (st : state) : state :=
  mkState (points st) (start_time st) (SCAL st) (GPSU st) (SYST st) (stats st)
          (GPSFIX st) (TSMP st) (DVNM st) (stdout st ++ [e]).

(** [stats["ok"] += 1] and the like *)
Definition incr_ok (st : state) : state :=
  let s := stats st in
  set_stats (mkStats (S (ok s)) (badfix s) (badfixskip s) (empty s)) st.

Definition incr_badfix (st : state) : state :=
  let s := stats st in
  set_stats (mkStats (ok s) (S (badfix s)) (badfixskip s) (empty s)) st.

Definition incr_badfixskip (st : state) : state :=
  let s := stats st in
  set_stats (mkStats (ok s) (badfix s) (S (badfixskip s)) (empty s)) st.

Definition incr_empty (st : state) : state :=
  let s := stats st in
  set_stats (mkStats (ok s) (badfix s) (badfixskip s) (S (empty s))) st.

(** [if GPSFIX == 0: stats["badfix"] += 1] *)
Definition note_badfix (st : state) : state :=
  if (GPSFIX st =? 0)%Z then incr_badfix st else st.

(** [t_delta = 1 / 18.0] *)
Definition t_delta : float := (1 / 18)%float.

(** [GPSU + datetime.timedelta(seconds=x)]: a [TypeError] while [GPSU] is
    [None]. *)
Definition add_seconds (GPSU : option datetime) (x : float) : result timestamp :=
  match GPSU with
  | Some t => Ok (mkTime t x)
  | None => Raise (TypeError NoneAnchor)
  end.

(** [a == b == c == 0], that is [a == b and b == c and c == 0]. *)
Definition all_zero (a b c : Z) : bool :=
  ((a =? b) && (b =? c) && (c =? 0))%Z.

(** One turn of [for item in d.data] in the GPS5 branch; the loop carries
    the state and [sample_count]. *)
Definition gps5_item (skip : bool) (acc : state * nat) (item : GPSData Z)
  : result (state * nat) :=
  let (st, sample_count) := acc in
  if all_zero (lon item) (lat item) (alt item) then
    Ok (incr_empty (print SkipEmpty st), sample_count)
  else
    let st1 := note_badfix st in
    if (GPSFIX st =? 0)%Z && skip then
      Ok (incr_badfixskip (print SkipBadFix st1), sample_count)
    else
      retdata <- scale_fields (GPSData_values item) (SCAL st1) ;;
      gpsdata <- GPSData_make retdata ;;
      t <- add_seconds (GPSU st1)
             (float_of_int (Z.of_nat sample_count) * t_delta)%float ;;
      let p := mkPoint (lat gpsdata) (lon gpsdata) (alt gpsdata) t
                       (fourCC.speed gpsdata) in
      Ok (incr_ok (set_points (points st1 ++ [p]) st1), S sample_count).

Section Builder.

(** The two declarations of the [fourCC] module that [BuildGPSPoints] uses
    and the source file does not show: the table [LabelGPSF.xlate] (a
    lookup that fails is a [KeyError]) and the layout of [KARMAGPSData]. *)
Variable xlate : Z -> option string.
Variable KARMAGPSData : layout.

Definition xlate_getitem (code : Z) : result string :=
  match xlate code with
  | Some label => Ok label
  | None => Raise (KeyError code)
  end.

(** The body of [for d in data].  In the SYST branch the source rebinds the
    name [data]; the loop goes on over the list it started with.  In the
    GPRI branch [datetime] is the module ([import datetime]), which has no
    attribute [fromtimestamp]: evaluating the fourth argument of [GPSPoint]
    raises [AttributeError]. *)
Definition step (skip : bool) (st : state) (d : KLVData) : result state :=
  match d with
  | R_SCAL v => Ok (set_SCAL v st)
  | R_DVNM name => Ok (set_DVNM name st)
  | R_GPSU t =>
      let st1 := set_GPSU (Some t) st in
      match start_time st1 with
      | None => Ok (set_start_time (GPSU st1) st1)
      | Some _ => Ok st1
      end
  | R_GPSF code =>
      st1 <- (if negb (code =? GPSFIX st)%Z
              then label <- xlate_getitem code ;; Ok (print (FixChange code label) st)
              else Ok st) ;;
      Ok (set_GPSFIX code st1)
  | R_TSMP count =>
      if (TSMP st =? 0)%Z then Ok (set_TSMP count st)
      else Ok (set_TSMP (count - TSMP st)%Z st)
  | R_GPS5 items =>
      acc <- foldM (gps5_item skip) items (st, 0) ;; Ok (fst acc)
  | R_SYST d =>
      data <- scale_fields (SYSTData_values d) (SCAL st) ;;
      d0 <- getitem data 0 ;;
      if nonzero d0 then
        d1 <- getitem data 1 ;;
        if nonzero d1 then s <- SYSTData_make data ;; Ok (set_SYST s st)
        else Ok st
      else Ok st
  | R_GPRI values =>
      if all_zero (field 0%Z (at_lon KARMAGPSData) values)
                  (field 0%Z (at_lat KARMAGPSData) values)
                  (field 0%Z (at_alt KARMAGPSData) values) then
        Ok (incr_empty (print SkipEmpty st))
      else
        let st1 := note_badfix st in
        if (GPSFIX st =? 0)%Z && skip then
          Ok (incr_badfixskip (print SkipBadFix st1))
        else
          data <- scale_fields values (SCAL st1) ;;
          gpsdata <- make KARMAGPSData data ;;
          if nonzero (seconds (SYST st1)) && nonzero (miliseconds (SYST st1)) then
            let st2 := print (PrintXX (miliseconds (SYST st1))) st1 in
            Raise AttributeError
          else Ok st1
  | R_CORI _ | R_GRAV _ | R_ACCL _ | R_other => Ok st
  end.

(** The loop of [BuildGPSPoints]. *)
Definition loop (skip : bool) (data : list KLVData) (st : state) : result state :=
  foldM (step skip) data st.

(** [total_points]: the sum over [stats.keys()]. *)
Definition total_points (s : Stats) : nat :=
  0 + ok s + badfix s + badfixskip s + empty s.

Definition stats_block (st : state) : event :=
  let s := stats st in
  StatsBlock (DVNM st) (ok s) (badfix s) (badfixskip s) (empty s) (total_points s).

(** [BuildGPSPoints(data, skip)]: the returned tuple
    [(points, start_time, DVNM)], and what was printed. *)
Definition returned : Type := list GPSPoint * option datetime * string.

Definition BuildGPSPoints (data : list KLVData) (skip : bool)
  : result (returned * list event) :=
  st <- loop skip data init ;;
  let st' := print (stats_block st) st in
  Ok ((points st', start_time st', DVNM st'), stdout st').

(** ** The end of [main_core]: from the decoded records to what is written *)

Inductive outcome : Type :=
| WriteCSV (data : rows)                       (* write_csv(data, output_file) *)
| SysExit (code : Z)                           (* "Can't create file. No GPS info ..." *)
| WriteKMLGPX (points : list GPSPoint) (start_time : option datetime)
              (device_name : string)           (* the .kml and .gpx files *)
| Uncaught (e : exn).

Definition write_rows (r : result rows) : outcome :=
  match r with
  | Ok data => WriteCSV data
  | Raise e => Uncaught e
  end.

Definition main_core (fourcc_type : option string) (skip : bool)
    (data : list KLVData) : outcome :=
  let wants t := match fourcc_type with
                 | Some s => String.eqb s t
                 | None => false
                 end in
  if wants "GRAV"%string then write_rows (GetGRAVData data)
  else if wants "CORI"%string then write_rows (GetCORIData data)
  else if wants "ACCL"%string then write_rows (GetACCLData data)
  else
    match BuildGPSPoints data skip with
    | Raise e => Uncaught e
    | Ok (points, start_time, device_name, _) =>
        if Nat.eqb (List.length points) 0 then SysExit 0
        else WriteKMLGPX points start_time device_name
    end.

End Builder.

(** ** An instance of the two missing declarations, for the examples *)

(** The fix codes of the format: 0 (no lock), 2 and 3. *)
Definition LabelGPSF_xlate (code : Z) : option string :=
  if (code =? 0)%Z then Some "no lock"%string
  else if (code =? 2)%Z then Some "2D Lock"%string
  else if (code =? 3)%Z then Some "3D Lock"%string
  else None.

(** A layout of eight fields with lat, lon, alt and speed at positions 3
    to 6. *)
Definition KARMA_layout : layout := mkLayout 8 3 4 5 6.

(** ** Vocabulary of the statements *)

(** A GPS5 sample passes the two filters under the fix code [code]: it is
    not all zero, and it is not dropped for a bad fix. *)
Definition passes_filters (skip : bool) (code : Z) (item : GPSData Z) : bool :=
  negb (all_zero (lon item) (lat item) (alt item))
  && negb ((code =? 0)%Z && skip).

Definition accepted (skip : bool) (st : state) (item : GPSData Z) : bool :=
  passes_filters skip (GPSFIX st) item.

(** Every divisor of the list is a non-zero float. *)
Definition divisors_nonzero (ys : list pynum) : bool :=
  forallb (fun y => nonzero (to_float y)) ys.

Definition SCAL_five_tens : KLVData := R_SCAL (Vector (map PInt [10; 10; 10; 10; 10]%Z)).
Definition SCAL_five_ones : KLVData := R_SCAL (Vector (map PInt [1; 1; 1; 1; 1]%Z)).
Definition GPS5_100_200_300_40_50 : KLVData := R_GPS5 [mkGPSData 100 200 300 40 50]%Z.

(** ** Vocabulary of the statements about a whole pass *)

(** The payload of the first GPSU record of a sequence. *)
Fixpoint first_GPSU (data : list KLVData) : option datetime :=
  match data with
  | [] => None
  | R_GPSU t :: _ => Some t
  | _ :: rest => first_GPSU rest
  end.

(** The payload of the last DVNM record of a sequence, [dflt] without one. *)
Definition last_DVNM (data : list KLVData) (dflt : string) : string :=
  fold_left (fun name d => match d with R_DVNM s => s | _ => name end) data dflt.

(** What a run of the loop keeps or changes in step: the session start
    once set, and the [ok] counter along with the point list. *)
Definition counts_points (st st' : state) : Prop :=
  ok (stats st') + List.length (points st) = ok (stats st) + List.length (points st').

(** The payloads of the TSMP records of a sequence, in order. *)
Definition tsmp_values (data : list KLVData) : list Z :=
  flat_map (fun d => match d with R_TSMP v => [v] | _ => [] end) data.

(** What one TSMP record does to the stored value. *)
Definition tsmp_update (stored v : Z) : Z :=
  if (stored =? 0)%Z then v else (v - stored)%Z.

(** The TSMP slot as the claim words it: the first occurrence stores the
    raw value, every later one stores the new value minus the value of the
    record before it. *)
Fixpoint TSMP_delta_of_records (previous : Z) (values : list Z) (stored : Z) : Z :=
  match values with
  | [] => stored
  | v :: rest => TSMP_delta_of_records v rest (v - previous)%Z
  end.

Definition TSMP_as_claimed (values : list Z) : Z :=
  match values with
  | [] => 0%Z
  | v :: rest => TSMP_delta_of_records v rest v
  end.

(** The sequence without its TSMP records. *)
Definition remove_TSMP (data : list KLVData) : list KLVData :=
  filter (fun d => match d with R_TSMP _ => false | _ => true end) data.

(** ** Vocabulary of the statements about single-channel extraction *)

(** The three single-channel modes, the value of [--type] that selects
    each, and the function [main_core] calls for it. *)
Inductive channel : Type := CORI | GRAV | ACCL.

Definition channel_name (c : channel) : string :=
  match c with
  | CORI => "CORI"
  | GRAV => "GRAV"
  | ACCL => "ACCL"
  end.

Definition extractor (c : channel) : list KLVData -> result rows :=
  match c with
  | CORI => GetCORIData
  | GRAV => GetGRAVData
  | ACCL => GetACCLData
  end.

(** The decoded tuples a record holds for a channel: those of its payload
    when it carries the channel's tag, none otherwise. *)
Definition tuples_of (c : channel) (d : KLVData) : list (list Z) :=
  match c, d with
  | CORI, R_CORI items => items
  | GRAV, R_GRAV items => items
  | ACCL, R_ACCL items => items
  | _, _ => []
  end.

(** The payload of the last SCAL record among the records [before]; the
    number 1.0 when there is none. *)
Definition most_recent_SCAL (before : list KLVData) : scal :=
  fold_left (fun s d => match d with R_SCAL v => v | _ => s end)
            before (Scalar (PFloat 1)).

(** The SCAL value as a divisor. *)
Definition divisor (s : scal) : float :=
  match s with
  | Scalar n => to_float n
  | Vector _ => 1%float
  end.

(** A SCAL value that can divide: a bare number other than zero. *)
Definition divides (s : scal) : bool :=
  match s with
  | Scalar n => nonzero (to_float n)
  | Vector _ => false
  end.

(** The rows as the specification words them: for each record of the
    channel, in input order, one row per tuple, each component divided by
    the most recent SCAL value before the record. *)
Fixpoint rows_as_specified (c : channel) (before data : list KLVData) : rows :=
  match data with
  | [] => []
  | d :: rest =>
      map (map (fun x => (float_of_int x / divisor (most_recent_SCAL before))%float))
          (tuples_of c d)
      ++ rows_as_specified c (before ++ [d]) rest
  end.

(** Every record that holds tuples of the channel comes after a SCAL value
    that can divide (or after none). *)
Fixpoint divisors_fit (c : channel) (before data : list KLVData) : bool :=
  match data with
  | [] => true
  | d :: rest =>
      match tuples_of c d with
      | [] => true
      | _ :: _ => divides (most_recent_SCAL before)
      end
      && divisors_fit c (before ++ [d]) rest
  end.

(** The loop body of the three extractors, by channel. *)
Definition channel_step (c : channel) (st : scal * rows) (d : KLVData)
  : result (scal * rows) :=
  match c with
  | CORI => cori_step st d
  | GRAV => grav_step st d
  | ACCL => accl_step st d
  end.

(** ** Vocabulary of the statements about a pass without GPS records *)

(** The sequence holds no GPS5 and no GPRI record. *)
Definition no_GPS_record (data : list KLVData) : bool :=
  forallb (fun d => match d with R_GPS5 _ | R_GPRI _ => false | _ => true end) data.

(** [--type] selects none of the three channels: [main_core] builds
    points. *)
Definition gps_mode (fourcc_type : option string) : bool :=
  match fourcc_type with
  | Some s => negb (String.eqb s "GRAV" || String.eqb s "CORI" || String.eqb s "ACCL")
  | None => true
  end.

(** A scale that can divide the two fields of SYST: a tuple of at least two
    components, the first two non-zero. *)
Definition scales_SYST (s : scal) : bool :=
  match s with
  | Vector (y0 :: y1 :: _) => nonzero (to_float y0) && nonzero (to_float y1)
  | _ => false
  end.

(** Along the sequence, from the scale [s] and the fix code [code0]: every
    SYST record is met under a scale that can divide its fields, and every
    GPSF record that changes the fix code has a label in the table. *)
Fixpoint bookkeeping_fits (xlate : Z -> option string) (s : scal) (code0 : Z)
    (data : list KLVData) : bool :=
  match data with
  | [] => true
  | R_SCAL v :: rest => bookkeeping_fits xlate v code0 rest
  | R_GPSF code :: rest =>
      ((code =? code0)%Z || match xlate code with Some _ => true | None => false end)
      && bookkeeping_fits xlate s code rest
  | R_SYST _ :: rest => scales_SYST s && bookkeeping_fits xlate s code0 rest
  | _ :: rest => bookkeeping_fits xlate s code0 rest
  end.

(** ** Vocabulary of the statements about the anchor *)

(** Along the sequence, from the fix code [code]: no GPS5 sample passes
    the two filters. *)
Fixpoint no_accepted_sample (skip : bool) (code : Z) (data : list KLVData) : bool :=
  match data with
  | [] => true
  | R_GPSF c :: rest => no_accepted_sample skip c rest
  | R_GPS5 items :: rest =>
      forallb (fun item => negb (passes_filters skip code item)) items
      && no_accepted_sample skip code rest
  | _ :: rest => no_accepted_sample skip code rest
  end.

(** ** Vocabulary of the statements about counters, output and tracks *)

(** The samples of the GPS5 records of a sequence, and its GPRI records. *)
Definition GPS5_samples (data : list KLVData) : list (GPSData Z) :=
  flat_map (fun d => match d with R_GPS5 items => items | _ => [] end) data.

Definition is_GPRI (d : KLVData) : bool :=
  match d with R_GPRI _ => true | _ => false end.

Definition is_GPS5 (d : KLVData) : bool :=
  match d with R_GPS5 _ => true | _ => false end.

Definition is_SCAL (d : KLVData) : bool :=
  match d with R_SCAL _ => true | _ => false end.

Definition is_GPSU (d : KLVData) : bool :=
  match d with R_GPSU _ => true | _ => false end.

Definition is_GPSF (d : KLVData) : bool :=
  match d with R_GPSF _ => true | _ => false end.

(** The samples and records the counters account for: emitted, empty, or
    skipped for a bad fix. *)
Definition accounted (s : Stats) : nat := ok s + empty s + badfixskip s.

(** How many times a line was printed. *)
Definition is_SkipEmpty (e : event) : bool :=
  match e with SkipEmpty => true | _ => false end.

Definition is_SkipBadFix (e : event) : bool :=
  match e with SkipBadFix => true | _ => false end.

Definition printed (which : event -> bool) (out : list event) : nat :=
  List.length (filter which out).

(** The point of a sample scaled by the divisors [y0] to [y3] and stamped
    [k] sample periods after the anchor [T]. *)
Definition scaled_point (y0 y1 y2 y3 : pynum) (T : datetime) (k : nat)
    (item : GPSData Z) : GPSPoint :=
  mkPoint (float_of_int (lat item) / to_float y0)%float
          (float_of_int (lon item) / to_float y1)%float
          (float_of_int (alt item) / to_float y2)%float
          (mkTime T (float_of_int (Z.of_nat k) * t_delta)%float)
          (float_of_int (fourCC.speed item) / to_float y3)%float.

(** The points of a list of samples, stamped with consecutive ranks from
    [k] on. *)
Fixpoint stamped (mk : nat -> GPSData Z -> GPSPoint) (k : nat)
    (items : list (GPSData Z)) : list GPSPoint :=
  match items with
  | [] => []
  | item :: rest => mk k item :: stamped mk (S k) rest
  end.

(** A record the loop of a channel's extractor looks at: SCAL, or one that
    carries the channel's tag. *)
Definition read_by_extractor (c : channel) (d : KLVData) : bool :=
  match c, d with
  | _, R_SCAL _ => true
  | CORI, R_CORI _ => true
  | GRAV, R_GRAV _ => true
  | ACCL, R_ACCL _ => true
  | _, _ => false
  end.

(** A record the loop of [BuildGPSPoints] has a branch for. *)
Definition read_by_builder (d : KLVData) : bool :=
  match d with
  | R_CORI _ | R_GRAV _ | R_ACCL _ | R_other => false
  | _ => true
  end.

(** A scale that pairs with all five fields of a GPS5 sample: a tuple of
    at least five components. *)
Definition pairs_five_fields (s : scal) : bool :=
  match s with
  | Vector ys => 5 <=? List.length ys
  | Scalar _ => false
  end.

Definition is_SCAL_of_five (d : KLVData) : bool :=
  match d with R_SCAL v => pairs_five_fields v | _ => false end.

(** Two states of [BuildGPSPoints] that hold the same track so far and the
    same scale, anchor, system clock and device name; the fix code, the
    counters, the TSMP slot and the output may differ. *)
Definition same_track (st1 st2 : state) : Prop :=
  points st1 = points st2 /\ start_time st1 = start_time st2
  /\ SCAL st1 = SCAL st2 /\ GPSU st1 = GPSU st2
  /\ SYST st1 = SYST st2 /\ DVNM st1 = DVNM st2.

(** The sequence without its DVNM records. *)
Definition remove_DVNM (data : list KLVData) : list KLVData :=
  filter (fun d => match d with R_DVNM _ => false | _ => true end) data.

(** ** The loop of [main_core] over the input files *)

From Stdlib Require DecimalString DecimalNat DecimalFacts.
From Stdlib Require Import Ascii.

(** ["%02d" % num] for the index [num] of [enumerate]: the decimal digits,
    with a zero in front when there is one digit only. *)
Definition decimal (num : nat) : string :=
  DecimalString.NilZero.string_of_uint (Nat.to_uint num).

Definition format_02d (num : nat) : string :=
  if String.length (decimal num) <? 2 then String "0"%char (decimal num)
  else decimal num.

(** [output_file + ".%02d.bin" % (num)] *)
Definition binary_filename (output_file : string) (num : nat) : string :=
  String.append output_file
    (String.append "."%string (String.append (format_02d num) ".bin"%string)).

Section Inputs.

(** The two readers of [gpmf.GpmfFileReader] (from an MP4 file, or from a
    binary dump when [args.binary] is set) and [gpmf.parseStream] are
    outside the source file: they are parameters, taken to return. *)
Variable raw : Type.
Variable readRawTelemetryFromMP4 : string -> raw.
Variable readRawTelemetryFromBinary : string -> raw.
Variable parseStream : raw -> list KLVData.

(** The body of [for num, filename in enumerate(files)]: the loop carries
    [num], [data] and the files written when [config.verbose == 2]. *)
Definition read_one (binary : bool) (verbose : Z) (output_file : string)
    (acc : nat * list KLVData * list (string * raw)) (filename : string)
  : nat * list KLVData * list (string * raw) :=
  let '(num, data, written) := acc in
  let raw_data := if negb binary then readRawTelemetryFromMP4 filename
                  else readRawTelemetryFromBinary filename in
  let written := if (verbose =? 2)%Z
                 then written ++ [(binary_filename output_file num, raw_data)]
                 else written in
  (S num, data ++ parseStream raw_data, written).

Definition read_inputs (binary : bool) (verbose : Z) (output_file : string)
    (files : list string) : nat * list KLVData * list (string * raw) :=
  fold_left (read_one binary verbose output_file) files (0, [], []).

End Inputs.

(** ** Vocabulary of the statements about a sample within a pass *)

(** What [BuildGPSPoints] returns and has printed when its loop ends in the
    state [st]: the tuple [(points, start_time, DVNM)], and the output
    closed by the block of counters. *)
Definition finish (st : state) : returned * list event :=
  ((points st, start_time st, DVNM st), stdout st ++ [stats_block st]).

(** The rest of a pass that has reached the state [st]: the records
    [post], then the end. *)
Definition rest_of_pass (xlate : Z -> option string) (KARMAGPSData : layout)
    (skip : bool) (st : state) (post : list KLVData)
  : result (returned * list event) :=
  st' <- loop xlate KARMAGPSData skip post st ;; Ok (finish st').

(** The rest of a pass that is inside a GPS5 record, in the state and at
    the [sample_count] of [acc]: the samples [later] of the record, then
    the records [post], then the end. *)
Definition rest_of_record (xlate : Z -> option string) (KARMAGPSData : layout)
    (skip : bool) (acc : state * nat) (later : list (GPSData Z))
    (post : list KLVData) : result (returned * list event) :=
  acc' <- foldM (gps5_item skip) later acc ;;
  rest_of_pass xlate KARMAGPSData skip (fst acc') post.

(** ** Facts about the monad and the scaling *)

Lemma foldM_app {S X : Type} (f : S -> X -> result S) (xs ys : list X) (s : S) :
  foldM f (xs ++ ys) s = bind (foldM f xs s) (foldM f ys).
Proof.
  revert s; induction xs as [|x xs IH]; intros s; simpl; [reflexivity|].
  destruct (f s x); simpl; auto.
Qed.


Lemma truediv_nonzero (x y : float) :
  nonzero y = true -> truediv x y = Ok (x / y)%float.
Proof.
  unfold nonzero, truediv; intros H.
  destruct (y =? 0)%float; [discriminate|reflexivity].
Qed.

Lemma truediv_raises (x y : float) (e : exn) :
  truediv x y = Raise e -> e = ZeroDivisionError.
Proof.
  unfold truediv; destruct (y =? 0)%float; intros H; inversion H; reflexivity.
Qed.

(** A comprehension over divisions yields one value per element, or stops
    on a division by zero. *)
Lemma mapM_truediv_length {X : Type} (num den : X -> float) (xs : list X) :
  (exists l, mapM (fun x => truediv (num x) (den x)) xs = Ok l
             /\ List.length l = List.length xs)
  \/ mapM (fun x => truediv (num x) (den x)) xs = Raise ZeroDivisionError.
Proof.
  induction xs as [|x xs IH]; simpl.
  - left; exists []; auto.
  - destruct (truediv (num x) (den x)) as [q|e] eqn:Eq; simpl.
    + destruct IH as [[l [Hl Hlen]]|Hr]; rewrite ?Hl, ?Hr; simpl.
      * left; exists (q :: l); simpl; auto.
      * right; reflexivity.
    + right; apply truediv_raises in Eq; subst; reflexivity.
Qed.

Lemma all_zero_true (a b c : Z) :
  all_zero a b c = true <-> (a = 0 /\ b = 0 /\ c = 0)%Z.
Proof.
  unfold all_zero; rewrite !andb_true_iff, !Z.eqb_eq; lia.
Qed.

(** ** The filters of the GPS5 and GPRI branches *)

(** The two all-zero tests: a GPS5 sample, and a GPRI record, whose
    latitude, longitude and altitude are all zero leaves the point list and
    three counters as they are and adds one to [empty], whatever the fix
    code and the skip policy; for a GPS5 sample [sample_count] is
    unchanged. *)
Lemma all_zero_item_and_record :
  forall (xlate : Z -> option string) (KARMAGPSData : layout)
         (skip : bool) (st : state),
    (forall (n : nat) (item : GPSData Z),
        lat item = 0%Z -> lon item = 0%Z -> alt item = 0%Z ->
        exists st',
          gps5_item skip (st, n) item = Ok (st', n)
          /\ points st' = points st
          /\ empty (stats st') = S (empty (stats st))
          /\ ok (stats st') = ok (stats st)
          /\ badfix (stats st') = badfix (stats st)
          /\ badfixskip (stats st') = badfixskip (stats st))
    /\
    (forall values : list Z,
        field 0%Z (at_lat KARMAGPSData) values = 0%Z ->
        field 0%Z (at_lon KARMAGPSData) values = 0%Z ->
        field 0%Z (at_alt KARMAGPSData) values = 0%Z ->
        exists st',
          step xlate KARMAGPSData skip st (R_GPRI values) = Ok st'
          /\ points st' = points st
          /\ empty (stats st') = S (empty (stats st))
          /\ ok (stats st') = ok (stats st)
          /\ badfix (stats st') = badfix (stats st)
          /\ badfixskip (stats st') = badfixskip (stats st)).
Proof.
  intros xlate K skip st; split.
  - intros n item Hlat Hlon Halt.
    exists (incr_empty (print SkipEmpty st)).
    unfold gps5_item; rewrite Hlat, Hlon, Halt; simpl.
    repeat split; reflexivity.
  - intros values Hlat Hlon Halt.
    exists (incr_empty (print SkipEmpty st)).
    unfold step; rewrite Hlat, Hlon, Halt; simpl.
    repeat split; reflexivity.
Qed.

Lemma note_badfix_frame (st : state) :
  SCAL (note_badfix st) = SCAL st
  /\ GPSU (note_badfix st) = GPSU st
  /\ points (note_badfix st) = points st
  /\ SYST (note_badfix st) = SYST st
  /\ GPSFIX (note_badfix st) = GPSFIX st.
Proof.
  unfold note_badfix; destruct (GPSFIX st =? 0)%Z; repeat split; reflexivity.
Qed.

(** Five non-zero divisors scale the five fields of a sample, one by one. *)
Lemma scale_fields_GPSData (item : GPSData Z) (y0 y1 y2 y3 y4 : pynum)
    (rest : list pynum) :
  divisors_nonzero [y0; y1; y2; y3; y4] = true ->
  scale_fields (GPSData_values item) (Vector (y0 :: y1 :: y2 :: y3 :: y4 :: rest))
  = Ok [ (float_of_int (lat item) / to_float y0)%float;
         (float_of_int (lon item) / to_float y1)%float;
         (float_of_int (alt item) / to_float y2)%float;
         (float_of_int (fourCC.speed item) / to_float y3)%float;
         (float_of_int (speed3d item) / to_float y4)%float ].
Proof.
  unfold divisors_nonzero; simpl; rewrite !andb_true_iff.
  intros [H0 [H1 [H2 [H3 [H4 _]]]]].
  unfold scale_fields; simpl.
  rewrite !truediv_nonzero by assumption.
  reflexivity.
Qed.


(** The accepted sample: what the GPS5 branch does with it once the scale
    vector has five non-zero components and an anchor is set. *)
Lemma gps5_item_emits (skip : bool) (st : state) (n : nat) (item : GPSData Z)
    (y0 y1 y2 y3 y4 : pynum) (rest : list pynum) (T : datetime) :
  SCAL st = Vector (y0 :: y1 :: y2 :: y3 :: y4 :: rest) ->
  divisors_nonzero [y0; y1; y2; y3; y4] = true ->
  GPSU st = Some T ->
  accepted skip st item = true ->
  gps5_item skip (st, n) item
  = Ok (incr_ok
          (set_points
             (points st ++
                [mkPoint (float_of_int (lat item) / to_float y0)%float
                         (float_of_int (lon item) / to_float y1)%float
                         (float_of_int (alt item) / to_float y2)%float
                         (mkTime T (float_of_int (Z.of_nat n) * t_delta)%float)
                         (float_of_int (fourCC.speed item) / to_float y3)%float])
             (note_badfix st)),
        S n).
Proof.
  intros HS Hnz HU Hacc.
  unfold accepted, passes_filters in Hacc; apply andb_true_iff in Hacc as [Hne Hfix].
  apply negb_true_iff in Hne, Hfix.
  destruct (note_badfix_frame st) as [FS [FU [FP _]]].
  unfold gps5_item; rewrite Hne, Hfix, FS, FU, FP, HS, HU.
  rewrite scale_fields_GPSData by assumption; reflexivity.
Qed.

(** The bad-fix test on one sample that is not all zero, met while the fix
    code is 0.  With the skip policy on, it is not emitted and both
    [badfix] and [badfixskip] grow by one.  With the skip policy off, under
    an anchor and a scale vector of five non-zero components, it is
    emitted and [badfix] grows by one while [badfixskip] does not. *)
Lemma bad_fix_item :
  forall (st : state) (n : nat) (item : GPSData Z),
    GPSFIX st = 0%Z ->
    all_zero (lon item) (lat item) (alt item) = false ->
    (exists st',
        gps5_item true (st, n) item = Ok (st', n)
        /\ points st' = points st
        /\ badfix (stats st') = S (badfix (stats st))
        /\ badfixskip (stats st') = S (badfixskip (stats st))
        /\ ok (stats st') = ok (stats st)
        /\ empty (stats st') = empty (stats st))
    /\
    (forall (y0 y1 y2 y3 y4 : pynum) (rest : list pynum) (T : datetime),
        SCAL st = Vector (y0 :: y1 :: y2 :: y3 :: y4 :: rest) ->
        divisors_nonzero [y0; y1; y2; y3; y4] = true ->
        GPSU st = Some T ->
        exists st' p,
          gps5_item false (st, n) item = Ok (st', S n)
          /\ points st' = points st ++ [p]
          /\ badfix (stats st') = S (badfix (stats st))
          /\ badfixskip (stats st') = badfixskip (stats st)
          /\ ok (stats st') = S (ok (stats st))
          /\ empty (stats st') = empty (stats st)).
Proof.
  intros st n item Hfix Hne; split.
  - exists (incr_badfixskip (print SkipBadFix (incr_badfix st))).
    unfold gps5_item, note_badfix; rewrite Hne, Hfix; simpl.
    repeat split; reflexivity.
  - intros y0 y1 y2 y3 y4 rest T HS Hnz HU.
    assert (Hacc : accepted false st item = true).
    { unfold accepted, passes_filters; rewrite Hne, andb_false_r; reflexivity. }
    erewrite gps5_item_emits by eassumption.
    eexists; eexists; split; [reflexivity|].
    unfold note_badfix; rewrite Hfix; simpl.
    repeat split; reflexivity.
Qed.

(** The two policies on a whole run: no GPSF record, so the fix code is 0
    when the GPS5 record with one non-zero sample is met. *)
Example bad_fix_kept_without_skip :
  BuildGPSPoints LabelGPSF_xlate KARMA_layout
    [SCAL_five_ones; R_GPSU 1000%Z; R_GPS5 [mkGPSData 1 2 3 4 5]%Z] false
  = Ok (([mkPoint 1 2 3 (mkTime 1000%Z 0) 4], Some 1000%Z, "Unknown"%string),
        [StatsBlock "Unknown" 1 1 0 0 2]).
Proof. vm_compute; reflexivity. Qed.

Example bad_fix_dropped_with_skip :
  BuildGPSPoints LabelGPSF_xlate KARMA_layout
    [SCAL_five_ones; R_GPSU 1000%Z; R_GPS5 [mkGPSData 1 2 3 4 5]%Z] true
  = Ok (([], Some 1000%Z, "Unknown"%string),
        [SkipBadFix; StatsBlock "Unknown" 0 1 1 0 2]).
Proof. vm_compute; reflexivity. Qed.

(** ** Scaling of an accepted GPS5 sample *)




(** ** Timestamps within a GPS5 record *)

(** A GPS5 record all of whose samples are accepted: the points come out
    in order, the sample at position [k] with the offset [k * t_delta]
    from the anchor. *)
Lemma gps5_record_offsets (skip : bool) (y0 y1 y2 y3 y4 : pynum)
    (rest : list pynum) (T : datetime) (items : list (GPSData Z)) :
  divisors_nonzero [y0; y1; y2; y3; y4] = true ->
  forall (st : state) (n : nat),
    SCAL st = Vector (y0 :: y1 :: y2 :: y3 :: y4 :: rest) ->
    GPSU st = Some T ->
    forallb (accepted skip st) items = true ->
    exists st',
      foldM (gps5_item skip) items (st, n) = Ok (st', n + List.length items)
      /\ map time (points st')
         = map time (points st)
           ++ map (fun k => mkTime T (float_of_int (Z.of_nat k) * t_delta)%float)
                  (seq n (List.length items)).
Proof.
  intros Hnz.
  induction items as [|item items IH]; intros st n HS HU Hall.
  - exists st; cbn; rewrite Nat.add_0_r, app_nil_r; split; reflexivity.
  - cbn [forallb] in Hall; apply andb_true_iff in Hall as [Hacc Hall].
    cbn [foldM].
    rewrite (gps5_item_emits skip st n item y0 y1 y2 y3 y4 rest T HS Hnz HU Hacc).
    cbn [bind].
    destruct (note_badfix_frame st) as [FS [FU [FP [_ FF]]]].
    match goal with
    | |- context [foldM _ items (?s1, S n)] =>
        destruct (IH s1 (S n)) as [st' [E Ht]];
        [ cbn; exact (eq_trans FS HS)
        | cbn; exact (eq_trans FU HU)
        | rewrite forallb_forall in Hall |- *; intros i Hi;
          specialize (Hall i Hi); unfold accepted in Hall |- *;
          cbn; rewrite FF; exact Hall
        | ]
    end.
    exists st'; rewrite E; split.
    + f_equal; f_equal; cbn [List.length]; lia.
    + rewrite Ht; cbn [points incr_ok set_points set_stats].
      rewrite map_app, <- app_assoc; reflexivity.
Qed.

(** One GPSU anchor and a GPS5 record of three accepted samples: the
    points are stamped T, T + 1/18 s and T + 2 * (1/18) s, in that
    order. *)
Example three_samples_in_order :
  BuildGPSPoints LabelGPSF_xlate KARMA_layout
    [SCAL_five_ones; R_GPSU 1000%Z; R_GPSF 3;
     R_GPS5 [mkGPSData 1 1 1 1 1; mkGPSData 2 2 2 2 2; mkGPSData 3 3 3 3 3]%Z]
    false
  = Ok (([mkPoint 1 1 1 (mkTime 1000%Z 0) 1;
          mkPoint 2 2 2 (mkTime 1000%Z (1 / 18)) 2;
          mkPoint 3 3 3 (mkTime 1000%Z (2 * (1 / 18))) 3]%float,
         Some 1000%Z, "Unknown"%string),
        [FixChange 3 "3D Lock"; StatsBlock "Unknown" 3 0 0 0 3]).
Proof. vm_compute; reflexivity. Qed.

(** C2: a GPS5 record of two samples, the first all zero, under a 3D fix
    and the anchor 1000.  The second sample, at position 1 of the repeat
    group, is emitted with the offset 0: [sample_count] is not advanced by
    a rejected sample.  The offset of position 1 would be 1/18 s. *)
Theorem C2_offset_counts_emitted_samples :
  BuildGPSPoints LabelGPSF_xlate KARMA_layout
    [SCAL_five_ones; R_GPSU 1000%Z; R_GPSF 3;
     R_GPS5 [mkGPSData 0 0 0 0 0; mkGPSData 1 2 3 4 5]%Z] false
  = Ok (([mkPoint 1 2 3 (mkTime 1000%Z 0) 4], Some 1000%Z, "Unknown"%string),
        [FixChange 3 "3D Lock"; SkipEmpty; StatsBlock "Unknown" 1 0 0 1 2])
  /\ (0 =? float_of_int 1 / 18)%float = false.
Proof. split; vm_compute; reflexivity. Qed.

(** ** What [BuildGPSPoints] returns *)

Ltac ok_inv H := inversion H; subst; clear H.

Ltac case_start :=
  match goal with
  | |- context [match start_time ?s with _ => _ end] => destruct (start_time s)
  end.

Lemma gps5_item_counts (skip : bool) (st st' : state) (n n' : nat)
    (item : GPSData Z) :
  gps5_item skip (st, n) item = Ok (st', n') ->
  counts_points st st'
  /\ start_time st' = start_time st /\ DVNM st' = DVNM st.
Proof.
  unfold gps5_item, counts_points, note_badfix.
  destruct (all_zero _ _ _); [intros H; ok_inv H; simpl; auto|].
  destruct (GPSFIX st =? 0)%Z, skip; cbn [andb];
    try (intros H; ok_inv H; simpl; auto; fail);
    (destruct (scale_fields _ _) as [l|e]; cbn [bind]; [|discriminate];
     destruct (GPSData_make l) as [g|e]; cbn [bind]; [|discriminate];
     destruct (add_seconds _ _) as [t|e]; cbn [bind]; [|discriminate];
     intros H; ok_inv H; simpl; rewrite ?length_app; simpl; split; auto; lia).
Qed.

Lemma gps5_fold_counts (skip : bool) (items : list (GPSData Z)) :
  forall (acc acc' : state * nat),
    foldM (gps5_item skip) items acc = Ok acc' ->
    counts_points (fst acc) (fst acc')
    /\ start_time (fst acc') = start_time (fst acc)
    /\ DVNM (fst acc') = DVNM (fst acc).
Proof.
  induction items as [|item items IH]; intros [st n] acc'; cbn [foldM].
  - intros H; ok_inv H; unfold counts_points; simpl; auto.
  - destruct (gps5_item skip (st, n) item) as [[st1 n1]|e] eqn:E; cbn [bind];
      [|discriminate].
    intros H; apply IH in H; simpl in H.
    apply gps5_item_counts in E.
    unfold counts_points in *; simpl.
    destruct H as [H1 [H2 H3]], E as [E1 [E2 E3]].
    rewrite H2, H3; repeat split; auto; lia.
Qed.

Section BuilderFacts.

Variable xlate : Z -> option string.
Variable KARMAGPSData : layout.

Lemma step_counts (skip : bool) (st st' : state) (d : KLVData) :
  step xlate KARMAGPSData skip st d = Ok st' ->
  counts_points st st'
  /\ start_time st'
     = match start_time st with
       | Some t => Some t
       | None => first_GPSU [d]
       end
  /\ DVNM st' = last_DVNM [d] (DVNM st).
Proof.
  unfold counts_points, last_DVNM.
  destruct d; simpl.
  - intros H; ok_inv H; simpl; case_start; auto.
  - intros H; ok_inv H; simpl; case_start; auto.
  - destruct (start_time st) eqn:Est; intros H; ok_inv H; simpl; auto.
  - destruct (negb (code =? GPSFIX st)%Z); cbn [bind].
    + unfold xlate_getitem; destruct (xlate code); cbn [bind]; [|discriminate].
      intros H; ok_inv H; simpl; case_start; auto.
    + intros H; ok_inv H; simpl; case_start; auto.
  - destruct (TSMP st =? 0)%Z; intros H; ok_inv H; simpl;
      case_start; auto.
  - destruct (foldM (gps5_item skip) items (st, 0)) as [acc|e] eqn:E;
      cbn [bind]; [|discriminate].
    intros H; ok_inv H.
    apply gps5_fold_counts in E; simpl in E.
    destruct E as [E1 [E2 E3]].
    rewrite E2, E3; case_start; auto.
  - destruct (scale_fields _ _) as [l|e]; cbn [bind]; [|discriminate].
    destruct (getitem l 0) as [d0|e]; cbn [bind]; [|discriminate].
    destruct (nonzero d0); [|intros H; ok_inv H; case_start; auto].
    destruct (getitem l 1) as [d1|e]; cbn [bind]; [|discriminate].
    destruct (nonzero d1); [|intros H; ok_inv H; case_start; auto].
    destruct (SYSTData_make l) as [s|e]; cbn [bind]; [|discriminate].
    intros H; ok_inv H; simpl; case_start; auto.
  - destruct (all_zero _ _ _);
      [intros H; ok_inv H; simpl; case_start; auto|].
    unfold note_badfix.
    destruct (GPSFIX st =? 0)%Z, skip; cbn [andb];
      try (intros H; ok_inv H; simpl; case_start; auto; fail);
      (destruct (scale_fields _ _) as [l|e]; cbn [bind]; [|discriminate];
       destruct (make KARMAGPSData l) as [g|e]; cbn [bind]; [|discriminate];
       destruct (_ && _); [discriminate|];
       intros H; ok_inv H; simpl; case_start; auto).
  - intros H; ok_inv H; case_start; auto.
  - intros H; ok_inv H; case_start; auto.
  - intros H; ok_inv H; case_start; auto.
  - intros H; ok_inv H; case_start; auto.
Qed.

Lemma first_GPSU_cons (d : KLVData) (data : list KLVData) :
  first_GPSU (d :: data)
  = match first_GPSU [d] with
    | Some t => Some t
    | None => first_GPSU data
    end.
Proof. destruct d; reflexivity. Qed.

Lemma loop_counts (skip : bool) (data : list KLVData) :
  forall st st' : state,
    loop xlate KARMAGPSData skip data st = Ok st' ->
    counts_points st st'
    /\ start_time st'
       = match start_time st with
         | Some t => Some t
         | None => first_GPSU data
         end
    /\ DVNM st' = last_DVNM data (DVNM st).
Proof.
  unfold loop.
  induction data as [|d data IH]; intros st st'.
  - simpl; intros H; ok_inv H; unfold counts_points;
      destruct (start_time st'); auto.
  - cbn [foldM].
    destruct (step xlate KARMAGPSData skip st d) as [st1|e] eqn:E; cbn [bind];
      [|discriminate].
    intros H; apply IH in H; apply step_counts in E.
    destruct H as [H1 [H2 H3]], E as [E1 [E2 E3]].
    unfold counts_points in *.
    rewrite H2, H3, E2, E3, (first_GPSU_cons d data).
    split; [lia|split; [|reflexivity]].
    destruct (start_time st); [reflexivity|].
    destruct (first_GPSU [d]); reflexivity.
Qed.

End BuilderFacts.

(** Two runs return the same tuple, ([], None, "Unknown"), and end with
    different counters: of the empty sequence, and of one GPS5 record
    holding the all-zero sample.  The counters are in what is printed
    only. *)
Lemma C3_returned_tuple_has_no_stats :
  BuildGPSPoints LabelGPSF_xlate KARMA_layout [] false
  = Ok (([], None, "Unknown"%string), [StatsBlock "Unknown" 0 0 0 0 0])
  /\
  BuildGPSPoints LabelGPSF_xlate KARMA_layout
    [R_GPS5 [mkGPSData 0 0 0 0 0]%Z] false
  = Ok (([], None, "Unknown"%string),
        [SkipEmpty; StatsBlock "Unknown" 0 0 0 1 1]).
Proof. split; vm_compute; reflexivity. Qed.

(** C3, as amended: when the pass over the records completes, in a state
    [st], [BuildGPSPoints] returns three things: the emitted points, the
    payload of the first GPSU record (None without one) and the payload of
    the last DVNM record ("Unknown" without one).  The counters are not
    returned; they are printed, in the block that ends the output, where
    the [ok] count is the number of returned points and the total is the
    sum of the four counters.  This holds for a run without points too. *)
Theorem C3_returns_points_start_device :
  forall (xlate : Z -> option string) (KARMAGPSData : layout)
         (data : list KLVData) (skip : bool) (st : state),
    loop xlate KARMAGPSData skip data init = Ok st ->
    BuildGPSPoints xlate KARMAGPSData data skip
    = Ok ((points st, first_GPSU data, last_DVNM data "Unknown"),
          stdout st ++
          [StatsBlock (last_DVNM data "Unknown")
             (List.length (points st))
             (badfix (stats st)) (badfixskip (stats st)) (empty (stats st))
             (List.length (points st) + badfix (stats st)
              + badfixskip (stats st) + empty (stats st))]).
Proof.
  intros xlate K data skip st Hloop.
  unfold BuildGPSPoints; rewrite Hloop; cbn [bind].
  apply loop_counts in Hloop; destruct Hloop as [Hc [Hs Hd]].
  unfold counts_points in Hc; simpl in Hc, Hs, Hd.
  unfold stats_block, total_points; simpl.
  rewrite Hs, Hd.
  replace (ok (stats st)) with (List.length (points st)) by lia.
  reflexivity.
Qed.

(** The theorem at a run without points: a device name, an anchor, and a
    GPS5 record holding the all-zero sample. *)
Lemma C3_witness :
  BuildGPSPoints LabelGPSF_xlate KARMA_layout
    [R_DVNM "Hero"; R_GPSU 1000%Z; R_GPSU 2000%Z; R_GPS5 [mkGPSData 0 0 0 0 0]%Z]
    true
  = Ok (([], Some 1000%Z, "Hero"%string),
        [SkipEmpty; StatsBlock "Hero" 0 0 0 1 1]).
Proof.
  exact (C3_returns_points_start_device LabelGPSF_xlate KARMA_layout
           [R_DVNM "Hero"; R_GPSU 1000%Z; R_GPSU 2000%Z;
            R_GPS5 [mkGPSData 0 0 0 0 0]%Z] true
           (incr_empty (print SkipEmpty
              (set_GPSU (Some 2000%Z)
                 (set_start_time (Some 1000%Z) (set_DVNM "Hero" init)))))
           eq_refl).
Defined.

(** ** The legacy path: SYST and GPRI *)

(** C5: a SYST record with two non-zero fields, then a GPRI record that is
    not all zero, under a 3D fix and a scale vector of eight ones.  The
    GPRI record passes both filters and is scaled, the SYST state is
    non-zero, and the pass ends with [AttributeError] where the point was
    to be emitted: the timestamp is built with [datetime.fromtimestamp],
    and [datetime] names the module. *)
Theorem C5_gpri_point_is_never_built :
  loop LabelGPSF_xlate KARMA_layout false
    [R_SCAL (Vector (map PInt [1; 1; 1; 1; 1; 1; 1; 1]%Z));
     R_SYST (mkSYSTData 1500 250)%Z; R_GPSF 3] init
  = Ok (print (FixChange 3 "3D Lock")
          (set_GPSFIX 3
             (set_SYST (mkSYSTData 1500 250)%float
                (set_SCAL (Vector (map PInt [1; 1; 1; 1; 1; 1; 1; 1]%Z)) init))))
  /\
  BuildGPSPoints LabelGPSF_xlate KARMA_layout
    [R_SCAL (Vector (map PInt [1; 1; 1; 1; 1; 1; 1; 1]%Z));
     R_SYST (mkSYSTData 1500 250)%Z; R_GPSF 3;
     R_GPRI [7; 8; 9; 40; 50; 60; 70; 80]%Z] false
  = Raise AttributeError.
Proof. split; vm_compute; reflexivity. Qed.

(** The same for any accepted GPRI record that scales to the fields of its
    namedtuple while both fields of SYST are non-zero. *)
Lemma gpri_emission_raises
    (xlate : Z -> option string) (K : layout) (skip : bool) (st : state)
    (values : list Z) (l : list float) :
  all_zero (field 0%Z (at_lon K) values) (field 0%Z (at_lat K) values)
           (field 0%Z (at_alt K) values) = false ->
  (GPSFIX st =? 0)%Z && skip = false ->
  scale_fields values (SCAL st) = Ok l ->
  List.length l = n_fields K ->
  nonzero (seconds (SYST st)) && nonzero (miliseconds (SYST st)) = true ->
  step xlate K skip st (R_GPRI values) = Raise AttributeError.
Proof.
  intros Hne Hfix Hl Hlen Hz.
  destruct (note_badfix_frame st) as [FS [_ [_ [FY _]]]].
  unfold step; rewrite Hne, Hfix, FS, FY, Hl; cbn [bind].
  unfold make; rewrite Hlen, Nat.eqb_refl; cbn [bind].
  rewrite Hz; reflexivity.
Qed.

(** The rest of the legacy path does what is written for it: an accepted
    GPRI record met while a field of SYST is zero is dropped without an
    error and without a point. *)
Lemma gpri_dropped_while_SYST_is_zero
    (xlate : Z -> option string) (K : layout) (skip : bool) (st : state)
    (values : list Z) (l : list float) :
  all_zero (field 0%Z (at_lon K) values) (field 0%Z (at_lat K) values)
           (field 0%Z (at_alt K) values) = false ->
  (GPSFIX st =? 0)%Z && skip = false ->
  scale_fields values (SCAL st) = Ok l ->
  List.length l = n_fields K ->
  nonzero (seconds (SYST st)) && nonzero (miliseconds (SYST st)) = false ->
  step xlate K skip st (R_GPRI values) = Ok (note_badfix st).
Proof.
  intros Hne Hfix Hl Hlen Hz.
  destruct (note_badfix_frame st) as [FS [_ [_ [FY _]]]].
  unfold step; rewrite Hne, Hfix, FS, FY, Hl; cbn [bind].
  unfold make; rewrite Hlen, Nat.eqb_refl; cbn [bind].
  rewrite Hz; reflexivity.
Qed.

(** The SYST state is replaced only by two non-zero quotients. *)
Lemma SYST_replaced_only_by_nonzero
    (xlate : Z -> option string) (K : layout) (skip : bool) (st st' : state)
    (d : SYSTData Z) :
  step xlate K skip st (R_SYST d) = Ok st' ->
  (st' = st
   \/ exists a b, st' = set_SYST (mkSYSTData a b) st
                  /\ nonzero a = true /\ nonzero b = true).
Proof.
  unfold step.
  destruct (scale_fields _ _) as [l|e]; cbn [bind]; [|discriminate].
  destruct l as [|a [|b l]]; cbn; try discriminate.
  - destruct (nonzero a); [discriminate|].
    intros H; ok_inv H; left; reflexivity.
  - destruct (nonzero a) eqn:Ha; [|intros H; ok_inv H; left; reflexivity].
    destruct (nonzero b) eqn:Hb; [|intros H; ok_inv H; left; reflexivity].
    destruct l; cbn; [|discriminate].
    intros H; ok_inv H; right; exists a, b; auto.
Qed.

(** ** The TSMP slot *)

Lemma set_TSMP_same (st : state) : set_TSMP (TSMP st) st = st.
Proof. destruct st; reflexivity. Qed.

Lemma gps5_item_TSMP (skip : bool) (z : Z) (st : state) (n : nat)
    (item : GPSData Z) :
  gps5_item skip (set_TSMP z st, n) item
  = bind (gps5_item skip (st, n) item)
         (fun acc => Ok (set_TSMP z (fst acc), snd acc)).
Proof.
  unfold gps5_item, note_badfix; destruct st; cbn.
  destruct (all_zero _ _ _); [reflexivity|].
  destruct (GPSFIX0 =? 0)%Z, skip; cbn; try reflexivity;
    (destruct (scale_fields _ _) as [l|e]; cbn; [|reflexivity];
     destruct (GPSData_make l) as [g|e]; cbn; [|reflexivity];
     destruct (add_seconds _ _) as [t|e]; cbn; reflexivity).
Qed.

Lemma gps5_fold_TSMP (skip : bool) (z : Z) (items : list (GPSData Z)) :
  forall (st : state) (n : nat),
    foldM (gps5_item skip) items (set_TSMP z st, n)
    = bind (foldM (gps5_item skip) items (st, n))
           (fun acc => Ok (set_TSMP z (fst acc), snd acc)).
Proof.
  induction items as [|item items IH]; intros st n; cbn [foldM].
  - reflexivity.
  - rewrite gps5_item_TSMP.
    destruct (gps5_item skip (st, n) item) as [[st1 n1]|e]; cbn [bind fst snd].
    + apply IH.
    + reflexivity.
Qed.

Section TSMPFacts.

Variable xlate : Z -> option string.
Variable KARMAGPSData : layout.

(** Every record but TSMP does the same whatever the slot holds, and leaves
    it as it is. *)
Lemma step_TSMP (skip : bool) (z : Z) (st : state) (d : KLVData) :
  (forall v, d <> R_TSMP v) ->
  step xlate KARMAGPSData skip (set_TSMP z st) d
  = bind (step xlate KARMAGPSData skip st d) (fun st' => Ok (set_TSMP z st')).
Proof.
  intros Hd;
    destruct d as [v|name|t|code|count|items|sd|values|items|items|items|];
    try (destruct st; reflexivity).
  - destruct st; cbn.
    match goal with
    | |- context [match ?x with _ => _ end] => destruct x; reflexivity
    end.
  - destruct st; cbn.
    destruct (negb (code =? GPSFIX0)%Z); cbn; [|reflexivity].
    unfold xlate_getitem; destruct (xlate code); reflexivity.
  - exfalso; apply (Hd count); reflexivity.
  - cbn [step]; rewrite gps5_fold_TSMP.
    destruct (foldM (gps5_item skip) items (st, 0)) as [[st1 n1]|e]; reflexivity.
  - destruct st; cbn.
    destruct (scale_fields _ _) as [l|e]; cbn; [|reflexivity].
    destruct (getitem l 0) as [d0|e]; cbn; [|reflexivity].
    destruct (nonzero d0); [|reflexivity].
    destruct (getitem l 1) as [d1|e]; cbn; [|reflexivity].
    destruct (nonzero d1); [|reflexivity].
    destruct (SYSTData_make l) as [s|e]; reflexivity.
  - unfold step, note_badfix; destruct st; cbn.
    destruct (all_zero _ _ _); [reflexivity|].
    destruct (GPSFIX0 =? 0)%Z, skip; cbn; try reflexivity;
      (destruct (scale_fields _ _) as [l|e]; cbn; [|reflexivity];
       destruct (make KARMAGPSData l) as [g|e]; cbn; [|reflexivity];
       destruct (_ && _); reflexivity).
Qed.

Lemma step_keeps_TSMP (skip : bool) (st st' : state) (d : KLVData) :
  (forall v, d <> R_TSMP v) ->
  step xlate KARMAGPSData skip st d = Ok st' ->
  TSMP st' = TSMP st.
Proof.
  intros Hd H.
  pose proof (step_TSMP skip (TSMP st) st d Hd) as E.
  rewrite set_TSMP_same, H in E; cbn [bind] in E.
  ok_inv E.
  match goal with H0 : st' = _ |- _ => rewrite H0 end.
  destruct st'; reflexivity.
Qed.

Lemma loop_TSMP_fold (skip : bool) (data : list KLVData) :
  forall st st' : state,
    loop xlate KARMAGPSData skip data st = Ok st' ->
    TSMP st' = fold_left tsmp_update (tsmp_values data) (TSMP st).
Proof.
  unfold loop.
  induction data as [|d data IH]; intros st st'; cbn [foldM].
  - intros H; ok_inv H; reflexivity.
  - destruct (step xlate KARMAGPSData skip st d) as [st1|e] eqn:E; cbn [bind];
      [|discriminate].
    intros H; apply IH in H; rewrite H.
    destruct d;
      try (eapply step_keeps_TSMP in E as Ek;
           [rewrite Ek; reflexivity | discriminate]).
    cbn in E |- *; unfold tsmp_update.
    destruct (TSMP st =? 0)%Z; ok_inv E; reflexivity.
Qed.

(** Two states that differ in the TSMP slot at most. *)
Lemma loop_without_TSMP (skip : bool) (data : list KLVData) :
  forall st1 st2 : state,
    set_TSMP 0 st1 = set_TSMP 0 st2 ->
    bind (loop xlate KARMAGPSData skip (remove_TSMP data) st1)
         (fun s => Ok (set_TSMP 0 s))
    = bind (loop xlate KARMAGPSData skip data st2)
           (fun s => Ok (set_TSMP 0 s)).
Proof.
  unfold loop.
  induction data as [|d data IH]; intros st1 st2 Heq.
  - cbn; rewrite Heq; reflexivity.
  - assert (Hcases : (exists v, d = R_TSMP v) \/ (forall v, d <> R_TSMP v)).
    { destruct d; try (right; discriminate); left; eexists; reflexivity. }
    destruct Hcases as [[v ->]|Hd].
    + cbn [remove_TSMP filter foldM step].
      destruct (TSMP st2 =? 0)%Z; cbn [bind]; apply IH;
        rewrite Heq; destruct st2; reflexivity.
    + assert (Hkeep : remove_TSMP (d :: data) = d :: remove_TSMP data).
      { unfold remove_TSMP; cbn [filter].
        destruct d; try reflexivity. exfalso; eapply Hd; reflexivity. }
      rewrite Hkeep; cbn [foldM].
      assert (E1 : step xlate KARMAGPSData skip st1 d
                   = bind (step xlate KARMAGPSData skip (set_TSMP 0 st1) d)
                          (fun s => Ok (set_TSMP (TSMP st1) s))).
      { transitivity
          (step xlate KARMAGPSData skip (set_TSMP (TSMP st1) (set_TSMP 0 st1)) d);
          [destruct st1; reflexivity | apply step_TSMP; assumption]. }
      assert (E2 : step xlate KARMAGPSData skip st2 d
                   = bind (step xlate KARMAGPSData skip (set_TSMP 0 st2) d)
                          (fun s => Ok (set_TSMP (TSMP st2) s))).
      { transitivity
          (step xlate KARMAGPSData skip (set_TSMP (TSMP st2) (set_TSMP 0 st2)) d);
          [destruct st2; reflexivity | apply step_TSMP; assumption]. }
      rewrite <- Heq in E2; rewrite E1, E2.
      destruct (step xlate KARMAGPSData skip (set_TSMP 0 st1) d) as [s|e];
        cbn [bind]; [|reflexivity].
      apply IH; destruct s; reflexivity.
Qed.

End TSMPFacts.

(** Three TSMP records 10, 30, 60: the slot ends at 40 = 60 - (30 - 10),
    where the delta of the last record from the one before it is 30. *)
Lemma C7_third_TSMP_is_not_a_delta_of_records :
  loop LabelGPSF_xlate KARMA_layout false [R_TSMP 10; R_TSMP 30; R_TSMP 60] init
  = Ok (set_TSMP 40 init)
  /\ TSMP_as_claimed [10; 30; 60]%Z = 30%Z.
Proof. split; vm_compute; reflexivity. Qed.

(** C7, as amended: a TSMP record stores its raw value while the slot holds
    0 (as it does at the first occurrence), and otherwise stores its value
    minus the value held by the slot; over a whole pass the slot is the
    fold of that update over the TSMP payloads in order.  After a non-zero
    first value, the second occurrence thus stores the delta of the two
    records.  The slot is not consumed: without its TSMP records a
    sequence makes [BuildGPSPoints] return and print the same. *)
Theorem C7_TSMP_slot :
  forall (xlate : Z -> option string) (KARMAGPSData : layout) (skip : bool),
    (forall (st : state) (v : Z),
        step xlate KARMAGPSData skip st (R_TSMP v)
        = Ok (set_TSMP (if (TSMP st =? 0)%Z then v else (v - TSMP st)%Z) st))
    /\
    (forall (data : list KLVData) (st st' : state),
        loop xlate KARMAGPSData skip data st = Ok st' ->
        TSMP st' = fold_left tsmp_update (tsmp_values data) (TSMP st))
    /\
    (forall (v1 v2 : Z),
        v1 <> 0%Z ->
        loop xlate KARMAGPSData skip [R_TSMP v1; R_TSMP v2] init
        = Ok (set_TSMP (v2 - v1)%Z init))
    /\
    (forall data : list KLVData,
        BuildGPSPoints xlate KARMAGPSData (remove_TSMP data) skip
        = BuildGPSPoints xlate KARMAGPSData data skip).
Proof.
  intros xlate K skip; repeat split.
  - intros st v; cbn [step]; destruct (TSMP st =? 0)%Z; reflexivity.
  - intros data st st'; apply loop_TSMP_fold.
  - intros v1 v2 Hv1; cbn.
    apply Z.eqb_neq in Hv1; rewrite Hv1; reflexivity.
  - intros data.
    pose proof (loop_without_TSMP xlate K skip data init init eq_refl) as H.
    unfold BuildGPSPoints.
    destruct (loop xlate K skip (remove_TSMP data) init) as [s1|e1];
      destruct (loop xlate K skip data init) as [s2|e2];
      cbn [bind] in H |- *; try discriminate.
    + assert (H0 : set_TSMP 0 s1 = set_TSMP 0 s2) by congruence.
      destruct s1, s2; cbn in H0 |- *; ok_inv H0; reflexivity.
    + ok_inv H; reflexivity.
Qed.

(** The theorem at a sequence with three TSMP records among others. *)
Lemma C7_witness :
  TSMP (set_TSMP 40 (set_GPSU (Some 1000%Z) (set_start_time (Some 1000%Z) init)))
  = fold_left tsmp_update [10; 30; 60]%Z 0%Z
  /\ loop LabelGPSF_xlate KARMA_layout true [R_TSMP 10; R_TSMP 30] init
     = Ok (set_TSMP 20 init).
Proof.
  destruct (C7_TSMP_slot LabelGPSF_xlate KARMA_layout true) as [_ [Hfold [Hsecond _]]].
  split.
  - exact (Hfold [R_TSMP 10; R_GPSU 1000%Z; R_TSMP 30; R_TSMP 60] init
             (set_TSMP 40 (set_GPSU (Some 1000%Z) (set_start_time (Some 1000%Z) init)))
             eq_refl).
  - exact (Hsecond 10%Z 30%Z ltac:(discriminate)).
Defined.

(** ** Single-channel extraction *)

Lemma scaled_data_divides (s : scal) (item : list Z) :
  divides s = true ->
  scaled_data s item
  = Ok (map (fun x => (float_of_int x / divisor s)%float) item).
Proof.
  destruct s as [n|ys]; cbn [divides divisor]; [|discriminate].
  intros Hn; unfold scaled_data.
  induction item as [|x item IH]; cbn [mapM map]; [reflexivity|].
  cbn [float_of_scal bind] in IH |- *; rewrite truediv_nonzero by assumption.
  cbn [bind]; rewrite IH; reflexivity.
Qed.

Lemma append_rows_divides (s : scal) (items : list (list Z)) :
  divides s = true ->
  forall all : rows,
    append_rows s items all
    = Ok (all ++ map (map (fun x => (float_of_int x / divisor s)%float)) items).
Proof.
  intros Hs; unfold append_rows.
  induction items as [|item items IH]; intros all; cbn [foldM map].
  - rewrite app_nil_r; reflexivity.
  - rewrite scaled_data_divides by assumption; cbn [bind].
    rewrite IH, <- app_assoc; reflexivity.
Qed.

Lemma most_recent_SCAL_snoc (before : list KLVData) (d : KLVData) :
  most_recent_SCAL (before ++ [d])
  = match d with
    | R_SCAL v => v
    | _ => most_recent_SCAL before
    end.
Proof. unfold most_recent_SCAL; rewrite fold_left_app; reflexivity. Qed.

(** What the loop of an extractor computes, from any point of the
    sequence on. *)
Lemma channel_loop (c : channel) (data : list KLVData) :
  forall (before : list KLVData) (all : rows),
    divisors_fit c before data = true ->
    foldM (channel_step c) data (most_recent_SCAL before, all)
    = Ok (most_recent_SCAL (before ++ data),
          all ++ rows_as_specified c before data).
Proof.
  induction data as [|d data IH]; intros before all;
    cbn [divisors_fit foldM rows_as_specified].
  - intros _; rewrite !app_nil_r; reflexivity.
  - rewrite andb_true_iff; intros [Hd Hrest].
    specialize (IH (before ++ [d]) (all ++ map (map (fun x =>
      (float_of_int x / divisor (most_recent_SCAL before))%float)) (tuples_of c d)) Hrest).
    rewrite <- app_assoc in IH; cbn [app] in IH.
    rewrite app_assoc, <- IH, most_recent_SCAL_snoc.
    destruct c, d; cbn [channel_step cori_step grav_step accl_step tuples_of map bind];
      rewrite ?app_nil_r; try reflexivity;
      cbn [tuples_of] in Hd;
      (destruct items as [|item items];
       [cbn; rewrite ?app_nil_r; reflexivity
       |rewrite append_rows_divides by assumption; reflexivity]).
Qed.

(** C8, as amended: in a single-channel mode [main_core] calls the extractor of the
    channel and writes its rows, the point builder playing no part; the
    rows are, for the records of the channel in input order, one row per
    decoded tuple, each component divided by the most recent SCAL value
    before the record (by 1.0 without one); nothing is filtered and no
    timestamp is computed.  Dividing asks that this SCAL value is a bare
    number other than zero wherever a record holds tuples. *)
Theorem C8_single_channel_rows :
  forall (xlate : Z -> option string) (KARMAGPSData : layout)
         (c : channel) (skip : bool) (data : list KLVData),
    divisors_fit c [] data = true ->
    extractor c data = Ok (rows_as_specified c [] data)
    /\ main_core xlate KARMAGPSData (Some (channel_name c)) skip data
       = WriteCSV (rows_as_specified c [] data)
    /\ List.length (rows_as_specified c [] data)
       = List.length (flat_map (tuples_of c) data).
Proof.
  intros xlate K c skip data Hfit.
  assert (Hrun : extractor c data = Ok (rows_as_specified c [] data)).
  { pose proof (channel_loop c data [] [] Hfit) as H.
    rewrite app_nil_l in H; cbn [app] in H.
    destruct c; unfold extractor, GetCORIData, GetGRAVData, GetACCLData.
    - assert (E : foldM cori_step data (Scalar (PFloat 1), [])
                  = Ok (most_recent_SCAL data, rows_as_specified CORI [] data))
        by exact H.
      rewrite E; reflexivity.
    - assert (E : foldM grav_step data (Scalar (PFloat 1), [])
                  = Ok (most_recent_SCAL data, rows_as_specified GRAV [] data))
        by exact H.
      rewrite E; reflexivity.
    - assert (E : foldM accl_step data (Scalar (PFloat 1), [])
                  = Ok (most_recent_SCAL data, rows_as_specified ACCL [] data))
        by exact H.
      rewrite E; reflexivity. }
  split; [exact Hrun|split].
  - destruct c; cbn [extractor channel_name] in *; unfold main_core; cbn;
      rewrite Hrun; reflexivity.
  - clear Hfit Hrun; generalize (@nil KLVData) as before.
    induction data as [|d data IH]; intros before; cbn [rows_as_specified flat_map];
      [reflexivity|].
    rewrite !length_app, !length_map, IH; reflexivity.
Qed.

(** The theorem at a stream in which a SCAL vector for GPS5 comes before
    the SCAL number of the ACCL records. *)
Lemma C8_witness :
  GetACCLData
    [R_SCAL (Vector (map PInt [10; 10; 10; 10; 10]%Z));
     R_GPS5 [mkGPSData 0 0 0 0 0]%Z;
     R_SCAL (Scalar (PInt 2));
     R_ACCL [[1; 2; 3]; [0; 0; 0]]%Z;
     R_ACCL [[4; 5; 6]]%Z]
  = Ok [[0.5; 1; 1.5]; [0; 0; 0]; [2; 2.5; 3]]%float.
Proof.
  exact (proj1 (C8_single_channel_rows LabelGPSF_xlate KARMA_layout ACCL false
                  [R_SCAL (Vector (map PInt [10; 10; 10; 10; 10]%Z));
                   R_GPS5 [mkGPSData 0 0 0 0 0]%Z;
                   R_SCAL (Scalar (PInt 2));
                   R_ACCL [[1; 2; 3]; [0; 0; 0]]%Z;
                   R_ACCL [[4; 5; 6]]%Z] eq_refl)).
Defined.

(** ** A pass without GPS records *)

Section NoGPS.

Variable xlate : Z -> option string.
Variable KARMAGPSData : layout.

(** A record other than GPS5 and GPRI, met under a scale and a fix code
    that fit, is consumed without an exception and without a point. *)
Lemma step_bookkeeping (skip : bool) (st : state) (d : KLVData)
    (rest : list KLVData) :
  no_GPS_record (d :: rest) = true ->
  bookkeeping_fits xlate (SCAL st) (GPSFIX st) (d :: rest) = true ->
  exists st',
    step xlate KARMAGPSData skip st d = Ok st'
    /\ points st' = points st
    /\ bookkeeping_fits xlate (SCAL st') (GPSFIX st') rest = true.
Proof.
  cbn [no_GPS_record forallb]; rewrite andb_true_iff; intros [Hd _].
  destruct d as [v|name|t|code|count|items|sd|values|items|items|items|];
    try discriminate; cbn [bookkeeping_fits step].
  - intros H; eexists; split; [reflexivity|]; auto.
  - intros H; eexists; split; [reflexivity|]; auto.
  - intros H; destruct (start_time (set_GPSU (Some t) st));
      eexists; (split; [reflexivity|]); auto.
  - rewrite andb_true_iff; intros [Hlabel H].
    destruct (code =? GPSFIX st)%Z; cbn [negb bind].
    + eexists; split; [reflexivity|]; auto.
    + unfold xlate_getitem; cbn [orb] in Hlabel.
      destruct (xlate code); [|discriminate]; cbn [bind].
      eexists; split; [reflexivity|]; auto.
  - intros H; destruct (TSMP st =? 0)%Z; eexists; (split; [reflexivity|]); auto.
  - rewrite andb_true_iff; intros [Hs H].
    destruct (SCAL st) as [n|[|y0 [|y1 ys]]] eqn:ES; try discriminate.
    cbn [scales_SYST] in Hs; apply andb_true_iff in Hs as [H0 H1].
    unfold scale_fields; cbn.
    rewrite !truediv_nonzero by assumption; cbn.
    destruct (nonzero (float_of_int (seconds sd) / to_float y0)%float);
      [|eexists; split; [reflexivity|]; rewrite ES; auto].
    destruct (nonzero (float_of_int (miliseconds sd) / to_float y1)%float);
      eexists; (split; [reflexivity|]); cbn; rewrite ES; auto.
  - intros H; eexists; split; [reflexivity|]; auto.
  - intros H; eexists; split; [reflexivity|]; auto.
  - intros H; eexists; split; [reflexivity|]; auto.
  - intros H; eexists; split; [reflexivity|]; auto.
Qed.

Lemma loop_bookkeeping (skip : bool) (data : list KLVData) :
  forall st : state,
    no_GPS_record data = true ->
    bookkeeping_fits xlate (SCAL st) (GPSFIX st) data = true ->
    exists st',
      loop xlate KARMAGPSData skip data st = Ok st'
      /\ points st' = points st.
Proof.
  unfold loop.
  induction data as [|d data IH]; intros st Hno Hfit.
  - exists st; split; reflexivity.
  - destruct (step_bookkeeping skip st d data Hno Hfit) as [st1 [E [Hp Hfit1]]].
    cbn [foldM]; rewrite E; cbn [bind].
    cbn [no_GPS_record forallb] in Hno; apply andb_true_iff in Hno as [_ Hno].
    destruct (IH st1 Hno Hfit1) as [st' [E' Hp']].
    exists st'; split; [exact E'|congruence].
Qed.

(** Whatever the records other than GPS5 and GPRI do, they add no point. *)
Lemma step_adds_no_point (skip : bool) (st st' : state) (d : KLVData) :
  no_GPS_record [d] = true ->
  step xlate KARMAGPSData skip st d = Ok st' ->
  points st' = points st.
Proof.
  destruct d as [v|name|t|code|count|items|sd|values|items|items|items|];
    try discriminate; intros _; cbn [step].
  - intros H; ok_inv H; reflexivity.
  - intros H; ok_inv H; reflexivity.
  - destruct (start_time _); intros H; ok_inv H; reflexivity.
  - destruct (negb _); cbn [bind].
    + destruct (xlate_getitem xlate code); cbn [bind]; [|discriminate].
      intros H; ok_inv H; reflexivity.
    + intros H; ok_inv H; reflexivity.
  - destruct (TSMP st =? 0)%Z; intros H; ok_inv H; reflexivity.
  - destruct (scale_fields _ _) as [l|e]; cbn [bind]; [|discriminate].
    destruct (getitem l 0) as [d0|e]; cbn [bind]; [|discriminate].
    destruct (nonzero d0); [|intros H; ok_inv H; reflexivity].
    destruct (getitem l 1) as [d1|e]; cbn [bind]; [|discriminate].
    destruct (nonzero d1); [|intros H; ok_inv H; reflexivity].
    destruct (SYSTData_make l) as [s|e]; cbn [bind]; [|discriminate].
    intros H; ok_inv H; reflexivity.
  - intros H; ok_inv H; reflexivity.
  - intros H; ok_inv H; reflexivity.
  - intros H; ok_inv H; reflexivity.
  - intros H; ok_inv H; reflexivity.
Qed.

Lemma loop_adds_no_point (skip : bool) (data : list KLVData) :
  forall st st' : state,
    no_GPS_record data = true ->
    loop xlate KARMAGPSData skip data st = Ok st' ->
    points st' = points st.
Proof.
  unfold loop.
  induction data as [|d data IH]; intros st st' Hno; cbn [foldM].
  - intros H; ok_inv H; reflexivity.
  - cbn [no_GPS_record forallb] in Hno; apply andb_true_iff in Hno as [Hd Hno].
    destruct (step xlate KARMAGPSData skip st d) as [st1|e] eqn:E; cbn [bind];
      [|discriminate].
    intros H; apply (IH _ _ Hno) in H.
    apply step_adds_no_point in E; [congruence|].
    cbn [no_GPS_record forallb]; rewrite Hd; reflexivity.
Qed.

Lemma main_core_gps_mode (fourcc_type : option string) (skip : bool)
    (data : list KLVData) :
  gps_mode fourcc_type = true ->
  main_core xlate KARMAGPSData fourcc_type skip data
  = match BuildGPSPoints xlate KARMAGPSData data skip with
    | Raise e => Uncaught e
    | Ok (points, start_time, device_name, _) =>
        if Nat.eqb (List.length points) 0 then SysExit 0
        else WriteKMLGPX points start_time device_name
    end.
Proof.
  unfold gps_mode, main_core; destruct fourcc_type as [s|]; [|reflexivity].
  rewrite negb_true_iff, !orb_false_iff; intros [[H1 H2] H3].
  rewrite H1, H2, H3; reflexivity.
Qed.

End NoGPS.

(** A sequence without GPS5 and GPRI records that ends the pass with an
    exception: the SCAL record of another sensor holds a bare number, and
    the SYST branch asks for [list(SCAL)]. *)
Lemma C9_SYST_after_scalar_SCAL_raises :
  no_GPS_record [R_SCAL (Scalar (PInt 32767)); R_SYST (mkSYSTData 1 2)%Z] = true
  /\ main_core LabelGPSF_xlate KARMA_layout None false
       [R_SCAL (Scalar (PInt 32767)); R_SYST (mkSYSTData 1 2)%Z]
     = Uncaught (TypeError NotIterable).
Proof. split; vm_compute; reflexivity. Qed.

(** C9, as amended: for a sequence without GPS5 and GPRI records,
    [main_core] in GPS mode never writes a track: it exits with status 0
    ("nothing to write") or stops on an exception of the SYST or GPSF
    bookkeeping.  When every SYST record is met under a scale vector of at
    least two components, the first two non-zero, and every GPSF record
    that changes the fix code has a label, the pass consumes the whole
    sequence, returns no point, prints its counters, and [main_core] exits
    with status 0. *)
Theorem C9_no_GPS_records_nothing_to_write :
  forall (xlate : Z -> option string) (KARMAGPSData : layout)
         (fourcc_type : option string) (skip : bool) (data : list KLVData),
    no_GPS_record data = true ->
    gps_mode fourcc_type = true ->
    (main_core xlate KARMAGPSData fourcc_type skip data = SysExit 0
     \/ exists e, main_core xlate KARMAGPSData fourcc_type skip data = Uncaught e)
    /\
    (bookkeeping_fits xlate (XYZData 1 1 1) 0 data = true ->
     (exists st,
         loop xlate KARMAGPSData skip data init = Ok st
         /\ BuildGPSPoints xlate KARMAGPSData data skip
            = Ok (([], first_GPSU data, last_DVNM data "Unknown"),
                  stdout st ++ [stats_block st]))
     /\ main_core xlate KARMAGPSData fourcc_type skip data = SysExit 0).
Proof.
  intros xlate K fourcc_type skip data Hno Hmode.
  rewrite (main_core_gps_mode xlate K fourcc_type skip data Hmode).
  split.
  - unfold BuildGPSPoints.
    destruct (loop xlate K skip data init) as [st|e] eqn:E; cbn [bind].
    + left; cbn.
      rewrite (loop_adds_no_point xlate K skip data init st Hno E); reflexivity.
    + right; exists e; reflexivity.
  - intros Hfit.
    destruct (loop_bookkeeping xlate K skip data init Hno Hfit) as [st [E Hp]].
    pose proof (loop_counts xlate K skip data init st E) as [_ [Hs Hd]]; cbn in Hs, Hd, Hp.
    unfold BuildGPSPoints; rewrite E; cbn.
    rewrite Hp, Hs, Hd; split; [|reflexivity].
    exists st; split; reflexivity.
Qed.

(** The theorem at a stream of bookkeeping records: it is consumed, and
    [main_core] exits with status 0. *)
Lemma C9_witness :
  main_core LabelGPSF_xlate KARMA_layout None true
    [R_DVNM "Hero"; R_SCAL (Vector (map PInt [1; 1000]%Z));
     R_SYST (mkSYSTData 12 3400)%Z; R_GPSF 2; R_GPSU 1000%Z; R_TSMP 18; R_other]
  = SysExit 0.
Proof.
  exact (proj2 (proj2 (C9_no_GPS_records_nothing_to_write
           LabelGPSF_xlate KARMA_layout None true
           [R_DVNM "Hero"; R_SCAL (Vector (map PInt [1; 1000]%Z));
            R_SYST (mkSYSTData 12 3400)%Z; R_GPSF 2; R_GPSU 1000%Z; R_TSMP 18; R_other]
           eq_refl eq_refl) eq_refl)).
Defined.

(** ** The timestamp anchor *)

Lemma scale_fields_raises (values : list Z) (s : scal) (e : exn) :
  scale_fields values s = Raise e ->
  e = ZeroDivisionError \/ e = TypeError NotIterable.
Proof.
  unfold scale_fields; destruct s as [n|ys]; cbn [scale_list bind].
  - intros H; ok_inv H; right; reflexivity.
  - destruct (mapM_truediv_length
                (fun xy : Z * pynum => float_of_int (fst xy))
                (fun xy : Z * pynum => to_float (snd xy))
                (combine values ys)) as [[l [Hl _]]|Hr].
    + rewrite Hl; discriminate.
    + rewrite Hr; intros H; ok_inv H; left; reflexivity.
Qed.

Lemma GPSData_make_raises (l : list float) (e : exn) :
  GPSData_make l = Raise e -> e = TypeError (WrongArity 5 (List.length l)).
Proof.
  destruct l as [|a [|b [|c [|d [|x [|y l]]]]]]; cbn; intros H;
    solve [discriminate | ok_inv H; reflexivity].
Qed.

(** One sample: it leaves the anchor and the fix code, and the missing
    anchor is the failure of an accepted sample only. *)
Lemma gps5_item_anchor (skip : bool) (st : state) (n : nat) (item : GPSData Z) :
  match gps5_item skip (st, n) item with
  | Ok (st', _) => GPSU st' = GPSU st /\ GPSFIX st' = GPSFIX st
  | Raise e =>
      accepted skip st item = true
      /\ (e = TypeError NoneAnchor -> GPSU st = None)
  end.
Proof.
  unfold gps5_item, accepted, passes_filters.
  destruct (note_badfix_frame st) as [FS [FU [_ [_ FF]]]].
  destruct (all_zero _ _ _); cbn [negb andb]; [split; reflexivity|].
  destruct ((GPSFIX st =? 0)%Z && skip); cbn [negb];
    [cbn; split; [exact FU|exact FF]|].
  destruct (scale_fields _ _) as [l|e] eqn:El; cbn [bind].
  - destruct (GPSData_make l) as [g|e] eqn:Eg; cbn [bind].
    + rewrite FU; destruct (GPSU st) as [t|]; cbn.
      * split; [exact FU|exact FF]. 
      * split; [reflexivity|]; intros _; reflexivity.
    + split; [reflexivity|]; intros ->.
      apply GPSData_make_raises in Eg; discriminate.
  - split; [reflexivity|]; intros ->.
    apply scale_fields_raises in El; destruct El; discriminate.
Qed.

Lemma gps5_fold_anchor (skip : bool) (items : list (GPSData Z)) :
  forall (st : state) (n : nat),
    match foldM (gps5_item skip) items (st, n) with
    | Ok (st', _) => GPSU st' = GPSU st /\ GPSFIX st' = GPSFIX st
    | Raise e =>
        existsb (passes_filters skip (GPSFIX st)) items = true
        /\ (e = TypeError NoneAnchor -> GPSU st = None)
    end.
Proof.
  induction items as [|item items IH]; intros st n; cbn [foldM existsb].
  - split; reflexivity.
  - pose proof (gps5_item_anchor skip st n item) as Hi.
    destruct (gps5_item skip (st, n) item) as [[st1 n1]|e]; cbn [bind].
    + destruct Hi as [HU HF].
      specialize (IH st1 n1).
      destruct (foldM (gps5_item skip) items (st1, n1)) as [[st2 n2]|e].
      * destruct IH; split; congruence.
      * destruct IH as [Hex Hn]; rewrite HF in Hex; rewrite Hex, orb_true_r.
        split; [reflexivity|]; intros He; rewrite <- HU; auto.
    + destruct Hi as [Hacc Hn]; unfold accepted in Hacc; rewrite Hacc.
      split; [reflexivity|exact Hn].
Qed.

Section Anchor.

Variable xlate : Z -> option string.
Variable KARMAGPSData : layout.

(** One record: how it moves the anchor and the fix code, and that the
    missing anchor is the failure of a GPS5 record only, one that holds an
    accepted sample. *)
Lemma step_anchor (skip : bool) (st : state) (d : KLVData) :
  match step xlate KARMAGPSData skip st d with
  | Ok st' =>
      GPSU st' = match d with R_GPSU t => Some t | _ => GPSU st end
      /\ GPSFIX st' = match d with R_GPSF code => code | _ => GPSFIX st end
  | Raise e =>
      e = TypeError NoneAnchor ->
      GPSU st = None
      /\ exists items, d = R_GPS5 items
                       /\ existsb (passes_filters skip (GPSFIX st)) items = true
  end.
Proof.
  destruct d as [v|name|t|code|count|items|sd|values|items|items|items|];
    cbn [step]; try (split; reflexivity).
  - destruct (start_time _); split; reflexivity.
  - destruct (negb _); cbn [bind]; [|split; reflexivity].
    unfold xlate_getitem; destruct (xlate code); cbn [bind];
      [split; reflexivity|discriminate].
  - destruct (TSMP st =? 0)%Z; split; reflexivity.
  - pose proof (gps5_fold_anchor skip items st 0) as H.
    destruct (foldM (gps5_item skip) items (st, 0)) as [[st1 n1]|e]; cbn [bind fst].
    + exact H.
    + destruct H as [Hex Hn]; intros He; split; [auto|].
      exists items; split; [reflexivity|exact Hex].
  - destruct (scale_fields _ _) as [l|e] eqn:El; cbn [bind].
    + unfold getitem.
      destruct l as [|a [|b l]]; cbn; try discriminate.
      * destruct (nonzero a); [discriminate|split; reflexivity].
      * destruct (nonzero a); [|split; reflexivity].
        destruct (nonzero b); [|split; reflexivity].
        destruct l; cbn; [split; reflexivity|discriminate].
    + intros ->; apply scale_fields_raises in El; destruct El; discriminate.
  - destruct (note_badfix_frame st) as [FS [FU [_ [_ FF]]]].
    destruct (all_zero _ _ _); [split; reflexivity|].
    destruct ((GPSFIX st =? 0)%Z && skip); [cbn; split; [exact FU|exact FF]|].
    destruct (scale_fields _ _) as [l|e] eqn:El; cbn [bind].
    + unfold make; destruct (Nat.eqb _ _); cbn [bind]; [|discriminate].
      destruct (_ && _); [discriminate|split; [exact FU|exact FF]].
    + intros ->; apply scale_fields_raises in El; destruct El; discriminate.
Qed.

(** Once an anchor is set, no later sample fails for the lack of one. *)
Lemma loop_with_anchor (skip : bool) (data : list KLVData) :
  forall st : state,
    GPSU st <> None ->
    loop xlate KARMAGPSData skip data st <> Raise (TypeError NoneAnchor).
Proof.
  unfold loop.
  induction data as [|d data IH]; intros st HU; cbn [foldM]; [discriminate|].
  pose proof (step_anchor skip st d) as Hs.
  destruct (step xlate KARMAGPSData skip st d) as [st1|e]; cbn [bind].
  - apply IH; destruct Hs as [Hs _]; rewrite Hs.
    destruct d; solve [exact HU | discriminate].
  - intros He; ok_inv He; destruct (Hs eq_refl) as [Hnone _]; auto.
Qed.

(** While no sample is accepted, none fails for the lack of an anchor. *)
Lemma loop_without_accepted (skip : bool) (data : list KLVData) :
  forall st : state,
    no_accepted_sample skip (GPSFIX st) data = true ->
    loop xlate KARMAGPSData skip data st <> Raise (TypeError NoneAnchor).
Proof.
  unfold loop.
  induction data as [|d data IH]; intros st Hno; cbn [foldM]; [discriminate|].
  pose proof (step_anchor skip st d) as Hs.
  destruct (step xlate KARMAGPSData skip st d) as [st1|e]; cbn [bind].
  - apply IH; destruct Hs as [_ Hs]; rewrite Hs.
    destruct d; cbn [no_accepted_sample] in Hno; try exact Hno.
    apply andb_true_iff in Hno as [_ Hno]; exact Hno.
  - intros He; ok_inv He.
    destruct (Hs eq_refl) as [_ [items [-> Hex]]].
    cbn [no_accepted_sample] in Hno; apply andb_true_iff in Hno as [Hall _].
    apply existsb_exists in Hex as [item [Hin Hp]].
    rewrite forallb_forall in Hall; specialize (Hall item Hin).
    rewrite Hp in Hall; discriminate.
Qed.

End Anchor.

(** An accepted sample met while the anchor is unset fails, and with the
    [TypeError] of the timestamp once its five fields are scaled; a run in
    which a GPSU record comes before the first accepted sample never ends
    with that failure. *)
Lemma unset_anchor_item_and_run :
  forall (xlate : Z -> option string) (KARMAGPSData : layout) (skip : bool),
    (forall (st : state) (n : nat) (item : GPSData Z),
        GPSU st = None ->
        accepted skip st item = true ->
        (exists e, gps5_item skip (st, n) item = Raise e)
        /\ (forall g : GPSData float,
               bind (scale_fields (GPSData_values item) (SCAL st)) GPSData_make = Ok g ->
               gps5_item skip (st, n) item = Raise (TypeError NoneAnchor)))
    /\
    (forall (pre post : list KLVData) (t : datetime),
        no_accepted_sample skip 0 pre = true ->
        BuildGPSPoints xlate KARMAGPSData (pre ++ R_GPSU t :: post) skip
        <> Raise (TypeError NoneAnchor)).
Proof.
  intros xlate K skip; split.
  - intros st n item HU Hacc.
    unfold accepted, passes_filters in Hacc; apply andb_true_iff in Hacc as [Hne Hfix].
    apply negb_true_iff in Hne, Hfix.
    destruct (note_badfix_frame st) as [FS [FU _]].
    unfold gps5_item; rewrite Hne, Hfix, FS, FU, HU.
    destruct (scale_fields _ _) as [l|e]; cbn [bind].
    + destruct (GPSData_make l) as [g|e]; cbn.
      * split; [eexists; reflexivity|]; intros; reflexivity.
      * split; [eexists; reflexivity|]; discriminate.
    + split; [eexists; reflexivity|]; discriminate.
  - intros pre post t Hno.
    unfold BuildGPSPoints, loop; rewrite foldM_app; cbn [foldM].
    pose proof (loop_without_accepted xlate K skip pre init Hno) as Hpre.
    unfold loop in Hpre.
    destruct (foldM (step xlate K skip) pre init) as [st|e]; cbn [bind];
      [|intros He; ok_inv He; apply Hpre; reflexivity].
    pose proof (step_anchor xlate K skip st (R_GPSU t)) as Hs.
    destruct (step xlate K skip st (R_GPSU t)) as [st1|e]; cbn [bind].
    + destruct Hs as [Hs _].
      pose proof (loop_with_anchor xlate K skip post st1) as Hpost.
      unfold loop in Hpost.
      destruct (foldM (step xlate K skip) post st1) as [st2|e]; cbn [bind];
        [discriminate|].
      intros He; ok_inv He; apply Hpost; [rewrite Hs; discriminate|reflexivity].
    + intros He; ok_inv He; destruct (Hs eq_refl) as [_ [items [Hd _]]].
      discriminate.
Qed.


(** ** More facts about the monad *)

(** Elements the body passes over can be left out of the loop. *)
Lemma foldM_filter {S X : Type} (f : S -> X -> result S) (keep : X -> bool)
    (xs : list X) :
  (forall x s, keep x = false -> f s x = Ok s) ->
  forall s, foldM f (filter keep xs) s = foldM f xs s.
Proof.
  intros Hinert; induction xs as [|x xs IH]; intros s; cbn [filter foldM].
  - reflexivity.
  - destruct (keep x) eqn:Hk; cbn [foldM].
    + destruct (f s x); cbn [bind]; auto.
    + rewrite (Hinert x s Hk); cbn [bind]; apply IH.
Qed.

(** ** A GPS5 record under a scale vector of five and an anchor *)

(** A sample that does not pass the filters is counted and nothing else. *)
Lemma gps5_item_rejects (skip : bool) (st : state) (n : nat) (item : GPSData Z) :
  accepted skip st item = false ->
  exists st',
    gps5_item skip (st, n) item = Ok (st', n)
    /\ points st' = points st /\ SCAL st' = SCAL st
    /\ GPSU st' = GPSU st /\ GPSFIX st' = GPSFIX st.
Proof.
  unfold accepted, passes_filters, gps5_item.
  destruct (note_badfix_frame st) as [FS [FU [FP [_ FF]]]].
  destruct (all_zero _ _ _); cbn [negb andb].
  - intros _; eexists; split; [reflexivity|]; cbn; auto.
  - destruct ((GPSFIX st =? 0)%Z && skip); cbn [negb]; [|discriminate].
    intros _; eexists; split; [reflexivity|]; cbn; auto.
Qed.

(** The loop over the samples of a GPS5 record, under an anchor [T] and a
    scale vector whose first five components are non-zero: it never fails;
    it appends, in input order, the points of exactly the samples that
    pass the two filters, each stamped with its rank among those times
    [t_delta], and [sample_count] grows by their number. *)
Lemma gps5_fold_emits_by_rank :
  forall (skip : bool) (y0 y1 y2 y3 y4 : pynum) (rest : list pynum)
         (T : datetime) (items : list (GPSData Z)) (st : state) (n : nat),
    SCAL st = Vector (y0 :: y1 :: y2 :: y3 :: y4 :: rest) ->
    divisors_nonzero [y0; y1; y2; y3; y4] = true ->
    GPSU st = Some T ->
    exists st',
      foldM (gps5_item skip) items (st, n)
      = Ok (st', n + List.length (filter (passes_filters skip (GPSFIX st)) items))
      /\ points st'
         = points st
           ++ stamped (scaled_point y0 y1 y2 y3 T) n
                      (filter (passes_filters skip (GPSFIX st)) items).
Proof.
  intros skip y0 y1 y2 y3 y4 rest T items.
  induction items as [|item items IH]; intros st n HS Hnz HU.
  - exists st; cbn; rewrite Nat.add_0_r, app_nil_r; split; reflexivity.
  - cbn [filter foldM].
    destruct (passes_filters skip (GPSFIX st) item) eqn:Hacc.
    + rewrite (gps5_item_emits skip st n item y0 y1 y2 y3 y4 rest T HS Hnz HU Hacc).
      cbn [bind].
      destruct (note_badfix_frame st) as [FS [FU [FP [_ FF]]]].
      match goal with
      | |- context [foldM _ items (?s1, S n)] =>
          destruct (IH s1 (S n)) as [st' [E Hp]];
          [ cbn; exact (eq_trans FS HS) | exact Hnz | cbn; exact (eq_trans FU HU) | ];
          assert (HF : GPSFIX s1 = GPSFIX st) by (cbn; exact FF)
      end.
      rewrite HF in E, Hp.
      exists st'; rewrite E; split.
      * f_equal; f_equal; cbn [List.length]; lia.
      * rewrite Hp; cbn [points incr_ok set_points set_stats stamped].
        unfold scaled_point at 2; rewrite <- app_assoc; reflexivity.
    + destruct (gps5_item_rejects skip st n item Hacc)
        as [s1 [E1 [Hp1 [HS1 [HU1 HF1]]]]].
      rewrite E1; cbn [bind].
      destruct (IH s1 n) as [st' [E Hp]];
        [rewrite HS1; exact HS | exact Hnz | rewrite HU1; exact HU |].
      rewrite HF1 in E, Hp; rewrite Hp1 in Hp.
      exists st'; split; assumption.
Qed.

(** ** The counters and the printed warnings *)

(** One GPS5 sample: what it does to the counters and to the output. *)
Lemma gps5_item_accounting (skip : bool) (st st' : state) (n n' : nat)
    (item : GPSData Z) :
  gps5_item skip (st, n) item = Ok (st', n') ->
  accounted (stats st') = S (accounted (stats st))
  /\ (badfixskip (stats st) = (if skip then badfix (stats st) else 0) ->
      badfixskip (stats st') = (if skip then badfix (stats st') else 0))
  /\ printed is_SkipEmpty (stdout st') + empty (stats st)
     = printed is_SkipEmpty (stdout st) + empty (stats st')
  /\ printed is_SkipBadFix (stdout st') + badfixskip (stats st)
     = printed is_SkipBadFix (stdout st) + badfixskip (stats st').
Proof.
  unfold gps5_item, note_badfix, accounted, printed.
  destruct (all_zero _ _ _).
  { intros H; ok_inv H; cbn; rewrite !filter_app, !length_app; cbn.
    repeat split; try lia. }
  destruct (GPSFIX st =? 0)%Z, skip; cbn [andb];
    try (intros H; ok_inv H; cbn; rewrite !filter_app, !length_app; cbn;
         repeat split; lia);
    (destruct (scale_fields _ _) as [l|e]; cbn [bind]; [|discriminate];
     destruct (GPSData_make l) as [g|e]; cbn [bind]; [|discriminate];
     destruct (add_seconds _ _) as [t|e]; cbn [bind]; [|discriminate];
     intros H; ok_inv H; cbn; repeat split; lia).
Qed.

Lemma gps5_fold_accounting (skip : bool) (items : list (GPSData Z)) :
  forall (st st' : state) (n n' : nat),
    foldM (gps5_item skip) items (st, n) = Ok (st', n') ->
    accounted (stats st') = accounted (stats st) + List.length items
    /\ (badfixskip (stats st) = (if skip then badfix (stats st) else 0) ->
        badfixskip (stats st') = (if skip then badfix (stats st') else 0))
    /\ printed is_SkipEmpty (stdout st') + empty (stats st)
       = printed is_SkipEmpty (stdout st) + empty (stats st')
    /\ printed is_SkipBadFix (stdout st') + badfixskip (stats st)
       = printed is_SkipBadFix (stdout st) + badfixskip (stats st').
Proof.
  induction items as [|item items IH]; intros st st' n n'; cbn [foldM].
  - intros H; ok_inv H; cbn; repeat split; auto; lia.
  - destruct (gps5_item skip (st, n) item) as [[st1 n1]|e] eqn:E; cbn [bind];
      [|discriminate].
    intros H; apply IH in H; apply gps5_item_accounting in E.
    destruct H as [H1 [H2 [H3 H4]]], E as [E1 [E2 [E3 E4]]].
    cbn [List.length]; repeat split; auto; lia.
Qed.

Section Accounting.

Variable xlate : Z -> option string.
Variable KARMAGPSData : layout.

Lemma step_accounting (skip : bool) (st st' : state) (d : KLVData) :
  step xlate KARMAGPSData skip st d = Ok st' ->
  (accounted (stats st) + List.length (GPS5_samples [d]) <= accounted (stats st')
   /\ accounted (stats st')
      <= accounted (stats st) + List.length (GPS5_samples [d])
         + List.length (filter is_GPRI [d]))
  /\ (badfixskip (stats st) = (if skip then badfix (stats st) else 0) ->
      badfixskip (stats st') = (if skip then badfix (stats st') else 0))
  /\ printed is_SkipEmpty (stdout st') + empty (stats st)
     = printed is_SkipEmpty (stdout st) + empty (stats st')
  /\ printed is_SkipBadFix (stdout st') + badfixskip (stats st)
     = printed is_SkipBadFix (stdout st) + badfixskip (stats st').
Proof.
  destruct d as [v|name|t|code|count|items|sd|values|items|items|items|];
    cbn [step GPS5_samples flat_map filter is_GPRI List.length app].
  - intros H; ok_inv H; cbn; repeat split; auto; lia.
  - intros H; ok_inv H; cbn; repeat split; auto; lia.
  - destruct (start_time _); intros H; ok_inv H; cbn; repeat split; auto; lia.
  - destruct (negb _); cbn [bind].
    + destruct (xlate_getitem xlate code); cbn [bind]; [|discriminate].
      intros H; ok_inv H; unfold printed; cbn;
        rewrite !filter_app, !length_app; cbn; repeat split; auto; lia.
    + intros H; ok_inv H; cbn; repeat split; auto; lia.
  - destruct (TSMP st =? 0)%Z; intros H; ok_inv H; cbn; repeat split; auto; lia.
  - destruct (foldM (gps5_item skip) items (st, 0)) as [[st1 n1]|e] eqn:E;
      cbn [bind]; [|discriminate].
    intros H; ok_inv H; cbn [fst].
    apply gps5_fold_accounting in E; destruct E as [E1 [E2 [E3 E4]]].
    rewrite app_nil_r; repeat split; auto; lia.
  - destruct (scale_fields _ _) as [l|e]; cbn [bind]; [|discriminate].
    destruct (getitem l 0) as [d0|e]; cbn [bind]; [|discriminate].
    destruct (nonzero d0); [|intros H; ok_inv H; repeat split; auto; lia].
    destruct (getitem l 1) as [d1|e]; cbn [bind]; [|discriminate].
    destruct (nonzero d1); [|intros H; ok_inv H; repeat split; auto; lia].
    destruct (SYSTData_make l) as [s|e]; cbn [bind]; [|discriminate].
    intros H; ok_inv H; cbn; repeat split; auto; lia.
  - unfold note_badfix, accounted, printed.
    destruct (all_zero _ _ _).
    { intros H; ok_inv H; cbn; rewrite !filter_app, !length_app; cbn.
      repeat split; lia. }
    destruct (GPSFIX st =? 0)%Z, skip; cbn [andb];
      try (intros H; ok_inv H; cbn; rewrite !filter_app, !length_app; cbn;
           repeat split; lia);
      (destruct (scale_fields _ _) as [l|e]; cbn [bind]; [|discriminate];
       destruct (make KARMAGPSData l) as [g|e]; cbn [bind]; [|discriminate];
       destruct (_ && _); [discriminate|];
       intros H; ok_inv H; cbn; repeat split; lia).
  - intros H; ok_inv H; cbn; repeat split; auto; lia.
  - intros H; ok_inv H; cbn; repeat split; auto; lia.
  - intros H; ok_inv H; cbn; repeat split; auto; lia.
  - intros H; ok_inv H; cbn; repeat split; auto; lia.
Qed.

Lemma loop_accounting (skip : bool) (data : list KLVData) :
  forall st st' : state,
    loop xlate KARMAGPSData skip data st = Ok st' ->
    (accounted (stats st) + List.length (GPS5_samples data) <= accounted (stats st')
     /\ accounted (stats st')
        <= accounted (stats st) + List.length (GPS5_samples data)
           + List.length (filter is_GPRI data))
    /\ (badfixskip (stats st) = (if skip then badfix (stats st) else 0) ->
        badfixskip (stats st') = (if skip then badfix (stats st') else 0))
    /\ printed is_SkipEmpty (stdout st') + empty (stats st)
       = printed is_SkipEmpty (stdout st) + empty (stats st')
    /\ printed is_SkipBadFix (stdout st') + badfixskip (stats st)
       = printed is_SkipBadFix (stdout st) + badfixskip (stats st').
Proof.
  unfold loop.
  induction data as [|d data IH]; intros st st'; cbn [foldM].
  - intros H; ok_inv H; cbn; repeat split; auto; lia.
  - destruct (step xlate KARMAGPSData skip st d) as [st1|e] eqn:E; cbn [bind];
      [|discriminate].
    intros H; apply IH in H; apply step_accounting in E.
    destruct H as [[H0 H1] [H2 [H3 H4]]], E as [[E0 E1] [E2 [E3 E4]]].
    assert (Hs : List.length (GPS5_samples (d :: data))
                 = List.length (GPS5_samples [d]) + List.length (GPS5_samples data)).
    { unfold GPS5_samples; cbn [flat_map]; rewrite app_nil_r, length_app; reflexivity. }
    assert (Hg : List.length (filter is_GPRI (d :: data))
                 = List.length (filter is_GPRI [d]) + List.length (filter is_GPRI data)).
    { cbn [filter]; destruct (is_GPRI d); reflexivity. }
    rewrite Hs, Hg; repeat split; auto; lia.
Qed.

End Accounting.

(** X1: when the pass completes, every GPS5 sample is accounted for once
    among the emitted, the empty and the skipped ones, and a GPRI record
    at most once (an accepted GPRI record met while SYST is zero is
    dropped without being counted).  The printed total adds the [badfix]
    counter to that, so a bad-fix sample is counted twice in it. *)
Theorem X1_every_sample_is_accounted_for :
  forall (xlate : Z -> option string) (KARMAGPSData : layout)
         (data : list KLVData) (skip : bool) (st : state),
    loop xlate KARMAGPSData skip data init = Ok st ->
    List.length (GPS5_samples data) <= accounted (stats st)
    /\ accounted (stats st)
       <= List.length (GPS5_samples data) + List.length (filter is_GPRI data)
    /\ total_points (stats st) = accounted (stats st) + badfix (stats st).
Proof.
  intros xlate K data skip st H.
  apply loop_accounting in H; destruct H as [[H0 H1] _]; cbn in H0, H1.
  repeat split; [exact H0|exact H1|].
  unfold total_points, accounted; lia.
Qed.

(** The theorem at a run of three samples under fix code 0 with the skip
    policy off: one empty, two kept with a bad fix; the total is 5. *)
Lemma X1_witness :
  3 <= accounted (mkStats 2 2 0 1)
  /\ accounted (mkStats 2 2 0 1) <= 3 + 0
  /\ total_points (mkStats 2 2 0 1) = accounted (mkStats 2 2 0 1) + 2.
Proof.
  exact (X1_every_sample_is_accounted_for LabelGPSF_xlate KARMA_layout
           [SCAL_five_ones; R_GPSU 1000%Z;
            R_GPS5 [mkGPSData 1 2 3 4 5; mkGPSData 0 0 0 0 0; mkGPSData 5 4 3 2 1]%Z]
           false
           (set_stats (mkStats 2 2 0 1)
              (set_points
                 [mkPoint 1 2 3 (mkTime 1000%Z 0) 4;
                  mkPoint 5 4 3 (mkTime 1000%Z (1 / 18)) 2]%float
                 (print SkipEmpty
                    (set_start_time (Some 1000%Z)
                       (set_GPSU (Some 1000%Z)
                          (set_SCAL (Vector (map PInt [1; 1; 1; 1; 1]%Z)) init))))))
           eq_refl).
Defined.

(** X2: when the pass completes, the [badfixskip] counter equals the
    [badfix] counter under the skip policy and is 0 without it: either
    every bad-fix sample is dropped or none is. *)
Theorem X2_skip_policy_is_all_or_nothing :
  forall (xlate : Z -> option string) (KARMAGPSData : layout)
         (data : list KLVData) (skip : bool) (st : state),
    loop xlate KARMAGPSData skip data init = Ok st ->
    badfixskip (stats st) = (if skip then badfix (stats st) else 0).
Proof.
  intros xlate K data skip st H.
  apply loop_accounting in H; destruct H as [_ [H _]].
  apply H; destruct skip; reflexivity.
Qed.

(** The theorem at a run under fix code 0 with the skip policy on. *)
Lemma X2_witness :
  badfixskip (mkStats 0 2 2 1) = badfix (mkStats 0 2 2 1).
Proof.
  exact (X2_skip_policy_is_all_or_nothing LabelGPSF_xlate KARMA_layout
           [SCAL_five_ones; R_GPSU 1000%Z;
            R_GPS5 [mkGPSData 1 2 3 4 5; mkGPSData 0 0 0 0 0; mkGPSData 5 4 3 2 1]%Z]
           true
           (set_stats (mkStats 0 2 2 1)
              (print SkipBadFix (print SkipEmpty (print SkipBadFix
                 (set_start_time (Some 1000%Z)
                    (set_GPSU (Some 1000%Z)
                       (set_SCAL (Vector (map PInt [1; 1; 1; 1; 1]%Z)) init)))))))
           eq_refl).
Defined.

(** X3: when the pass completes, the warning "Skipping empty point" was
    printed as many times as the [empty] counter says, and the warning
    "Skipping point due GPSFIX==0" as many times as [badfixskip] says. *)
Theorem X3_warnings_match_counters :
  forall (xlate : Z -> option string) (KARMAGPSData : layout)
         (data : list KLVData) (skip : bool) (st : state),
    loop xlate KARMAGPSData skip data init = Ok st ->
    printed is_SkipEmpty (stdout st) = empty (stats st)
    /\ printed is_SkipBadFix (stdout st) = badfixskip (stats st).
Proof.
  intros xlate K data skip st H.
  apply loop_accounting in H; destruct H as [_ [_ [H1 H2]]].
  cbn in H1, H2; split; lia.
Qed.

(** The theorem at the same run. *)
Lemma X3_witness :
  printed is_SkipEmpty [SkipBadFix; SkipEmpty; SkipBadFix] = 1
  /\ printed is_SkipBadFix [SkipBadFix; SkipEmpty; SkipBadFix] = 2.
Proof.
  exact (X3_warnings_match_counters LabelGPSF_xlate KARMA_layout
           [SCAL_five_ones; R_GPSU 1000%Z;
            R_GPS5 [mkGPSData 1 2 3 4 5; mkGPSData 0 0 0 0 0; mkGPSData 5 4 3 2 1]%Z]
           true
           (set_stats (mkStats 0 2 2 1)
              (print SkipBadFix (print SkipEmpty (print SkipBadFix
                 (set_start_time (Some 1000%Z)
                    (set_GPSU (Some 1000%Z)
                       (set_SCAL (Vector (map PInt [1; 1; 1; 1; 1]%Z)) init)))))))
           eq_refl).
Defined.

(** ** What a track needs *)

Lemma scale_fields_length (values : list Z) (s : scal) (l : list float) :
  scale_fields values s = Ok l ->
  exists ys, s = Vector ys
             /\ List.length l = Nat.min (List.length values) (List.length ys).
Proof.
  unfold scale_fields; destruct s as [n|ys]; cbn [scale_list bind]; [discriminate|].
  intros H; exists ys; split; [reflexivity|].
  destruct (mapM_truediv_length
              (fun xy : Z * pynum => float_of_int (fst xy))
              (fun xy : Z * pynum => to_float (snd xy))
              (combine values ys)) as [[l' [Hl Hn]]|Hr].
  - rewrite Hl in H; ok_inv H; rewrite Hn; apply length_combine.
  - rewrite Hr in H; discriminate.
Qed.

(** One sample: it appends at most one point, and one point only under an
    anchor and a scale of five. *)
Lemma gps5_item_track (skip : bool) (st st' : state) (n n' : nat)
    (item : GPSData Z) :
  gps5_item skip (st, n) item = Ok (st', n') ->
  SCAL st' = SCAL st /\ GPSU st' = GPSU st
  /\ exists more,
       points st' = points st ++ more
       /\ (more <> [] -> GPSU st <> None /\ pairs_five_fields (SCAL st) = true).
Proof.
  unfold gps5_item.
  destruct (note_badfix_frame st) as [FS [FU [FP _]]].
  destruct (all_zero _ _ _).
  { intros H; ok_inv H; cbn; repeat split.
    exists []; rewrite app_nil_r; split; [reflexivity|congruence]. }
  destruct ((GPSFIX st =? 0)%Z && skip).
  { intros H; ok_inv H; cbn; repeat split; auto.
    exists []; rewrite app_nil_r; split; [auto|congruence]. }
  rewrite FS, FU, FP.
  destruct (scale_fields _ _) as [l|e] eqn:El; cbn [bind]; [|discriminate].
  destruct (GPSData_make l) as [g|e] eqn:Eg; cbn [bind]; [|discriminate].
  destruct (GPSU st) as [T|]; cbn [add_seconds bind]; [|discriminate].
  intros H; ok_inv H; cbn; repeat split; auto.
  eexists; split; [reflexivity|]; intros _; split; [discriminate|].
  apply scale_fields_length in El; destruct El as [ys [-> Hlen]].
  cbn [pairs_five_fields]; apply Nat.leb_le.
  destruct l as [|a [|b [|c [|d [|x [|y l]]]]]]; cbn in Eg; try discriminate.
  unfold GPSData_values in Hlen; cbn [List.length] in Hlen; lia.
Qed.

Lemma gps5_fold_track (skip : bool) (items : list (GPSData Z)) :
  forall (st st' : state) (n n' : nat),
    foldM (gps5_item skip) items (st, n) = Ok (st', n') ->
    SCAL st' = SCAL st /\ GPSU st' = GPSU st
    /\ exists more,
         points st' = points st ++ more
         /\ (more <> [] -> GPSU st <> None /\ pairs_five_fields (SCAL st) = true).
Proof.
  induction items as [|item items IH]; intros st st' n n'; cbn [foldM].
  - intros H; ok_inv H; repeat split.
    exists []; rewrite app_nil_r; split; [reflexivity|congruence].
  - destruct (gps5_item skip (st, n) item) as [[st1 n1]|e] eqn:E; cbn [bind];
      [|discriminate].
    intros H; apply IH in H; apply gps5_item_track in E.
    destruct H as [HS [HU [more2 [Hp2 Hm2]]]], E as [ES [EU [more1 [Hp1 Hm1]]]].
    repeat split; try congruence.
    exists (more1 ++ more2); split; [rewrite Hp2, Hp1, app_assoc; reflexivity|].
    intros Hne; destruct more1 as [|p more1].
    + rewrite <- ES, <- EU; apply Hm2; exact Hne.
    + apply Hm1; discriminate.
Qed.

Section Track.

Variable xlate : Z -> option string.
Variable KARMAGPSData : layout.

(** One record: it only appends points, and appends some only when it is a
    GPS5 record met under an anchor and a scale of five. *)
Lemma step_track (skip : bool) (st st' : state) (d : KLVData) :
  step xlate KARMAGPSData skip st d = Ok st' ->
  SCAL st' = match d with R_SCAL v => v | _ => SCAL st end
  /\ GPSU st' = match d with R_GPSU t => Some t | _ => GPSU st end
  /\ exists more,
       points st' = points st ++ more
       /\ (more <> [] ->
           is_GPS5 d = true /\ GPSU st <> None
           /\ pairs_five_fields (SCAL st) = true).
Proof.
  assert (Hnone : forall s : state,
             exists more : list GPSPoint,
               points s = points s ++ more
               /\ (more <> [] ->
                   is_GPS5 d = true /\ GPSU st <> None
                   /\ pairs_five_fields (SCAL st) = true)).
  { intros s; exists []; rewrite app_nil_r; split; [reflexivity|congruence]. }
  destruct d as [v|name|t|code|count|items|sd|values|items|items|items|];
    cbn [step].
  - intros H; ok_inv H; cbn; auto.
  - intros H; ok_inv H; cbn; auto.
  - destruct (start_time _); intros H; ok_inv H; cbn; auto.
  - destruct (negb _); cbn [bind].
    + destruct (xlate_getitem xlate code); cbn [bind]; [|discriminate].
      intros H; ok_inv H; cbn; auto.
    + intros H; ok_inv H; cbn; auto.
  - destruct (TSMP st =? 0)%Z; intros H; ok_inv H; cbn; auto.
  - destruct (foldM (gps5_item skip) items (st, 0)) as [[st1 n1]|e] eqn:E;
      cbn [bind]; [|discriminate].
    intros H; ok_inv H; cbn [fst].
    apply gps5_fold_track in E; destruct E as [ES [EU [more [Hp Hm]]]].
    repeat split; auto.
    exists more; split; [exact Hp|]; intros Hne; split; [reflexivity|auto].
  - destruct (scale_fields _ _) as [l|e]; cbn [bind]; [|discriminate].
    destruct (getitem l 0) as [d0|e]; cbn [bind]; [|discriminate].
    destruct (nonzero d0); [|intros H; ok_inv H; auto].
    destruct (getitem l 1) as [d1|e]; cbn [bind]; [|discriminate].
    destruct (nonzero d1); [|intros H; ok_inv H; auto].
    destruct (SYSTData_make l) as [s|e]; cbn [bind]; [|discriminate].
    intros H; ok_inv H; cbn; auto.
  - destruct (note_badfix_frame st) as [FS [FU [FP _]]].
    destruct (all_zero _ _ _); [intros H; ok_inv H; cbn; auto|].
    destruct ((GPSFIX st =? 0)%Z && skip).
    { intros H; ok_inv H; cbn; repeat split; auto.
      exists []; rewrite app_nil_r; split; [auto|congruence]. }
    destruct (scale_fields _ _) as [l|e]; cbn [bind]; [|discriminate].
    destruct (make KARMAGPSData l) as [g|e]; cbn [bind]; [|discriminate].
    destruct (_ && _); [discriminate|].
    intros H; ok_inv H; repeat split; auto.
    exists []; rewrite app_nil_r; split; [auto|congruence].
  - intros H; ok_inv H; auto.
  - intros H; ok_inv H; auto.
  - intros H; ok_inv H; auto.
  - intros H; ok_inv H; auto.
Qed.

Lemma loop_track (skip : bool) (data : list KLVData) :
  forall st st' : state,
    loop xlate KARMAGPSData skip data st = Ok st' ->
    exists more,
      points st' = points st ++ more
      /\ (more <> [] ->
          existsb is_GPS5 data = true
          /\ (GPSU st <> None \/ existsb is_GPSU data = true)
          /\ (pairs_five_fields (SCAL st) = true
              \/ existsb is_SCAL_of_five data = true)).
Proof.
  unfold loop.
  induction data as [|d data IH]; intros st st'; cbn [foldM].
  - intros H; ok_inv H; exists []; rewrite app_nil_r; split; [reflexivity|congruence].
  - destruct (step xlate KARMAGPSData skip st d) as [st1|e] eqn:E; cbn [bind];
      [|discriminate].
    intros H; apply IH in H; apply step_track in E.
    destruct H as [more2 [Hp2 Hm2]], E as [ES [EU [more1 [Hp1 Hm1]]]].
    exists (more1 ++ more2); split; [rewrite Hp2, Hp1, app_assoc; reflexivity|].
    intros Hne; cbn [existsb]; destruct more1 as [|p more1].
    + destruct (Hm2 Hne) as [H5 [HU HS]]; rewrite H5, orb_true_r.
      split; [reflexivity|split].
      * destruct HU as [HU|HU]; [|rewrite HU, orb_true_r; auto].
        rewrite EU in HU; destruct d; auto.
      * destruct HS as [HS|HS]; [|rewrite HS, orb_true_r; auto].
        rewrite ES in HS; destruct d; auto.
        right; cbn [is_SCAL_of_five]; rewrite HS; reflexivity.
    + destruct Hm1 as [H5 [HU HS]]; [discriminate|].
      rewrite H5; auto.
Qed.

End Track.

Lemma first_GPSU_exists (data : list KLVData) :
  existsb is_GPSU data = true -> first_GPSU data <> None.
Proof.
  induction data as [|d data IH]; cbn [existsb]; [discriminate|].
  destruct d; cbn; auto; discriminate.
Qed.

(** X4: whenever [main_core] writes a track, the track has at least one
    point, its start time is the payload of the first GPSU record (never
    None), and the sequence holds a GPS5 record, a GPSU record and a SCAL
    record whose payload is a tuple of at least five components.  A
    sequence that lacks one of the three, such as one whose only position
    records are GPRI, never yields a track. *)
Theorem X4_what_a_track_needs :
  forall (xlate : Z -> option string) (KARMAGPSData : layout)
         (fourcc_type : option string) (skip : bool) (data : list KLVData)
         (pts : list GPSPoint) (start : option datetime) (name : string),
    main_core xlate KARMAGPSData fourcc_type skip data = WriteKMLGPX pts start name ->
    pts <> []
    /\ start = first_GPSU data /\ start <> None
    /\ existsb is_GPS5 data = true
    /\ existsb is_GPSU data = true
    /\ existsb is_SCAL_of_five data = true.
Proof.
  intros xlate K t skip data pts start name.
  destruct (gps_mode t) eqn:Hmode.
  2: { unfold main_core, gps_mode in *.
       destruct t as [s|]; [|discriminate].
       destruct (String.eqb s "GRAV");
         [destruct (GetGRAVData data); discriminate|].
       destruct (String.eqb s "CORI");
         [destruct (GetCORIData data); discriminate|].
       destruct (String.eqb s "ACCL");
         [destruct (GetACCLData data); discriminate|].
       discriminate. }
  rewrite (main_core_gps_mode xlate K t skip data Hmode).
  unfold BuildGPSPoints.
  destruct (loop xlate K skip data init) as [st|e] eqn:E; cbn [bind];
    [|discriminate].
  cbn [points start_time DVNM print].
  destruct (Nat.eqb (List.length (points st)) 0) eqn:Hlen; [discriminate|].
  intros H; ok_inv H.
  pose proof (loop_counts xlate K skip data init st E) as [_ [Hs _]].
  destruct (loop_track xlate K skip data init st E) as [more [Hp Hm]].
  cbn in Hs, Hp; rewrite Hp in Hlen.
  assert (Hne : more <> []) by (intros ->; discriminate).
  destruct (Hm Hne) as [H5 [HU HS]].
  destruct HU as [HU|HU]; [exfalso; apply HU; reflexivity|].
  destruct HS as [HS|HS]; [discriminate|].
  rewrite Hp, Hs; repeat split; auto.
  apply first_GPSU_exists; exact HU.
Qed.

(** The theorem at a run that writes a track of one point. *)
Lemma X4_witness :
  [mkPoint 10 20 30 (mkTime 1000%Z 0) 4] <> []
  /\ Some 1000%Z
     = first_GPSU [SCAL_five_tens; R_GPSU 1000%Z; R_GPSF 3; GPS5_100_200_300_40_50]
  /\ Some 1000%Z <> None
  /\ existsb is_GPS5
       [SCAL_five_tens; R_GPSU 1000%Z; R_GPSF 3; GPS5_100_200_300_40_50] = true
  /\ existsb is_GPSU
       [SCAL_five_tens; R_GPSU 1000%Z; R_GPSF 3; GPS5_100_200_300_40_50] = true
  /\ existsb is_SCAL_of_five
       [SCAL_five_tens; R_GPSU 1000%Z; R_GPSF 3; GPS5_100_200_300_40_50] = true.
Proof.
  exact (X4_what_a_track_needs LabelGPSF_xlate KARMA_layout None false
           [SCAL_five_tens; R_GPSU 1000%Z; R_GPSF 3; GPS5_100_200_300_40_50]
           [mkPoint 10 20 30 (mkTime 1000%Z 0) 4] (Some 1000%Z) "Unknown"
           eq_refl).
Defined.

(** ** Records a loop has no branch for *)

(** X6: the extractor of a channel reads SCAL records and the records of
    its own tag only: leaving every other record out of the sequence
    changes neither the rows nor the exception it ends with. *)
Theorem X6_extractor_reads_its_channel_only :
  forall (c : channel) (data : list KLVData),
    extractor c (filter (read_by_extractor c) data) = extractor c data.
Proof.
  intros c data; destruct c; cbn [extractor];
    unfold GetCORIData, GetGRAVData, GetACCLData;
    rewrite foldM_filter; try reflexivity;
    intros d [s all] Hd; destruct d; cbn in Hd |- *;
    solve [reflexivity | discriminate].
Qed.

(** X7: [BuildGPSPoints] has no branch for the CORI, GRAV and ACCL records
    and for unknown tags: leaving them out of the sequence changes nothing
    of what it returns, prints or raises. *)
Theorem X7_builder_passes_over_sensor_records :
  forall (xlate : Z -> option string) (KARMAGPSData : layout)
         (data : list KLVData) (skip : bool),
    BuildGPSPoints xlate KARMAGPSData (filter read_by_builder data) skip
    = BuildGPSPoints xlate KARMAGPSData data skip.
Proof.
  intros xlate K data skip; unfold BuildGPSPoints, loop.
  rewrite foldM_filter; [reflexivity|].
  intros d st Hd; destruct d; cbn in Hd |- *;
    solve [reflexivity | discriminate].
Qed.

(** ** Sequences put end to end *)

Lemma foldM_app_raises {S X : Type} (f : S -> X -> result S) (xs ys : list X)
    (s : S) (e : exn) :
  foldM f xs s = Raise e -> foldM f (xs ++ ys) s = Raise e.
Proof. intros H; rewrite foldM_app, H; reflexivity. Qed.

Lemma extractor_app_raises (c : channel) (a b : list KLVData) (e : exn) :
  extractor c a = Raise e -> extractor c (a ++ b) = Raise e.
Proof.
  destruct c; cbn [extractor]; unfold GetCORIData, GetGRAVData, GetACCLData;
    rewrite foldM_app;
    match goal with
    | |- context [foldM ?f a ?s] => destruct (foldM f a s); cbn [bind]
    end;
    solve [discriminate | intros H; exact H].
Qed.

Lemma BuildGPSPoints_app_raises (xlate : Z -> option string) (K : layout)
    (a b : list KLVData) (skip : bool) (e : exn) :
  BuildGPSPoints xlate K a skip = Raise e ->
  BuildGPSPoints xlate K (a ++ b) skip = Raise e.
Proof.
  unfold BuildGPSPoints, loop; rewrite foldM_app.
  destruct (foldM (step xlate K skip) a init); cbn [bind];
    solve [discriminate | intros H; exact H].
Qed.

Lemma first_GPSU_app (a b : list KLVData) :
  first_GPSU (a ++ b)
  = match first_GPSU a with
    | Some t => Some t
    | None => first_GPSU b
    end.
Proof.
  induction a as [|d a IH]; [reflexivity|].
  destruct d; cbn [app first_GPSU]; auto.
Qed.

Lemma append_rows_grows (s : scal) (items : list (list Z)) :
  forall all all' : rows,
    append_rows s items all = Ok all' -> exists more, all' = all ++ more.
Proof.
  unfold append_rows.
  induction items as [|item items IH]; intros all all'; cbn [foldM].
  - intros H; ok_inv H; exists []; rewrite app_nil_r; reflexivity.
  - destruct (scaled_data s item) as [r|e]; cbn [bind]; [|discriminate].
    intros H; apply IH in H; destruct H as [more ->].
    exists (r :: more); rewrite <- app_assoc; reflexivity.
Qed.

Lemma channel_step_grows (c : channel) (st st' : scal * rows) (d : KLVData) :
  channel_step c st d = Ok st' -> exists more, snd st' = snd st ++ more.
Proof.
  assert (Hsame : forall x : scal * rows, exists more, snd x = snd x ++ more).
  { intros x; exists []; rewrite app_nil_r; reflexivity. }
  destruct st as [s all];
    destruct c, d; cbn [channel_step cori_step grav_step accl_step];
    try (intros H; ok_inv H; cbn [snd]; solve [apply Hsame
                                              | exists []; rewrite app_nil_r; reflexivity]);
    (destruct (append_rows s items all) as [all1|e] eqn:E; cbn [bind];
     [|discriminate];
     intros H; ok_inv H; cbn [snd]; eapply append_rows_grows; exact E).
Qed.

Lemma channel_loop_grows (c : channel) (data : list KLVData) :
  forall st st' : scal * rows,
    foldM (channel_step c) data st = Ok st' -> exists more, snd st' = snd st ++ more.
Proof.
  induction data as [|d data IH]; intros st st'; cbn [foldM].
  - intros H; ok_inv H; exists []; rewrite app_nil_r; reflexivity.
  - destruct (channel_step c st d) as [st1|e] eqn:E; cbn [bind]; [|discriminate].
    intros H; apply IH in H; apply channel_step_grows in E.
    destruct H as [m2 ->], E as [m1 ->].
    exists (m1 ++ m2); rewrite app_assoc; reflexivity.
Qed.

Lemma extractor_as_loop (c : channel) (data : list KLVData) :
  extractor c data
  = bind (foldM (channel_step c) data (Scalar (PFloat 1), []))
         (fun st => Ok (snd st)).
Proof. destruct c; reflexivity. Qed.

(** X9: a sequence cut short at any record still goes through when the
    whole sequence does, and gives a beginning of the result:
    [BuildGPSPoints] returns a prefix of the points, with the same start
    time once a start time is known, and an extractor returns a prefix of
    the rows.  Later records never alter or remove what earlier records
    produced. *)
Theorem X9_later_records_only_append :
  forall (xlate : Z -> option string) (KARMAGPSData : layout)
         (skip : bool) (a b : list KLVData),
    (forall (pts : list GPSPoint) (start : option datetime) (name : string)
            (out : list event),
        BuildGPSPoints xlate KARMAGPSData (a ++ b) skip = Ok ((pts, start, name), out) ->
        exists pts_a start_a name_a out_a more,
          BuildGPSPoints xlate KARMAGPSData a skip
          = Ok ((pts_a, start_a, name_a), out_a)
          /\ pts = pts_a ++ more
          /\ (start_a = None \/ start = start_a))
    /\
    (forall (c : channel) (all : rows),
        extractor c (a ++ b) = Ok all ->
        exists all_a more, extractor c a = Ok all_a /\ all = all_a ++ more).
Proof.
  intros xlate K skip a b; split.
  - intros pts start name out.
    unfold BuildGPSPoints, loop; rewrite foldM_app.
    destruct (foldM (step xlate K skip) a init) as [st_a|e] eqn:Ea; cbn [bind];
      [|discriminate].
    destruct (foldM (step xlate K skip) b st_a) as [st|e] eqn:Eb; cbn [bind];
      [|discriminate].
    intros H; ok_inv H.
    destruct (loop_track xlate K skip b st_a st Eb) as [more [Hp _]].
    pose proof (loop_counts xlate K skip b st_a st Eb) as [_ [Hs _]].
    do 4 eexists; exists more; split; [reflexivity|].
    cbn; split; [exact Hp|].
    rewrite Hs; destruct (start_time st_a); auto.
  - intros c all; rewrite !extractor_as_loop, foldM_app.
    destruct (foldM (channel_step c) a (Scalar (PFloat 1), [])) as [st_a|e];
      cbn [bind]; [|discriminate].
    destruct (foldM (channel_step c) b st_a) as [st|e] eqn:Eb; cbn [bind];
      [|discriminate].
    intros H; ok_inv H.
    apply channel_loop_grows in Eb; destruct Eb as [more Hm].
    exists (snd st_a), more; split; [reflexivity|exact Hm].
Qed.

(** The theorem at a stream of two GPS5 records, cut after the first. *)
Lemma X9_witness :
  exists pts_a start_a name_a out_a more,
    BuildGPSPoints LabelGPSF_xlate KARMA_layout
      [SCAL_five_tens; R_GPSU 1000%Z; R_GPSF 3; GPS5_100_200_300_40_50] false
    = Ok ((pts_a, start_a, name_a), out_a)
    /\ [mkPoint 10 20 30 (mkTime 1000%Z 0) 4;
        mkPoint 10 20 30 (mkTime 2000%Z 0) 4]
       = pts_a ++ more
    /\ (start_a = None \/ Some 1000%Z = start_a).
Proof.
  exact (proj1 (X9_later_records_only_append LabelGPSF_xlate KARMA_layout false
                  [SCAL_five_tens; R_GPSU 1000%Z; R_GPSF 3; GPS5_100_200_300_40_50]
                  [R_GPSU 2000%Z; GPS5_100_200_300_40_50])
           [mkPoint 10 20 30 (mkTime 1000%Z 0) 4;
            mkPoint 10 20 30 (mkTime 2000%Z 0) 4]
           (Some 1000%Z) "Unknown"%string
           [FixChange 3 "3D Lock"; StatsBlock "Unknown" 2 0 0 0 2]
           eq_refl).
Defined.

(** X10: the records of several input files are put end to end in input
    order before the pass.  For two files whose track is written, the
    start time is the first GPSU of the first file, and that of the second
    file only when the first file has none; the device name is the last
    DVNM of the second file, and that of the first file (or "Unknown")
    only when the second has none.  Swapping the files swaps these
    roles. *)
Theorem X10_two_files_start_and_device :
  forall (xlate : Z -> option string) (KARMAGPSData : layout)
         (fourcc_type : option string) (skip : bool) (a b : list KLVData)
         (pts : list GPSPoint) (start : option datetime) (name : string),
    main_core xlate KARMAGPSData fourcc_type skip (a ++ b)
    = WriteKMLGPX pts start name ->
    start = match first_GPSU a with
            | Some t => Some t
            | None => first_GPSU b
            end
    /\ name = last_DVNM b (last_DVNM a "Unknown").
Proof.
  intros xlate K t skip a b pts start name.
  destruct (gps_mode t) eqn:Hmode.
  2: { unfold main_core, gps_mode in *.
       destruct t as [s|]; [|discriminate].
       destruct (String.eqb s "GRAV");
         [destruct (GetGRAVData (a ++ b)); discriminate|].
       destruct (String.eqb s "CORI");
         [destruct (GetCORIData (a ++ b)); discriminate|].
       destruct (String.eqb s "ACCL");
         [destruct (GetACCLData (a ++ b)); discriminate|].
       discriminate. }
  rewrite (main_core_gps_mode xlate K t skip (a ++ b) Hmode).
  unfold BuildGPSPoints.
  destruct (loop xlate K skip (a ++ b) init) as [st|e] eqn:E; cbn [bind];
    [|discriminate].
  cbn [points start_time DVNM print].
  destruct (Nat.eqb _ _); [discriminate|].
  intros H; ok_inv H.
  pose proof (loop_counts xlate K skip (a ++ b) init st E) as [_ [Hs Hd]].
  cbn in Hs, Hd; rewrite Hs, Hd, first_GPSU_app.
  unfold last_DVNM; rewrite fold_left_app; split; reflexivity.
Qed.

(** The theorem at two files, the second of which names the device. *)
Lemma X10_witness :
  Some 1000%Z
  = match first_GPSU [SCAL_five_tens; R_GPSU 1000%Z; GPS5_100_200_300_40_50] with
    | Some t => Some t
    | None => first_GPSU [R_DVNM "Hero"; R_GPSU 2000%Z]
    end
  /\ "Hero"%string
     = last_DVNM [R_DVNM "Hero"; R_GPSU 2000%Z]
         (last_DVNM [SCAL_five_tens; R_GPSU 1000%Z; GPS5_100_200_300_40_50]
            "Unknown").
Proof.
  exact (X10_two_files_start_and_device LabelGPSF_xlate KARMA_layout None false
           [SCAL_five_tens; R_GPSU 1000%Z; GPS5_100_200_300_40_50]
           [R_DVNM "Hero"; R_GPSU 2000%Z]
           [mkPoint 10 20 30 (mkTime 1000%Z 0) 4] (Some 1000%Z) "Hero"
           eq_refl).
Defined.

(** ** The fix code without the skip policy *)

Ltac same_track_intro :=
  match goal with
  | |- same_track ?a ?b -> _ =>
      destruct a, b; unfold same_track; cbn;
      intros [? [? [? [? [? ?]]]]]; subst
  end.

(** Without the skip policy a sample fares the same whatever the fix code,
    the counters and the output are. *)
Lemma gps5_item_same_track (st1 st2 st1' : state) (n n' : nat)
    (item : GPSData Z) :
  same_track st1 st2 ->
  gps5_item false (st1, n) item = Ok (st1', n') ->
  exists st2',
    gps5_item false (st2, n) item = Ok (st2', n') /\ same_track st1' st2'.
Proof.
  same_track_intro.
  unfold gps5_item, note_badfix; cbn.
  destruct (all_zero _ _ _).
  { intros H; ok_inv H; eexists; split; [reflexivity|].
    unfold same_track; cbn; auto 10. }
  rewrite !andb_false_r.
  match goal with
  | |- context [(?f1 =? 0)%Z] =>
      destruct (f1 =? 0)%Z;
      match goal with
      | |- context [(?f2 =? 0)%Z] => destruct (f2 =? 0)%Z
      end
  end; cbn;
    (destruct (scale_fields _ _) as [l|e]; cbn [bind]; [|discriminate];
     destruct (GPSData_make l) as [g|e]; cbn [bind]; [|discriminate];
     destruct (add_seconds _ _) as [t|e]; cbn [bind]; [|discriminate];
     intros H; ok_inv H; eexists; split; [reflexivity|];
     unfold same_track; cbn; auto 10).
Qed.

Lemma gps5_fold_same_track (items : list (GPSData Z)) :
  forall (st1 st2 st1' : state) (n n' : nat),
    same_track st1 st2 ->
    foldM (gps5_item false) items (st1, n) = Ok (st1', n') ->
    exists st2',
      foldM (gps5_item false) items (st2, n) = Ok (st2', n')
      /\ same_track st1' st2'.
Proof.
  induction items as [|item items IH]; intros st1 st2 st1' n n' Hsame;
    cbn [foldM].
  - intros H; ok_inv H; exists st2; split; [reflexivity|exact Hsame].
  - destruct (gps5_item false (st1, n) item) as [[s1 n1]|e] eqn:E; cbn [bind];
      [|discriminate].
    destruct (gps5_item_same_track st1 st2 s1 n n1 item Hsame E)
      as [s2 [E2 Hs]].
    rewrite E2; cbn [bind]; apply IH; exact Hs.
Qed.

Section FixCode.

Variable xlate : Z -> option string.
Variable KARMAGPSData : layout.

Lemma step_same_track (st1 st2 st1' : state) (d : KLVData) :
  is_GPSF d = false ->
  same_track st1 st2 ->
  step xlate KARMAGPSData false st1 d = Ok st1' ->
  exists st2',
    step xlate KARMAGPSData false st2 d = Ok st2' /\ same_track st1' st2'.
Proof.
  intros Hd.
  destruct d as [v|name|t|code|count|items|sd|values|items|items|items|];
    try discriminate; clear Hd;
    try (same_track_intro; cbn; intros H; ok_inv H;
         eexists; split; [reflexivity|]; unfold same_track; cbn; auto 10; fail).
  - same_track_intro; cbn.
    match goal with
    | |- context [match ?s with Some _ => _ | None => _ end] => destruct s
    end; intros H; ok_inv H;
      eexists; (split; [reflexivity|]); unfold same_track; cbn; auto 10.
  - same_track_intro; cbn.
    match goal with
    | |- context [(?t1 =? 0)%Z] =>
        destruct (t1 =? 0)%Z;
        match goal with
        | |- context [(?t2 =? 0)%Z] => destruct (t2 =? 0)%Z
        end
    end; intros H; ok_inv H;
      eexists; (split; [reflexivity|]); unfold same_track; cbn; auto 10.
  - intros Hsame; cbn [step].
    destruct (foldM (gps5_item false) items (st1, 0)) as [[s1 n1]|e] eqn:E;
      cbn [bind]; [|discriminate].
    intros H; ok_inv H.
    destruct (gps5_fold_same_track items st1 st2 _ 0 n1 Hsame E) as [s2 [E2 Hs]].
    rewrite E2; cbn [bind fst]; exists s2; split; [reflexivity|exact Hs].
  - same_track_intro; cbn.
    destruct (scale_fields _ _) as [l|e]; cbn [bind]; [|discriminate].
    destruct (getitem l 0) as [d0|e]; cbn [bind]; [|discriminate].
    destruct (nonzero d0);
      [|intros H; ok_inv H; eexists; split; [reflexivity|];
        unfold same_track; cbn; auto 10].
    destruct (getitem l 1) as [d1|e]; cbn [bind]; [|discriminate].
    destruct (nonzero d1);
      [|intros H; ok_inv H; eexists; split; [reflexivity|];
        unfold same_track; cbn; auto 10].
    destruct (SYSTData_make l) as [s|e]; cbn [bind]; [|discriminate].
    intros H; ok_inv H; eexists; split; [reflexivity|].
    unfold same_track; cbn; auto 10.
  - same_track_intro; unfold step, note_badfix; cbn.
    destruct (all_zero _ _ _).
    { intros H; ok_inv H; eexists; split; [reflexivity|].
      unfold same_track; cbn; auto 10. }
    rewrite !andb_false_r.
    match goal with
    | |- context [(?f1 =? 0)%Z] =>
        destruct (f1 =? 0)%Z;
        match goal with
        | |- context [(?f2 =? 0)%Z] => destruct (f2 =? 0)%Z
        end
    end; cbn;
      (destruct (scale_fields _ _) as [l|e]; cbn [bind]; [|discriminate];
       destruct (make KARMAGPSData l) as [g|e]; cbn [bind]; [|discriminate];
       destruct (_ && _); [discriminate|];
       intros H; ok_inv H; eexists; split; [reflexivity|];
       unfold same_track; cbn; auto 10).
Qed.

(** A GPSF record changes the fix code and the output only. *)
Lemma step_GPSF_same_track (skip : bool) (st st' : state) (code : Z) :
  step xlate KARMAGPSData skip st (R_GPSF code) = Ok st' -> same_track st' st.
Proof.
  cbn [step].
  destruct (negb _); cbn [bind].
  - destruct (xlate_getitem xlate code); cbn [bind]; [|discriminate].
    intros H; ok_inv H; unfold same_track; cbn; auto 10.
  - intros H; ok_inv H; unfold same_track; cbn; auto 10.
Qed.

Lemma same_track_trans (a b c : state) :
  same_track a b -> same_track b c -> same_track a c.
Proof.
  unfold same_track; intros [? [? [? [? [? ?]]]]] [? [? [? [? [? ?]]]]].
  repeat split; congruence.
Qed.

Lemma loop_without_GPSF (data : list KLVData) :
  forall st1 st2 st1' : state,
    same_track st1 st2 ->
    loop xlate KARMAGPSData false data st1 = Ok st1' ->
    exists st2',
      loop xlate KARMAGPSData false
           (filter (fun d => negb (is_GPSF d)) data) st2 = Ok st2'
      /\ same_track st1' st2'.
Proof.
  unfold loop.
  induction data as [|d data IH]; intros st1 st2 st1' Hsame; cbn [foldM filter].
  - intros H; ok_inv H; exists st2; split; [reflexivity|exact Hsame].
  - destruct (step xlate KARMAGPSData false st1 d) as [s1|e] eqn:E; cbn [bind];
      [|discriminate].
    destruct (is_GPSF d) eqn:Hd; cbn [negb].
    + destruct d; try discriminate.
      apply step_GPSF_same_track in E.
      apply IH; eapply same_track_trans; eassumption.
    + destruct (step_same_track st1 st2 s1 d Hd Hsame E) as [s2 [E2 Hs]].
      cbn [foldM]; rewrite E2; cbn [bind]; apply IH; exact Hs.
Qed.

End FixCode.

(** X11: without the skip policy the fix quality has no part in the track:
    when [BuildGPSPoints] completes on a sequence, it completes on the
    sequence without its GPSF records and returns the same points, start
    time and device name; only the counters and notices it prints may
    differ. *)
Theorem X11_fix_code_leaves_the_track_alone :
  forall (xlate : Z -> option string) (KARMAGPSData : layout)
         (data : list KLVData) (pts : list GPSPoint) (start : option datetime)
         (name : string) (out : list event),
    BuildGPSPoints xlate KARMAGPSData data false = Ok ((pts, start, name), out) ->
    exists out',
      BuildGPSPoints xlate KARMAGPSData
        (filter (fun d => negb (is_GPSF d)) data) false
      = Ok ((pts, start, name), out').
Proof.
  intros xlate K data pts start name out.
  unfold BuildGPSPoints.
  destruct (loop xlate K false data init) as [st|e] eqn:E; cbn [bind];
    [|discriminate].
  intros H; ok_inv H.
  assert (Hinit : same_track init init) by (unfold same_track; auto 10).
  destruct (loop_without_GPSF xlate K data init init st Hinit E)
    as [st2 [E2 [Hp [Hs [_ [_ [_ Hd]]]]]]].
  rewrite E2; cbn [bind]; eexists.
  cbn [points start_time DVNM print]; rewrite Hp, Hs, Hd; reflexivity.
Qed.

(** The theorem at a stream whose fix code goes from 0 to 3. *)
Lemma X11_witness :
  exists out',
    BuildGPSPoints LabelGPSF_xlate KARMA_layout
      (filter (fun d => negb (is_GPSF d))
         [SCAL_five_tens; R_GPSU 1000%Z; GPS5_100_200_300_40_50; R_GPSF 3;
          GPS5_100_200_300_40_50]) false
    = Ok (([mkPoint 10 20 30 (mkTime 1000%Z 0) 4;
            mkPoint 10 20 30 (mkTime 1000%Z 0) 4],
           Some 1000%Z, "Unknown"%string), out').
Proof.
  exact (X11_fix_code_leaves_the_track_alone LabelGPSF_xlate KARMA_layout
           [SCAL_five_tens; R_GPSU 1000%Z; GPS5_100_200_300_40_50; R_GPSF 3;
            GPS5_100_200_300_40_50]
           [mkPoint 10 20 30 (mkTime 1000%Z 0) 4;
            mkPoint 10 20 30 (mkTime 1000%Z 0) 4]
           (Some 1000%Z) "Unknown"%string
           [FixChange 3 "3D Lock"; StatsBlock "Unknown" 2 1 0 0 3]
           eq_refl).
Defined.

(** ** How an extractor fails *)

Lemma scaled_data_raises (s : scal) (item : list Z) (e : exn) :
  scaled_data s item = Raise e ->
  divides s = false /\ (e = ZeroDivisionError \/ e = TypeError NotANumber).
Proof.
  destruct (divides s) eqn:Hs.
  - rewrite scaled_data_divides by assumption; discriminate.
  - intros H; split; [reflexivity|].
    unfold scaled_data in H.
    induction item as [|x item IH]; cbn [mapM] in H; [discriminate|].
    destruct s as [n|ys]; cbn [float_of_scal bind] in H.
    + destruct (truediv (float_of_int x) (to_float n)) as [q|e0] eqn:Eq;
        cbn [bind] in H.
      * destruct (mapM _ item) as [l|e1]; cbn [bind] in H; [discriminate|].
        apply IH; rewrite <- H; reflexivity.
      * ok_inv H; left; eapply truediv_raises; eassumption.
    + ok_inv H; right; reflexivity.
Qed.

Lemma append_rows_raises (s : scal) (items : list (list Z)) (e : exn) :
  forall all : rows,
    append_rows s items all = Raise e ->
    divides s = false /\ (e = ZeroDivisionError \/ e = TypeError NotANumber).
Proof.
  unfold append_rows.
  induction items as [|item items IH]; intros all; cbn [foldM]; [discriminate|].
  destruct (scaled_data s item) as [r|e0] eqn:E; cbn [bind].
  - apply IH.
  - intros H; ok_inv H; eapply scaled_data_raises; eassumption.
Qed.

Lemma channel_loop_raises (c : channel) (data : list KLVData) (e : exn) :
  forall st : scal * rows,
    foldM (channel_step c) data st = Raise e ->
    e = ZeroDivisionError \/ e = TypeError NotANumber.
Proof.
  induction data as [|d data IH]; intros st; cbn [foldM]; [discriminate|].
  destruct (channel_step c st d) as [st1|e0] eqn:E; cbn [bind]; [apply IH|].
  intros H; ok_inv H.
  destruct st as [s all];
    destruct c, d; cbn [channel_step cori_step grav_step accl_step] in E;
    try discriminate;
    (destruct (append_rows s items all) as [all1|e1] eqn:Ea; cbn [bind] in E;
     [discriminate|]; ok_inv E;
     eapply append_rows_raises; eassumption).
Qed.

(** X12: an extractor fails in two ways only: with [ZeroDivisionError],
    dividing by a SCAL number that is zero, or with the [TypeError] of
    [float(SCAL)] on a SCAL payload that is a tuple.  When it fails, some
    record of the channel that holds tuples comes after a SCAL value that
    cannot divide. *)
Theorem X12_how_an_extractor_fails :
  forall (c : channel) (data : list KLVData) (e : exn),
    extractor c data = Raise e ->
    (e = ZeroDivisionError \/ e = TypeError NotANumber)
    /\ divisors_fit c [] data = false.
Proof.
  intros c data e H; split.
  - rewrite extractor_as_loop in H.
    destruct (foldM (channel_step c) data (Scalar (PFloat 1), [])) as [st|e0] eqn:E;
      cbn [bind] in H; [discriminate|].
    ok_inv H; eapply channel_loop_raises; eassumption.
  - destruct (divisors_fit c [] data) eqn:Hfit; [|reflexivity].
    rewrite extractor_as_loop in H.
    assert (Hloop : foldM (channel_step c) data (Scalar (PFloat 1), [])
                    = Ok (most_recent_SCAL data, rows_as_specified c [] data))
      by exact (channel_loop c data [] [] Hfit).
    rewrite Hloop in H; discriminate.
Qed.

(** The theorem at an ACCL record met after the SCAL tuple of GPS5. *)
Lemma X12_witness :
  (TypeError NotANumber = ZeroDivisionError
   \/ TypeError NotANumber = TypeError NotANumber)
  /\ divisors_fit ACCL []
       [R_SCAL (Vector (map PInt [10; 10; 10; 10; 10]%Z)); R_ACCL [[1; 2; 3]]%Z]
     = false.
Proof.
  exact (X12_how_an_extractor_fails ACCL
           [R_SCAL (Vector (map PInt [10; 10; 10; 10; 10]%Z)); R_ACCL [[1; 2; 3]]%Z]
           (TypeError NotANumber) eq_refl).
Defined.

(** ** GPS5 samples before the first SCAL record *)

Lemma gps5_fold_default_scale (skip : bool) (items : list (GPSData Z)) :
  forall (st : state) (n : nat),
    SCAL st = XYZData 1 1 1 ->
    existsb (passes_filters skip (GPSFIX st)) items = true ->
    foldM (gps5_item skip) items (st, n) = Raise (TypeError (WrongArity 5 3)).
Proof.
  induction items as [|item items IH]; intros st n HS; cbn [existsb foldM];
    [discriminate|].
  destruct (passes_filters skip (GPSFIX st) item) eqn:Hacc; cbn [orb].
  - intros _.
    unfold passes_filters in Hacc; apply andb_true_iff in Hacc as [Hne Hfix].
    apply negb_true_iff in Hne, Hfix.
    destruct (note_badfix_frame st) as [FS _].
    unfold gps5_item; rewrite Hne, Hfix, FS, HS.
    unfold XYZData, scale_fields; cbn [scale_list bind GPSData_values combine mapM fst snd].
    rewrite !truediv_nonzero by reflexivity; reflexivity.
  - intros Hex.
    destruct (gps5_item_rejects skip st n item Hacc)
      as [s1 [E1 [_ [HS1 [_ HF1]]]]].
    rewrite E1; cbn [bind]; apply IH; [congruence|rewrite HF1; exact Hex].
Qed.

(** X13: the scale [BuildGPSPoints] starts with has three components.  A
    GPS5 record that holds a sample passing the filters and is met before
    any SCAL record ends the run with the [TypeError] of [GPSData._make]
    (5 values expected, 3 given), whatever comes after it. *)
Theorem X13_GPS5_before_SCAL_aborts :
  forall (xlate : Z -> option string) (KARMAGPSData : layout) (skip : bool)
         (pre post : list KLVData) (items : list (GPSData Z)) (st : state),
    existsb is_SCAL pre = false ->
    loop xlate KARMAGPSData skip pre init = Ok st ->
    existsb (passes_filters skip (GPSFIX st)) items = true ->
    BuildGPSPoints xlate KARMAGPSData (pre ++ R_GPS5 items :: post) skip
    = Raise (TypeError (WrongArity 5 3)).
Proof.
  intros xlate K skip pre post items st Hno Hpre Hex.
  assert (HS : SCAL st = XYZData 1 1 1).
  { change (XYZData 1 1 1) with (SCAL init).
    revert Hpre Hno; unfold loop; generalize init as s0.
    induction pre as [|d pre IH]; intros s0; cbn [foldM existsb].
    - intros H _; ok_inv H; reflexivity.
    - destruct (step xlate K skip s0 d) as [s1|e] eqn:E; cbn [bind];
        [|discriminate].
      intros H Hd; apply orb_false_iff in Hd as [Hd Hrest].
      rewrite (IH s1 H Hrest).
      apply step_track in E; destruct E as [ES _]; rewrite ES.
      destruct d; solve [reflexivity | discriminate]. }
  unfold BuildGPSPoints, loop in *; rewrite foldM_app, Hpre; cbn [bind foldM step].
  rewrite (gps5_fold_default_scale skip items st 0 HS Hex); reflexivity.
Qed.

(** The theorem at a stream that opens with an anchor, a 3D fix and a GPS5
    record. *)
Lemma X13_witness :
  BuildGPSPoints LabelGPSF_xlate KARMA_layout
    ([R_GPSU 1000%Z; R_GPSF 3]
     ++ GPS5_100_200_300_40_50 :: [SCAL_five_tens; GPS5_100_200_300_40_50])
    false
  = Raise (TypeError (WrongArity 5 3)).
Proof.
  exact (X13_GPS5_before_SCAL_aborts LabelGPSF_xlate KARMA_layout false
           [R_GPSU 1000%Z; R_GPSF 3] [SCAL_five_tens; GPS5_100_200_300_40_50]
           [mkGPSData 100 200 300 40 50]%Z
           (print (FixChange 3 "3D Lock")
              (set_GPSFIX 3 (set_start_time (Some 1000%Z)
                 (set_GPSU (Some 1000%Z) init))))
           eq_refl eq_refl eq_refl).
Defined.

(** ** Points and samples *)

Lemma gps5_item_ok_bound (skip : bool) (st st' : state) (n n' : nat)
    (item : GPSData Z) :
  gps5_item skip (st, n) item = Ok (st', n') ->
  ok (stats st') <= S (ok (stats st)).
Proof.
  unfold gps5_item, note_badfix.
  destruct (all_zero _ _ _); [intros H; ok_inv H; cbn; lia|].
  destruct (GPSFIX st =? 0)%Z, skip; cbn [andb];
    try (intros H; ok_inv H; cbn; lia);
    (destruct (scale_fields _ _) as [l|e]; cbn [bind]; [|discriminate];
     destruct (GPSData_make l) as [g|e]; cbn [bind]; [|discriminate];
     destruct (add_seconds _ _) as [t|e]; cbn [bind]; [|discriminate];
     intros H; ok_inv H; cbn; lia).
Qed.

Lemma gps5_fold_ok_bound (skip : bool) (items : list (GPSData Z)) :
  forall (st st' : state) (n n' : nat),
    foldM (gps5_item skip) items (st, n) = Ok (st', n') ->
    ok (stats st') <= ok (stats st) + List.length items.
Proof.
  induction items as [|item items IH]; intros st st' n n'; cbn [foldM].
  - intros H; ok_inv H; cbn; lia.
  - destruct (gps5_item skip (st, n) item) as [[st1 n1]|e] eqn:E; cbn [bind];
      [|discriminate].
    intros H; apply IH in H; apply gps5_item_ok_bound in E.
    cbn [List.length]; lia.
Qed.

Section PointsAndSamples.

Variable xlate : Z -> option string.
Variable KARMAGPSData : layout.

Lemma step_ok_bound (skip : bool) (st st' : state) (d : KLVData) :
  step xlate KARMAGPSData skip st d = Ok st' ->
  ok (stats st') <= ok (stats st) + List.length (GPS5_samples [d]).
Proof.
  destruct d as [v|name|t|code|count|items|sd|values|items|items|items|];
    cbn [step GPS5_samples flat_map List.length app].
  - intros H; ok_inv H; cbn; lia.
  - intros H; ok_inv H; cbn; lia.
  - destruct (start_time _); intros H; ok_inv H; cbn; lia.
  - destruct (negb _); cbn [bind].
    + destruct (xlate_getitem xlate code); cbn [bind]; [|discriminate].
      intros H; ok_inv H; cbn; lia.
    + intros H; ok_inv H; cbn; lia.
  - destruct (TSMP st =? 0)%Z; intros H; ok_inv H; cbn; lia.
  - destruct (foldM (gps5_item skip) items (st, 0)) as [[st1 n1]|e] eqn:E;
      cbn [bind]; [|discriminate].
    intros H; ok_inv H; cbn [fst].
    apply gps5_fold_ok_bound in E; rewrite app_nil_r; exact E.
  - destruct (scale_fields _ _) as [l|e]; cbn [bind]; [|discriminate].
    destruct (getitem l 0) as [d0|e]; cbn [bind]; [|discriminate].
    destruct (nonzero d0); [|intros H; ok_inv H; lia].
    destruct (getitem l 1) as [d1|e]; cbn [bind]; [|discriminate].
    destruct (nonzero d1); [|intros H; ok_inv H; lia].
    destruct (SYSTData_make l) as [s|e]; cbn [bind]; [|discriminate].
    intros H; ok_inv H; cbn; lia.
  - unfold note_badfix.
    destruct (all_zero _ _ _); [intros H; ok_inv H; cbn; lia|].
    destruct (GPSFIX st =? 0)%Z, skip; cbn [andb];
      try (intros H; ok_inv H; cbn; lia);
      (destruct (scale_fields _ _) as [l|e]; cbn [bind]; [|discriminate];
       destruct (make KARMAGPSData l) as [g|e]; cbn [bind]; [|discriminate];
       destruct (_ && _); [discriminate|];
       intros H; ok_inv H; cbn; lia).
  - intros H; ok_inv H; lia.
  - intros H; ok_inv H; lia.
  - intros H; ok_inv H; lia.
  - intros H; ok_inv H; lia.
Qed.

Lemma loop_ok_bound (skip : bool) (data : list KLVData) :
  forall st st' : state,
    loop xlate KARMAGPSData skip data st = Ok st' ->
    ok (stats st') <= ok (stats st) + List.length (GPS5_samples data).
Proof.
  unfold loop.
  induction data as [|d data IH]; intros st st'; cbn [foldM].
  - intros H; ok_inv H; cbn; lia.
  - destruct (step xlate KARMAGPSData skip st d) as [st1|e] eqn:E; cbn [bind];
      [|discriminate].
    intros H; apply IH in H; apply step_ok_bound in E.
    assert (Hs : List.length (GPS5_samples (d :: data))
                 = List.length (GPS5_samples [d]) + List.length (GPS5_samples data)).
    { unfold GPS5_samples; cbn [flat_map]; rewrite app_nil_r, length_app; reflexivity. }
    lia.
Qed.

End PointsAndSamples.

(** X14: [BuildGPSPoints] returns at most one point per GPS5 sample of the
    sequence: a sample is never emitted twice, and neither a GPRI record
    nor any other record adds a point. *)
Theorem X14_at_most_one_point_per_sample :
  forall (xlate : Z -> option string) (KARMAGPSData : layout)
         (data : list KLVData) (skip : bool) (pts : list GPSPoint)
         (start : option datetime) (name : string) (out : list event),
    BuildGPSPoints xlate KARMAGPSData data skip = Ok ((pts, start, name), out) ->
    List.length pts <= List.length (GPS5_samples data).
Proof.
  intros xlate K data skip pts start name out.
  unfold BuildGPSPoints.
  destruct (loop xlate K skip data init) as [st|e] eqn:E; cbn [bind];
    [|discriminate].
  intros H; ok_inv H.
  pose proof (loop_counts xlate K skip data init st E) as [Hc _].
  pose proof (loop_ok_bound xlate K skip data init st E) as Hb.
  unfold counts_points in Hc; cbn in Hc, Hb |- *; lia.
Qed.

(** The theorem at a run of three samples, one of them all zero, and a
    GPRI record. *)
Lemma X14_witness :
  2 <= List.length
         (GPS5_samples
            [SCAL_five_ones; R_GPSU 1000%Z;
             R_GPS5 [mkGPSData 1 2 3 4 5; mkGPSData 0 0 0 0 0; mkGPSData 5 4 3 2 1]%Z;
             R_GPRI [0; 0; 0; 0; 0; 0; 0; 0]%Z]).
Proof.
  exact (X14_at_most_one_point_per_sample LabelGPSF_xlate KARMA_layout
           [SCAL_five_ones; R_GPSU 1000%Z;
            R_GPS5 [mkGPSData 1 2 3 4 5; mkGPSData 0 0 0 0 0; mkGPSData 5 4 3 2 1]%Z;
            R_GPRI [0; 0; 0; 0; 0; 0; 0; 0]%Z]
           false
           [mkPoint 1 2 3 (mkTime 1000%Z 0) 4;
            mkPoint 5 4 3 (mkTime 1000%Z (1 / 18)) 2]%float
           (Some 1000%Z) "Unknown"%string
           [SkipEmpty; SkipEmpty; StatsBlock "Unknown" 2 2 0 2 6]
           eq_refl).
Defined.

(** ** The device name *)

Lemma gps5_item_DVNM (skip : bool) (z : string) (st : state) (n : nat)
    (item : GPSData Z) :
  gps5_item skip (set_DVNM z st, n) item
  = bind (gps5_item skip (st, n) item)
         (fun acc => Ok (set_DVNM z (fst acc), snd acc)).
Proof.
  unfold gps5_item, note_badfix; destruct st; cbn.
  destruct (all_zero _ _ _); [reflexivity|].
  match goal with
  | |- context [(?f =? 0)%Z] => destruct (f =? 0)%Z
  end; destruct skip; cbn; try reflexivity;
    (destruct (scale_fields _ _) as [l|e]; cbn; [|reflexivity];
     destruct (GPSData_make l) as [g|e]; cbn; [|reflexivity];
     destruct (add_seconds _ _) as [t|e]; cbn; reflexivity).
Qed.

Lemma gps5_fold_DVNM (skip : bool) (z : string) (items : list (GPSData Z)) :
  forall (st : state) (n : nat),
    foldM (gps5_item skip) items (set_DVNM z st, n)
    = bind (foldM (gps5_item skip) items (st, n))
           (fun acc => Ok (set_DVNM z (fst acc), snd acc)).
Proof.
  induction items as [|item items IH]; intros st n; cbn [foldM].
  - reflexivity.
  - rewrite gps5_item_DVNM.
    destruct (gps5_item skip (st, n) item) as [[st1 n1]|e]; cbn [bind fst snd].
    + apply IH.
    + reflexivity.
Qed.

Section DeviceName.

Variable xlate : Z -> option string.
Variable KARMAGPSData : layout.

(** Every record but DVNM does the same whatever the device name is. *)
Lemma step_DVNM (skip : bool) (z : string) (st : state) (d : KLVData) :
  (forall s, d <> R_DVNM s) ->
  step xlate KARMAGPSData skip (set_DVNM z st) d
  = bind (step xlate KARMAGPSData skip st d) (fun st' => Ok (set_DVNM z st')).
Proof.
  intros Hd;
    destruct d as [v|name|t|code|count|items|sd|values|items|items|items|];
    try (destruct st; reflexivity).
  - exfalso; apply (Hd name); reflexivity.
  - destruct st; cbn.
    match goal with
    | |- context [match ?x with _ => _ end] => destruct x; reflexivity
    end.
  - destruct st; cbn.
    destruct (negb _); cbn; [|reflexivity].
    unfold xlate_getitem; destruct (xlate code); reflexivity.
  - destruct st; cbn.
    match goal with
    | |- context [(?t0 =? 0)%Z] => destruct (t0 =? 0)%Z; reflexivity
    end.
  - cbn [step]; rewrite gps5_fold_DVNM.
    destruct (foldM (gps5_item skip) items (st, 0)) as [[st1 n1]|e]; reflexivity.
  - destruct st; cbn.
    destruct (scale_fields _ _) as [l|e]; cbn; [|reflexivity].
    destruct (getitem l 0) as [d0|e]; cbn; [|reflexivity].
    destruct (nonzero d0); [|reflexivity].
    destruct (getitem l 1) as [d1|e]; cbn; [|reflexivity].
    destruct (nonzero d1); [|reflexivity].
    destruct (SYSTData_make l) as [s|e]; reflexivity.
  - unfold step, note_badfix; destruct st; cbn.
    destruct (all_zero _ _ _); [reflexivity|].
    match goal with
    | |- context [(?f =? 0)%Z] => destruct (f =? 0)%Z
    end; destruct skip; cbn; try reflexivity;
      (destruct (scale_fields _ _) as [l|e]; cbn; [|reflexivity];
       destruct (make KARMAGPSData l) as [g|e]; cbn; [|reflexivity];
       destruct (_ && _); reflexivity).
Qed.

Lemma loop_without_DVNM (skip : bool) (data : list KLVData) :
  forall st1 st2 : state,
    set_DVNM "" st1 = set_DVNM "" st2 ->
    bind (loop xlate KARMAGPSData skip (remove_DVNM data) st1)
         (fun s => Ok (set_DVNM "" s))
    = bind (loop xlate KARMAGPSData skip data st2)
           (fun s => Ok (set_DVNM "" s)).
Proof.
  unfold loop.
  induction data as [|d data IH]; intros st1 st2 Heq.
  - cbn; rewrite Heq; reflexivity.
  - assert (Hcases : (exists s, d = R_DVNM s) \/ (forall s, d <> R_DVNM s)).
    { destruct d; try (right; discriminate); left; eexists; reflexivity. }
    destruct Hcases as [[s ->]|Hd].
    + cbn [remove_DVNM filter foldM step bind]; apply IH.
      rewrite Heq; destruct st2; reflexivity.
    + assert (Hkeep : remove_DVNM (d :: data) = d :: remove_DVNM data).
      { unfold remove_DVNM; cbn [filter].
        destruct d; try reflexivity. exfalso; eapply Hd; reflexivity. }
      rewrite Hkeep; cbn [foldM].
      assert (E1 : step xlate KARMAGPSData skip st1 d
                   = bind (step xlate KARMAGPSData skip (set_DVNM "" st1) d)
                          (fun s => Ok (set_DVNM (DVNM st1) s))).
      { transitivity
          (step xlate KARMAGPSData skip (set_DVNM (DVNM st1) (set_DVNM "" st1)) d);
          [destruct st1; reflexivity | apply step_DVNM; assumption]. }
      assert (E2 : step xlate KARMAGPSData skip st2 d
                   = bind (step xlate KARMAGPSData skip (set_DVNM "" st2) d)
                          (fun s => Ok (set_DVNM (DVNM st2) s))).
      { transitivity
          (step xlate KARMAGPSData skip (set_DVNM (DVNM st2) (set_DVNM "" st2)) d);
          [destruct st2; reflexivity | apply step_DVNM; assumption]. }
      rewrite <- Heq in E2; rewrite E1, E2.
      destruct (step xlate KARMAGPSData skip (set_DVNM "" st1) d) as [s|e];
        cbn [bind]; [|reflexivity].
      apply IH; destruct s; reflexivity.
Qed.

End DeviceName.

Lemma last_DVNM_removed (data : list KLVData) (dflt : string) :
  last_DVNM (remove_DVNM data) dflt = dflt.
Proof.
  unfold last_DVNM, remove_DVNM.
  induction data as [|d data IH]; cbn [filter fold_left]; [reflexivity|].
  destruct d; cbn [fold_left]; exact IH.
Qed.

(** X15: the device name labels the result and nothing else: without its
    DVNM records a sequence makes [BuildGPSPoints] raise the same
    exception, or return the same points and the same start time under
    the name "Unknown". *)
Theorem X15_device_name_only_labels :
  forall (xlate : Z -> option string) (KARMAGPSData : layout)
         (data : list KLVData) (skip : bool),
    match BuildGPSPoints xlate KARMAGPSData data skip with
    | Ok ((pts, start, _), _) =>
        exists out',
          BuildGPSPoints xlate KARMAGPSData (remove_DVNM data) skip
          = Ok ((pts, start, "Unknown"%string), out')
    | Raise e =>
        BuildGPSPoints xlate KARMAGPSData (remove_DVNM data) skip = Raise e
    end.
Proof.
  intros xlate K data skip.
  pose proof (loop_without_DVNM xlate K skip data init init eq_refl) as H.
  unfold BuildGPSPoints.
  destruct (loop xlate K skip (remove_DVNM data) init) as [s1|e1] eqn:E1;
    destruct (loop xlate K skip data init) as [s2|e2];
    cbn [bind] in H |- *; try discriminate.
  - assert (H0 : set_DVNM "" s1 = set_DVNM "" s2) by congruence.
    pose proof (loop_counts xlate K skip (remove_DVNM data) init s1 E1)
      as [_ [_ Hd]].
    rewrite last_DVNM_removed in Hd.
    destruct s1, s2; cbn in H0, Hd |- *; ok_inv H0.
    eexists; reflexivity.
  - ok_inv H; reflexivity.
Qed.

(** ** The input files and the dumps *)

Lemma string_length_append (a b : string) :
  String.length (String.append a b) = String.length a + String.length b.
Proof. induction a as [|c a IH]; cbn; [reflexivity|rewrite IH; reflexivity]. Qed.

Lemma string_append_inj_l (s a b : string) :
  String.append s a = String.append s b -> a = b.
Proof.
  induction s as [|c s IH]; cbn; [auto|].
  intros H; injection H as H; auto.
Qed.

Lemma string_append_inj_r (t : string) :
  forall a b : string, String.append a t = String.append b t -> a = b.
Proof.
  induction a as [|c a IH]; intros [|c' b] H.
  - reflexivity.
  - apply (f_equal String.length) in H.
    cbn in H; rewrite string_length_append in H; lia.
  - apply (f_equal String.length) in H.
    cbn in H; rewrite string_length_append in H; lia.
  - cbn in H; injection H as Hc H; subst; f_equal; auto.
Qed.

Lemma to_uint_normal (n : nat) :
  Decimal.unorm (Nat.to_uint n) = Nat.to_uint n.
Proof.
  rewrite <- DecimalNat.Unsigned.to_of, DecimalNat.Unsigned.of_to; reflexivity.
Qed.

Lemma to_uint_nonnil (n : nat) : Nat.to_uint n <> Decimal.Nil.
Proof. rewrite <- to_uint_normal; apply DecimalFacts.unorm_nonnil. Qed.

(** The index can be read back from its two-digit form. *)
Lemma format_02d_read_back (num : nat) :
  option_map Nat.of_uint (DecimalString.NilZero.uint_of_string (format_02d num))
  = Some num.
Proof.
  assert (Hd : DecimalString.NilZero.uint_of_string (decimal num)
               = Some (Nat.to_uint num)).
  { apply DecimalString.NilZero.usu, to_uint_nonnil. }
  unfold format_02d; destruct (String.length (decimal num) <? 2).
  - destruct (decimal num) as [|c s] eqn:E; [discriminate|].
    cbn [DecimalString.NilZero.uint_of_string] in Hd |- *.
    change (DecimalString.NilEmpty.uint_of_string (String "0"%char (String c s)))
      with (DecimalString.uint_of_char "0"%char
              (DecimalString.NilEmpty.uint_of_string (String c s))).
    rewrite Hd.
    transitivity (Some (Nat.of_uint (Nat.to_uint num))); [reflexivity|].
    rewrite DecimalNat.Unsigned.of_to; reflexivity.
  - rewrite Hd; cbn [option_map]; rewrite DecimalNat.Unsigned.of_to; reflexivity.
Qed.

Lemma binary_filename_inj (output_file : string) (m n : nat) :
  binary_filename output_file m = binary_filename output_file n -> m = n.
Proof.
  unfold binary_filename; intros H.
  apply string_append_inj_l in H; apply string_append_inj_l in H.
  apply string_append_inj_r in H.
  pose proof (format_02d_read_back m) as Hm.
  rewrite H, format_02d_read_back in Hm; congruence.
Qed.

Example binary_filename_examples :
  map (binary_filename "out") [0; 7; 12; 123]
  = ["out.00.bin"; "out.07.bin"; "out.12.bin"; "out.123.bin"]%string.
Proof. vm_compute; reflexivity. Qed.

Lemma NoDup_map_injective {A B : Type} (f : A -> B) (l : list A) :
  (forall x y, f x = f y -> x = y) -> NoDup l -> NoDup (map f l).
Proof.
  intros Hinj; induction 1 as [|x l Hx Hl IH]; cbn; constructor; [|exact IH].
  intros Hin; apply in_map_iff in Hin as [y [Hy Hin]].
  apply Hinj in Hy; subst; contradiction.
Qed.

Section InputsFacts.

Variable raw : Type.
Variable readRawTelemetryFromMP4 : string -> raw.
Variable readRawTelemetryFromBinary : string -> raw.
Variable parseStream : raw -> list KLVData.

Lemma read_inputs_from (binary : bool) (verbose : Z) (output_file : string)
    (files : list string) :
  forall (num : nat) (data : list KLVData) (written : list (string * raw)),
    let '(num', data', written') :=
      fold_left (read_one raw readRawTelemetryFromMP4 readRawTelemetryFromBinary
                          parseStream binary verbose output_file)
                files (num, data, written) in
    num' = num + List.length files
    /\ data'
       = data
         ++ flat_map (fun f => parseStream
                                 (if negb binary then readRawTelemetryFromMP4 f
                                  else readRawTelemetryFromBinary f)) files
    /\ map fst written'
       = map fst written
         ++ (if (verbose =? 2)%Z
             then map (binary_filename output_file) (seq num (List.length files))
             else []).
Proof.
  induction files as [|f files IH]; intros num data written.
  - cbn; rewrite Nat.add_0_r, !app_nil_r.
    destruct (verbose =? 2)%Z; rewrite ?app_nil_r; auto.
  - cbn [fold_left read_one].
    match goal with
    | |- context [fold_left _ files (?n1, ?d1, ?w1)] =>
        specialize (IH n1 d1 w1);
        destruct (fold_left _ files (n1, d1, w1)) as [[num' data'] written']
    end.
    destruct IH as [Hn [Hd Hw]]; cbn [List.length flat_map seq map].
    repeat split.
    + lia.
    + rewrite Hd, <- app_assoc; reflexivity.
    + rewrite Hw; destruct (verbose =? 2)%Z.
      * rewrite map_app, <- app_assoc; reflexivity.
      * reflexivity.
Qed.

End InputsFacts.

(** X16: the loop of [main_core] over the input files hands the pass the
    records of the files put end to end in the order of the command line,
    and counts the files.  With [verbose] at 2 it writes one dump per
    file, named [output_file.NN.bin] after the index of the file (two
    digits at least), and no two dumps of a run share a name; at any other
    verbosity it writes none. *)
Theorem X16_inputs_in_order_and_dumps_apart :
  forall (raw : Type) (readRawTelemetryFromMP4 readRawTelemetryFromBinary : string -> raw)
         (parseStream : raw -> list KLVData)
         (binary : bool) (verbose : Z) (output_file : string)
         (files : list string),
    let '(num, data, written) :=
      read_inputs raw readRawTelemetryFromMP4 readRawTelemetryFromBinary parseStream
                  binary verbose output_file files in
    num = List.length files
    /\ data
       = flat_map (fun f => parseStream
                               (if negb binary then readRawTelemetryFromMP4 f
                                else readRawTelemetryFromBinary f)) files
    /\ map fst written
       = (if (verbose =? 2)%Z
          then map (binary_filename output_file) (seq 0 (List.length files))
          else [])
    /\ NoDup (map fst written).
Proof.
  intros raw mp4 bin parseStream binary verbose output_file files.
  unfold read_inputs.
  pose proof (read_inputs_from raw mp4 bin parseStream binary verbose
                output_file files 0 [] []) as H.
  destruct (fold_left _ files (0, [], [])) as [[num data] written].
  destruct H as [Hn [Hd Hw]]; cbn in Hn, Hd, Hw.
  repeat split; auto.
  rewrite Hw; destruct (verbose =? 2)%Z; [|constructor].
  apply NoDup_map_injective; [apply binary_filename_inj|apply seq_NoDup].
Qed.

(** ** A sample within a pass *)

Section WithinAPass.

Variable xlate : Z -> option string.
Variable KARMAGPSData : layout.

Lemma BuildGPSPoints_is_pass (data : list KLVData) (skip : bool) :
  BuildGPSPoints xlate KARMAGPSData data skip
  = rest_of_pass xlate KARMAGPSData skip init data.
Proof.
  unfold BuildGPSPoints, rest_of_pass.
  destruct (loop xlate KARMAGPSData skip data init); reflexivity.
Qed.

(** A pass that reaches the record [d] in the state [st] does the branch
    of [d] there and goes on with the records after it. *)
Lemma pass_reaches_record (skip : bool) (pre post : list KLVData)
    (d : KLVData) (st : state) :
  loop xlate KARMAGPSData skip pre init = Ok st ->
  BuildGPSPoints xlate KARMAGPSData (pre ++ d :: post) skip
  = bind (step xlate KARMAGPSData skip st d)
         (fun st' => rest_of_pass xlate KARMAGPSData skip st' post).
Proof.
  intros Hpre; rewrite BuildGPSPoints_is_pass.
  unfold rest_of_pass, loop in *; rewrite foldM_app, Hpre; cbn [bind foldM].
  destruct (step xlate KARMAGPSData skip st d); reflexivity.
Qed.

(** A pass that reaches the sample [item] of a GPS5 record, after the
    samples [earlier] of the record, does the loop body on [item] there
    and goes on with the samples and the records after it. *)
Lemma pass_reaches_sample (skip : bool) (pre post : list KLVData)
    (earlier later : list (GPSData Z)) (item : GPSData Z)
    (st : state) (acc : state * nat) :
  loop xlate KARMAGPSData skip pre init = Ok st ->
  foldM (gps5_item skip) earlier (st, 0) = Ok acc ->
  BuildGPSPoints xlate KARMAGPSData
    (pre ++ R_GPS5 (earlier ++ item :: later) :: post) skip
  = bind (gps5_item skip acc item)
         (fun acc' => rest_of_record xlate KARMAGPSData skip acc' later post).
Proof.
  intros Hpre Hearlier.
  rewrite (pass_reaches_record skip pre post _ st Hpre).
  cbn [step]; rewrite foldM_app, Hearlier; cbn [bind foldM].
  unfold rest_of_record.
  destruct (gps5_item skip acc item) as [acc'|e]; cbn [bind]; [|reflexivity].
  destruct (foldM (gps5_item skip) later acc') as [acc''|e]; reflexivity.
Qed.

Lemma loop_without_GPSU (skip : bool) (data : list KLVData) :
  forall st st' : state,
    existsb is_GPSU data = false ->
    loop xlate KARMAGPSData skip data st = Ok st' ->
    GPSU st' = GPSU st.
Proof.
  unfold loop.
  induction data as [|d data IH]; intros st st'; cbn [existsb foldM].
  - intros _ H; ok_inv H; reflexivity.
  - intros Hno; apply orb_false_iff in Hno as [Hd Hno].
    pose proof (step_anchor xlate KARMAGPSData skip st d) as Hs.
    destruct (step xlate KARMAGPSData skip st d) as [st1|e]; cbn [bind];
      [|discriminate].
    intros H; rewrite (IH st1 st' Hno H).
    destruct Hs as [Hs _]; rewrite Hs.
    destruct d; solve [reflexivity | discriminate].
Qed.

End WithinAPass.

(** The end of a pass whose last state is known: what is returned and
    printed, up to the arithmetic of the total. *)
Ltac end_of_pass :=
  unfold rest_of_record, rest_of_pass, loop; cbn [foldM bind fst snd];
  unfold finish, stats_block, total_points, note_badfix,
    incr_empty, incr_ok, incr_badfix, incr_badfixskip,
    set_stats, set_points, print;
  cbn [points start_time DVNM stdout stats ok badfix badfixskip empty];
  rewrite <- ?app_assoc; cbn [app];
  repeat f_equal; lia.

(** C6: within any pass of [BuildGPSPoints], under either skip policy and
    whatever the fix code is: a GPS5 sample whose latitude, longitude and
    altitude are all zero is not emitted and adds one to [empty]: the
    pass goes on from the state in which the warning is printed and
    [empty] is one more, the point list and the other counters being as
    they were; when the pass ends there, it returns the points it had and
    prints [empty] one more.  The same holds of a GPRI record whose three
    coordinates are zero. *)
Theorem C6_all_zero_is_counted_empty :
  forall (xlate : Z -> option string) (KARMAGPSData : layout) (skip : bool)
         (pre post : list KLVData) (st : state),
    loop xlate KARMAGPSData skip pre init = Ok st ->
    (forall (earlier later : list (GPSData Z)) (item : GPSData Z)
            (st1 : state) (n : nat),
        foldM (gps5_item skip) earlier (st, 0) = Ok (st1, n) ->
        lat item = 0%Z -> lon item = 0%Z -> alt item = 0%Z ->
        BuildGPSPoints xlate KARMAGPSData
          (pre ++ R_GPS5 (earlier ++ item :: later) :: post) skip
        = rest_of_record xlate KARMAGPSData skip
            (incr_empty (print SkipEmpty st1), n) later post
        /\
        BuildGPSPoints xlate KARMAGPSData
          (pre ++ [R_GPS5 (earlier ++ [item])]) skip
        = Ok ((points st1, start_time st1, DVNM st1),
              stdout st1
              ++ [SkipEmpty;
                  StatsBlock (DVNM st1) (ok (stats st1)) (badfix (stats st1))
                    (badfixskip (stats st1)) (S (empty (stats st1)))
                    (S (total_points (stats st1)))]))
    /\
    (forall values : list Z,
        field 0%Z (at_lat KARMAGPSData) values = 0%Z ->
        field 0%Z (at_lon KARMAGPSData) values = 0%Z ->
        field 0%Z (at_alt KARMAGPSData) values = 0%Z ->
        BuildGPSPoints xlate KARMAGPSData (pre ++ R_GPRI values :: post) skip
        = rest_of_pass xlate KARMAGPSData skip
            (incr_empty (print SkipEmpty st)) post
        /\
        BuildGPSPoints xlate KARMAGPSData (pre ++ [R_GPRI values]) skip
        = Ok ((points st, start_time st, DVNM st),
              stdout st
              ++ [SkipEmpty;
                  StatsBlock (DVNM st) (ok (stats st)) (badfix (stats st))
                    (badfixskip (stats st)) (S (empty (stats st)))
                    (S (total_points (stats st)))])).
Proof.
  intros xlate K skip pre post st Hpre; split.
  - intros earlier later item st1 n Hearlier Hlat Hlon Halt.
    assert (Hitem : gps5_item skip (st1, n) item
                    = Ok (incr_empty (print SkipEmpty st1), n)).
    { unfold gps5_item; rewrite Hlat, Hlon, Halt; reflexivity. }
    split.
    + rewrite (pass_reaches_sample xlate K skip pre post earlier later item
                 st (st1, n) Hpre Hearlier), Hitem; reflexivity.
    + rewrite (pass_reaches_sample xlate K skip pre [] earlier [] item
                 st (st1, n) Hpre Hearlier), Hitem.
      end_of_pass.
  - intros values Hlat Hlon Halt.
    assert (Hrec : step xlate K skip st (R_GPRI values)
                   = Ok (incr_empty (print SkipEmpty st))).
    { unfold step; rewrite Hlat, Hlon, Halt; reflexivity. }
    split.
    + rewrite (pass_reaches_record xlate K skip pre post _ st Hpre), Hrec;
        reflexivity.
    + rewrite (pass_reaches_record xlate K skip pre [] _ st Hpre), Hrec.
      end_of_pass.
Qed.

(** The theorem at a pass under a 3D fix and the skip policy that ends
    with the all-zero sample, and at one that ends with an all-zero GPRI
    record. *)
Lemma C6_witness :
  BuildGPSPoints LabelGPSF_xlate KARMA_layout
    ([R_GPSF 3] ++ [R_GPS5 ([] ++ [mkGPSData 0 0 0 7 9]%Z)]) true
  = Ok (([], None, "Unknown"%string),
        [FixChange 3 "3D Lock"; SkipEmpty; StatsBlock "Unknown" 0 0 0 1 1])
  /\
  BuildGPSPoints LabelGPSF_xlate KARMA_layout
    ([R_GPSF 3] ++ [R_GPRI [5; 6; 7; 0; 0; 0; 8; 9]%Z]) true
  = Ok (([], None, "Unknown"%string),
        [FixChange 3 "3D Lock"; SkipEmpty; StatsBlock "Unknown" 0 0 0 1 1]).
Proof.
  destruct (C6_all_zero_is_counted_empty LabelGPSF_xlate KARMA_layout true
              [R_GPSF 3] []
              (print (FixChange 3 "3D Lock") (set_GPSFIX 3 init)) eq_refl)
    as [Hgps Hgpri].
  split.
  - exact (proj2 (Hgps [] [] (mkGPSData 0 0 0 7 9)%Z
                    (print (FixChange 3 "3D Lock") (set_GPSFIX 3 init)) 0
                    eq_refl eq_refl eq_refl eq_refl)).
  - exact (proj2 (Hgpri [5; 6; 7; 0; 0; 0; 8; 9]%Z eq_refl eq_refl eq_refl)).
Defined.

(** ** The bad-fix policy within a pass *)

(** The fix code is 0 and the sample is not all zero, and with the skip
    policy off no point is emitted: no SCAL record came before, and
    [GPSData._make] refuses the three values scaled by the initial scale. *)
Lemma C4_kept_sample_needs_a_scale_of_five :
  BuildGPSPoints LabelGPSF_xlate KARMA_layout
    [R_GPSF 0; R_GPS5 [mkGPSData 1 2 3 4 5]%Z] false
  = Raise (TypeError (WrongArity 5 3)).
Proof. vm_compute; reflexivity. Qed.

(** C4, as amended: within any pass of [BuildGPSPoints], a GPS5 sample that
    is not all zero and is met while the fix code is 0.  With the skip
    policy on, it is not emitted and [badfix] and [badfixskip] each grow by
    one: the pass goes on from that state, and when it ends there it
    returns the points it had.  With the skip policy off, under an anchor
    and a scale vector whose first five components are non-zero, it is
    emitted and [badfix] grows by one, [badfixskip] staying as it was: the
    pass goes on with the point appended, and when it ends there it
    returns the points it had and the new one. *)
Theorem C4_bad_fix_policy :
  forall (xlate : Z -> option string) (KARMAGPSData : layout)
         (pre post : list KLVData) (earlier later : list (GPSData Z))
         (item : GPSData Z) (st st1 : state) (n : nat),
    all_zero (lon item) (lat item) (alt item) = false ->
    GPSFIX st1 = 0%Z ->
    (loop xlate KARMAGPSData true pre init = Ok st ->
     foldM (gps5_item true) earlier (st, 0) = Ok (st1, n) ->
     BuildGPSPoints xlate KARMAGPSData
       (pre ++ R_GPS5 (earlier ++ item :: later) :: post) true
     = rest_of_record xlate KARMAGPSData true
         (incr_badfixskip (print SkipBadFix (incr_badfix st1)), n) later post
     /\
     BuildGPSPoints xlate KARMAGPSData
       (pre ++ [R_GPS5 (earlier ++ [item])]) true
     = Ok ((points st1, start_time st1, DVNM st1),
           stdout st1
           ++ [SkipBadFix;
               StatsBlock (DVNM st1) (ok (stats st1)) (S (badfix (stats st1)))
                 (S (badfixskip (stats st1))) (empty (stats st1))
                 (S (S (total_points (stats st1))))]))
    /\
    (forall (y0 y1 y2 y3 y4 : pynum) (rest : list pynum) (T : datetime),
        loop xlate KARMAGPSData false pre init = Ok st ->
        foldM (gps5_item false) earlier (st, 0) = Ok (st1, n) ->
        SCAL st1 = Vector (y0 :: y1 :: y2 :: y3 :: y4 :: rest) ->
        divisors_nonzero [y0; y1; y2; y3; y4] = true ->
        GPSU st1 = Some T ->
        BuildGPSPoints xlate KARMAGPSData
          (pre ++ R_GPS5 (earlier ++ item :: later) :: post) false
        = rest_of_record xlate KARMAGPSData false
            (incr_ok
               (set_points (points st1 ++ [scaled_point y0 y1 y2 y3 T n item])
                  (incr_badfix st1)),
             S n) later post
        /\
        BuildGPSPoints xlate KARMAGPSData
          (pre ++ [R_GPS5 (earlier ++ [item])]) false
        = Ok ((points st1 ++ [scaled_point y0 y1 y2 y3 T n item],
               start_time st1, DVNM st1),
              stdout st1
              ++ [StatsBlock (DVNM st1) (S (ok (stats st1)))
                    (S (badfix (stats st1))) (badfixskip (stats st1))
                    (empty (stats st1)) (S (S (total_points (stats st1))))])).
Proof.
  intros xlate K pre post earlier later item st st1 n Hne Hfix; split.
  - intros Hpre Hearlier.
    assert (Hitem : gps5_item true (st1, n) item
                    = Ok (incr_badfixskip (print SkipBadFix (incr_badfix st1)), n)).
    { unfold gps5_item, note_badfix; rewrite Hne, Hfix; reflexivity. }
    split.
    + rewrite (pass_reaches_sample xlate K true pre post earlier later item
                 st (st1, n) Hpre Hearlier), Hitem; reflexivity.
    + rewrite (pass_reaches_sample xlate K true pre [] earlier [] item
                 st (st1, n) Hpre Hearlier), Hitem.
      end_of_pass.
  - intros y0 y1 y2 y3 y4 rest T Hpre Hearlier HS Hnz HU.
    assert (Hacc : accepted false st1 item = true).
    { unfold accepted, passes_filters; rewrite Hne, andb_false_r; reflexivity. }
    assert (Hitem : gps5_item false (st1, n) item
                    = Ok (incr_ok
                            (set_points
                               (points st1 ++ [scaled_point y0 y1 y2 y3 T n item])
                               (incr_badfix st1)),
                          S n)).
    { rewrite (gps5_item_emits false st1 n item y0 y1 y2 y3 y4 rest T
                 HS Hnz HU Hacc).
      unfold note_badfix; rewrite Hfix; reflexivity. }
    split.
    + rewrite (pass_reaches_sample xlate K false pre post earlier later item
                 st (st1, n) Hpre Hearlier), Hitem; reflexivity.
    + rewrite (pass_reaches_sample xlate K false pre [] earlier [] item
                 st (st1, n) Hpre Hearlier), Hitem.
      end_of_pass.
Qed.

(** The theorem at the scenario of the policy: no GPSF record (the fix code
    is 0), a scale vector of five ones and an anchor, then a GPS5 record of
    one sample; with the skip policy on, and off. *)
Lemma C4_witness :
  BuildGPSPoints LabelGPSF_xlate KARMA_layout
    ([SCAL_five_ones; R_GPSU 1000%Z] ++ [R_GPS5 ([] ++ [mkGPSData 1 2 3 4 5]%Z)])
    true
  = Ok (([], Some 1000%Z, "Unknown"%string),
        [SkipBadFix; StatsBlock "Unknown" 0 1 1 0 2])
  /\
  BuildGPSPoints LabelGPSF_xlate KARMA_layout
    ([SCAL_five_ones; R_GPSU 1000%Z] ++ [R_GPS5 ([] ++ [mkGPSData 1 2 3 4 5]%Z)])
    false
  = Ok (([mkPoint 1 2 3 (mkTime 1000%Z 0) 4], Some 1000%Z, "Unknown"%string),
        [StatsBlock "Unknown" 1 1 0 0 2]).
Proof.
  destruct (C4_bad_fix_policy LabelGPSF_xlate KARMA_layout
              [SCAL_five_ones; R_GPSU 1000%Z] [] [] []
              (mkGPSData 1 2 3 4 5)%Z
              (set_start_time (Some 1000%Z)
                 (set_GPSU (Some 1000%Z)
                    (set_SCAL (Vector (map PInt [1; 1; 1; 1; 1]%Z)) init)))
              (set_start_time (Some 1000%Z)
                 (set_GPSU (Some 1000%Z)
                    (set_SCAL (Vector (map PInt [1; 1; 1; 1; 1]%Z)) init)))
              0 eq_refl eq_refl) as [Hon Hoff].
  split.
  - exact (proj2 (Hon eq_refl eq_refl)).
  - pose proof (proj2 (Hoff (PInt 1) (PInt 1) (PInt 1) (PInt 1) (PInt 1) []
                          1000%Z eq_refl eq_refl eq_refl eq_refl eq_refl)) as H.
    vm_compute in H; vm_compute; exact H.
Defined.

(** ** The unset anchor within a pass *)

(** A sample that passes the two filters (3D fix, not all zero) and is met
    before any GPSU record: the pass fails, and not at the timestamp: no
    SCAL record came before, and [GPSData._make] refuses the three values
    scaled by the initial scale. *)
Lemma C10_sample_fails_before_the_timestamp :
  BuildGPSPoints LabelGPSF_xlate KARMA_layout
    [R_GPSF 3; R_GPS5 [mkGPSData 1 2 3 4 5]%Z] false
  = Raise (TypeError (WrongArity 5 3)).
Proof. vm_compute; reflexivity. Qed.

(** C10, as amended: within any pass of [BuildGPSPoints], a GPS5 sample
    that passes the two filters and is met before any GPSU record is not
    emitted: the pass ends with an exception, which is the [TypeError] of
    the timestamp ([None + timedelta]) when the first five components of
    the scale vector are non-zero, the sample failing earlier (in the
    scaling or in [GPSData._make]) otherwise.  When a GPSU record comes
    before the first sample that passes the filters, no pass ends with the
    [TypeError] of the timestamp. *)
Theorem C10_unset_anchor :
  forall (xlate : Z -> option string) (KARMAGPSData : layout) (skip : bool),
    (forall (pre post : list KLVData) (earlier later : list (GPSData Z))
            (item : GPSData Z) (st st1 : state) (n : nat),
        existsb is_GPSU pre = false ->
        loop xlate KARMAGPSData skip pre init = Ok st ->
        foldM (gps5_item skip) earlier (st, 0) = Ok (st1, n) ->
        accepted skip st1 item = true ->
        (exists e,
            BuildGPSPoints xlate KARMAGPSData
              (pre ++ R_GPS5 (earlier ++ item :: later) :: post) skip
            = Raise e)
        /\
        (forall (y0 y1 y2 y3 y4 : pynum) (rest : list pynum),
            SCAL st1 = Vector (y0 :: y1 :: y2 :: y3 :: y4 :: rest) ->
            divisors_nonzero [y0; y1; y2; y3; y4] = true ->
            BuildGPSPoints xlate KARMAGPSData
              (pre ++ R_GPS5 (earlier ++ item :: later) :: post) skip
            = Raise (TypeError NoneAnchor)))
    /\
    (forall (pre post : list KLVData) (t : datetime),
        no_accepted_sample skip 0 pre = true ->
        BuildGPSPoints xlate KARMAGPSData (pre ++ R_GPSU t :: post) skip
        <> Raise (TypeError NoneAnchor)).
Proof.
  intros xlate K skip.
  destruct (unset_anchor_item_and_run xlate K skip) as [Hitem Hrun].
  split; [|exact Hrun].
  intros pre post earlier later item st st1 n Hno Hpre Hearlier Hacc.
  assert (HU : GPSU st1 = None).
  { pose proof (gps5_fold_anchor skip earlier st 0) as Hf.
    rewrite Hearlier in Hf; destruct Hf as [Hf _]; rewrite Hf.
    apply (loop_without_GPSU xlate K skip pre init st Hno Hpre). }
  rewrite (pass_reaches_sample xlate K skip pre post earlier later item
             st (st1, n) Hpre Hearlier).
  destruct (Hitem st1 n item HU Hacc) as [[e He] Hstamp].
  split.
  - exists e; rewrite He; reflexivity.
  - intros y0 y1 y2 y3 y4 rest HS Hnz.
    rewrite (Hstamp (mkGPSData
                       (float_of_int (lat item) / to_float y0)%float
                       (float_of_int (lon item) / to_float y1)%float
                       (float_of_int (alt item) / to_float y2)%float
                       (float_of_int (fourCC.speed item) / to_float y3)%float
                       (float_of_int (speed3d item) / to_float y4)%float));
      [reflexivity|].
    rewrite HS, (scale_fields_GPSData item y0 y1 y2 y3 y4 rest Hnz); reflexivity.
Qed.

(** The theorem at a pass that meets a sample under a scale vector of five
    ones and a 3D fix before any GPSU record, and at a pass in which the
    GPS5 record before the GPSU record holds the all-zero sample only. *)
Lemma C10_witness :
  BuildGPSPoints LabelGPSF_xlate KARMA_layout
    ([SCAL_five_ones; R_GPSF 3]
     ++ R_GPS5 ([] ++ mkGPSData 1 2 3 4 5 :: [mkGPSData 5 4 3 2 1])%Z
        :: [R_GPSU 1000%Z]) false
  = Raise (TypeError NoneAnchor)
  /\
  BuildGPSPoints LabelGPSF_xlate KARMA_layout
    ([SCAL_five_ones; R_GPS5 [mkGPSData 0 0 0 0 0]%Z]
     ++ R_GPSU 1000%Z :: [R_GPS5 [mkGPSData 1 2 3 4 5]%Z]) false
  <> Raise (TypeError NoneAnchor).
Proof.
  destruct (C10_unset_anchor LabelGPSF_xlate KARMA_layout false) as [Hitem Hrun].
  split.
  - destruct (Hitem [SCAL_five_ones; R_GPSF 3] [R_GPSU 1000%Z]
                [] [mkGPSData 5 4 3 2 1]%Z (mkGPSData 1 2 3 4 5)%Z
                (print (FixChange 3 "3D Lock")
                   (set_GPSFIX 3
                      (set_SCAL (Vector (map PInt [1; 1; 1; 1; 1]%Z)) init)))
                (print (FixChange 3 "3D Lock")
                   (set_GPSFIX 3
                      (set_SCAL (Vector (map PInt [1; 1; 1; 1; 1]%Z)) init)))
                0 eq_refl eq_refl eq_refl eq_refl) as [_ H].
    exact (H (PInt 1) (PInt 1) (PInt 1) (PInt 1) (PInt 1) [] eq_refl eq_refl).
  - exact (Hrun [SCAL_five_ones; R_GPS5 [mkGPSData 0 0 0 0 0]%Z]
                [R_GPS5 [mkGPSData 1 2 3 4 5]%Z] 1000%Z eq_refl).
Defined.

(** ** Single-channel extraction under a SCAL value that cannot divide *)

(** An ACCL record met after the SCAL tuple of the GPS5 records: no row is
    returned, [float(SCAL)] raises a [TypeError]. *)
Lemma C8_SCAL_tuple_raises :
  GetACCLData
    [R_SCAL (Vector (map PInt [10; 10; 10; 10; 10]%Z)); R_ACCL [[1; 2; 3]]%Z]
  = Raise (TypeError NotANumber)
  /\
  main_core LabelGPSF_xlate KARMA_layout (Some "ACCL"%string) false
    [R_SCAL (Vector (map PInt [10; 10; 10; 10; 10]%Z)); R_ACCL [[1; 2; 3]]%Z]
  = Uncaught (TypeError NotANumber).
Proof. split; vm_compute; reflexivity. Qed.

(** ** A GPS5 record within a pass *)

(** X5: a GPS5 record met under an anchor [T] and a scale vector whose
    first five components are non-zero never fails: its branch appends,
    in input order, the points of exactly the samples that pass the two
    filters, each stamped with its rank among those (not its position in
    the record) times [t_delta], [sample_count] ending as their number;
    a pass that ends with the record returns these points after those it
    had. *)
Theorem X5_record_emits_accepted_samples_by_rank :
  forall (xlate : Z -> option string) (KARMAGPSData : layout) (skip : bool)
         (y0 y1 y2 y3 y4 : pynum) (rest : list pynum) (T : datetime)
         (items : list (GPSData Z)) (st : state),
    SCAL st = Vector (y0 :: y1 :: y2 :: y3 :: y4 :: rest) ->
    divisors_nonzero [y0; y1; y2; y3; y4] = true ->
    GPSU st = Some T ->
    exists st',
      step xlate KARMAGPSData skip st (R_GPS5 items) = Ok st'
      /\ foldM (gps5_item skip) items (st, 0)
         = Ok (st', List.length (filter (passes_filters skip (GPSFIX st)) items))
      /\ points st'
         = points st
           ++ stamped (scaled_point y0 y1 y2 y3 T) 0
                      (filter (passes_filters skip (GPSFIX st)) items)
      /\ (forall pre : list KLVData,
             loop xlate KARMAGPSData skip pre init = Ok st ->
             exists out,
               BuildGPSPoints xlate KARMAGPSData (pre ++ [R_GPS5 items]) skip
               = Ok ((points st
                      ++ stamped (scaled_point y0 y1 y2 y3 T) 0
                                 (filter (passes_filters skip (GPSFIX st)) items),
                      start_time st, DVNM st), out)).
Proof.
  intros xlate K skip y0 y1 y2 y3 y4 rest T items st HS Hnz HU.
  destruct (gps5_fold_emits_by_rank skip y0 y1 y2 y3 y4 rest T items st 0
              HS Hnz HU) as [st' [E Hp]].
  cbn [Nat.add] in E.
  exists st'; split; [cbn [step]; rewrite E; reflexivity|].
  split; [exact E|]; split; [exact Hp|].
  intros pre Hpre.
  rewrite (pass_reaches_record xlate K skip pre [] _ st Hpre).
  cbn [step]; rewrite E; cbn [bind fst].
  unfold rest_of_pass, loop; cbn [foldM bind]; unfold finish.
  pose proof (gps5_fold_counts skip items (st, 0) (st', _) E) as [_ [Hs Hd]].
  cbn [fst] in Hs, Hd; rewrite Hp, Hs, Hd.
  eexists; reflexivity.
Qed.

(** The theorem at a record of four samples, two of them all zero, met
    under a 3D fix. *)
Lemma X5_witness :
  exists st',
    step LabelGPSF_xlate KARMA_layout false
      (set_GPSFIX 3 (set_GPSU (Some 1000%Z)
         (set_SCAL (Vector (map PInt [1; 1; 1; 1; 1]%Z)) init)))
      (R_GPS5 [mkGPSData 0 0 0 0 0; mkGPSData 1 2 3 4 5; mkGPSData 0 0 0 9 9;
               mkGPSData 6 7 8 9 10]%Z)
    = Ok st'
    /\ points st'
       = [mkPoint 1 2 3 (mkTime 1000%Z 0) 4;
          mkPoint 6 7 8 (mkTime 1000%Z (1 / 18)) 9]%float.
Proof.
  destruct (X5_record_emits_accepted_samples_by_rank LabelGPSF_xlate KARMA_layout
              false (PInt 1) (PInt 1) (PInt 1) (PInt 1) (PInt 1) [] 1000%Z
              [mkGPSData 0 0 0 0 0; mkGPSData 1 2 3 4 5; mkGPSData 0 0 0 9 9;
               mkGPSData 6 7 8 9 10]%Z
              (set_GPSFIX 3 (set_GPSU (Some 1000%Z)
                 (set_SCAL (Vector (map PInt [1; 1; 1; 1; 1]%Z)) init)))
              eq_refl eq_refl eq_refl) as [st' [E [_ [Hp _]]]].
  exists st'; split; [exact E|].
  rewrite Hp; vm_compute; reflexivity.
Defined.
